(** * arviz: the density plot (arviz/plots/densityplot.py)

    A shallow embedding of [densityplot] and its helper [_d_helper], with the
    properties their documentation states.

    The two functions are glue code: they validate the options, ask the
    collaborators (xarray, the KDE and HPD estimators, matplotlib) for
    results and draw.  The embedding keeps what the Python code does with
    these results:

    - objects that have an identity (the caller's datasets, the datasets
      made by xarray) live in a store indexed by locations;
    - every call that leaves the module is written to a trace, in the
      order of the calls;
    - a raised exception ends the run, the store and the trace of the
      moment are kept.

    Floating-point values are idealised as rationals ([Q]), a missing
    value is [NaN]. *)

From Stdlib Require Import QArith Qround Lqa.
From stdpp Require Import gmap strings list pretty.
Close Scope Q_scope.

(** ** Python values *)

(** The exceptions the code can end with. *)
Inductive exn :=
| ValueError (msg : string)
| IndexError (msg : string)
| TypeError (msg : string)
| KeyError (key : string)
| AttributeError (msg : string)
| UnboundLocalError (name : string).

(** The outcome of a call: an exception or a value. *)
Definition res (A : Type) : Type := exn + A.

(** A number as numpy hands it out, an [np.int64] or a float; [range]
    tells the two apart. *)
Inductive num :=
| PyInt (z : Z)
| PyFloat (q : Q).

Definition num_to_Q (n : num) : Q :=
  match n with
  | PyInt z => inject_Z z
  | PyFloat q => q
  end.

(** An [np.int64], the integer type of numpy, has 64 bits in two's
    complement. *)
Definition int64_min : Z := (- 2 ^ 63)%Z.
Definition int64_max : Z := (2 ^ 63 - 1)%Z.

Definition in_int64 (z : Z) : Prop := (int64_min <= z <= int64_max)%Z.

(** The arithmetic of [np.int64] wraps around. *)
Definition int64_wrap (z : Z) : Z := ((z - int64_min) mod 2 ^ 64 + int64_min)%Z.

Arguments int64_wrap : simpl never.

(** [n + k] for an integer literal [k]: the sum of an [np.int64] and a
    Python integer is an [np.int64] again, wrapped around where it
    overflows. *)
Definition num_add_int (n : num) (k : Z) : num :=
  match n with
  | PyInt z => PyInt (int64_wrap (z + k))
  | PyFloat q => PyFloat (q + inject_Z k)
  end.

(** A value of a numpy array of floats. *)
Inductive cell :=
| Num (q : Q)
| NaN.

Definition is_nan (c : cell) : bool :=
  match c with
  | NaN => true
  | Num _ => false
  end.

(** A numpy array, flattened: the [kind] of its dtype (["f"], ["i"], ["u"],
    ["b"], ...) and its items. *)
Record ndarray := {
  dtype_kind : string;
  items : list cell
}.

(** [values.flatten()]: a one-dimensional copy. *)
Definition ndarray_flatten (values : ndarray) : ndarray :=
  {| dtype_kind := dtype_kind values; items := items values |}.

(** ** xarray datasets *)

(** A dataset of posterior samples, seen along its [draw] dimension: for
    each draw its coordinate and, per variable, the values of that draw
    (over the chains and the variable's own dimensions).  Every variable
    has the [draw] dimension. *)
Record draw_slice := {
  draw_coord : Z;
  draw_values : list (string * list cell)
}.

Record Dataset := {
  slices : list draw_slice
}.

(** [data.draw]: the coordinate of the draw dimension. *)
Definition ds_draw (data : Dataset) : list Z :=
  map draw_coord (slices data).

Definition slice_has_nan (s : draw_slice) : bool :=
  existsb (fun v => existsb is_nan v.2) (draw_values s).

Definition slice_mask (s : draw_slice) : draw_slice :=
  {| draw_coord := draw_coord s;
     draw_values := map (fun v => (v.1, map (fun _ => NaN) v.2)) (draw_values s) |}.

(** [data.where(cond)] for a condition along [draw]: a new dataset, the
    values of the draws where the condition is false are replaced by NaN. *)
Definition ds_where (data : Dataset) (cond : list bool) : Dataset :=
  {| slices := zip_with (fun s (b : bool) => if b then s else slice_mask s)
                        (slices data) cond |}.

(** [data.dropna('draw')]: a new dataset without the draws that hold a
    missing value. *)
Definition ds_dropna_draw (data : Dataset) : Dataset :=
  {| slices := filter (fun s => slice_has_nan s = false) (slices data) |}.

(** ** The store *)

Abbreviation loc := nat.

(** What the caller can pass as one set of samples. *)
Inductive pyobj :=
| XrDataset (d : Dataset)
| Convertible (d : Dataset)
| Unsupported.

(** The store: the object at location [l] is [h !! l]; a new object gets
    the next location. *)
Abbreviation heap := (list pyobj).

(** ** Calls that leave the module *)

(** [selection] of [xarray_var_iter]: the coordinates that pick one scalar
    trace of a variable. *)
Definition selection := list (string * Z).

Inductive hist_style :=
| HistStep
| HistFilled (alpha : Q).

Inductive event :=
| Call_convert_to_xarray (obj : loc)
| Call_where (data : loc) (cond : list bool)
| Call_dropna (data : loc) (dim : string)
| Call_xarray_var_iter (data : loc) (var_names : option (list string))
| Call_fast_kde (vec : ndarray) (bw : Q)
| Call_hpd (vec : ndarray) (alpha : Q)
| Plt_subplots (nrows ncols : nat) (figsize : Q * Q)
| Ax_plot (ax : nat) (xs ys : list Q) (color : string) (lw : Q)
| Ax_fill_between (ax : nat) (x y : list Q) (where_ : list bool) (color : string) (alpha : Q)
| Ax_hist (ax : nat) (vec : ndarray) (bins : list Z) (color : string) (style : hist_style)
| Ax_plot_marker (ax : nat) (x y : num) (marker color markeredgecolor : string) (markersize : Q)
| Ax_plot_legend_entry (ax : nat) (label color : string) (markersize : Q)
| Ax_legend (ax : nat) (fontsize : Q)
| Ax_set_yticks (ax : nat)
| Ax_set_title (ax : nat) (title : string)
| Ax_spine_set_visible (ax : nat) (pos : string) (visible : bool)
| Ax_tick_params (ax : nat) (labelsize : Q)
| Fig_tight_layout.

(** The calls to matplotlib: creating the figure and drawing. *)
Definition is_plotting (e : event) : bool :=
  match e with
  | Call_convert_to_xarray _ | Call_where _ _ | Call_dropna _ _
  | Call_xarray_var_iter _ _ | Call_fast_kde _ _ | Call_hpd _ _ => false
  | _ => true
  end.

(** The calls that compute on the samples. *)
Definition is_computation (e : event) : bool := negb (is_plotting e).

Definition creates_figure (e : event) : bool :=
  match e with
  | Plt_subplots _ _ _ => true
  | _ => false
  end.

(** ** The monad of the embedding *)

(** A computation reads and extends the store, writes its calls to the
    trace and ends with a value or an exception. *)
Definition M (A : Type) : Type := heap -> heap * list event * res A.

#[global] Instance M_ret : MRet M := fun A a h => (h, [], inr a).

#[global] Instance M_bind : MBind M := fun A B f m h =>
  match m h with
  | (h1, t1, inl e) => (h1, t1, inl e)
  | (h1, t1, inr a) =>
      match f a h1 with
      | (h2, t2, r) => (h2, t1 ++ t2, r)
      end
  end.

Definition raise {A} (e : exn) : M A := fun h => (h, [], inl e).

Definition emit (e : event) : M unit := fun h => (h, [e], inr tt).

Definition lift {A} (r : res A) : M A := fun h => (h, [], r).

Definition alloc (o : pyobj) : M loc := fun h => (h ++ [o], [], inr (length h)).

Definition deref (l : loc) : M pyobj := fun h =>
  match h !! l with
  | Some o => (h, [], inr o)
  | None => (h, [], inl (AttributeError "no such object"))
  end.

(** [if c: body] *)
Definition when (c : bool) (body : M unit) : M unit :=
  if c then body else mret tt.

(** [for x in l: body(x)] *)
Fixpoint for_each {A} (l : list A) (body : A -> M unit) : M unit :=
  match l with
  | [] => mret tt
  | x :: l' => _ ← body x; for_each l' body
  end.

(** [[f(x) for x in l]] *)
Fixpoint comprehension {A B} (f : A -> M B) (l : list A) : M (list B) :=
  match l with
  | [] => mret []
  | x :: l' => y ← f x; ys ← comprehension f l'; mret (y :: ys)
  end.

(** [enumerate(l)] *)
Definition enumerate {A} (l : list A) : list (nat * A) :=
  zip (seq 0 (length l)) l.

(** ** Builtins *)

(** [str(n)] of a natural number, as an f-string prints it. *)
Definition py_str (n : nat) : string := pretty n.

(** [l[i]] of a Python list. *)
Definition list_getitem {A} (l : list A) (i : nat) : res A :=
  match l !! i with
  | Some x => inr x
  | None => inl (IndexError "list index out of range")
  end.

(** [a[0]] and [a[-1]] of a numpy array. *)
Definition array_first {A} (a : list A) : res A :=
  match head a with
  | Some x => inr x
  | None => inl (IndexError "index 0 is out of bounds for axis 0 with size 0")
  end.

Definition array_last {A} (a : list A) : res A :=
  match last a with
  | Some x => inr x
  | None => inl (IndexError "index -1 is out of bounds for axis 0 with size 0")
  end.

(** [a[mask]] of a numpy array, for a mask of the length of [a]: the items
    where the mask is true. *)
Fixpoint array_mask {A} (a : list A) (mask : list bool) : list A :=
  match a, mask with
  | x :: a', b :: mask' => if b then x :: array_mask a' mask' else array_mask a' mask'
  | _, _ => []
  end.

(** [d[key]] of a dict with string keys. *)
Definition dict_getitem {A} (d : gmap string A) (key : string) : res A :=
  match d !! key with
  | Some x => inr x
  | None => inl (KeyError key)
  end.

(** [range(a, b)]: the integers from [a] up to [b], [b] excluded; both
    bounds have to be integers. *)
Definition Z_range (a b : Z) : list Z :=
  map (fun i => (a + Z.of_nat i)%Z) (seq 0 (Z.to_nat (b - a))).

Definition py_range (a b : num) : res (list Z) :=
  match a, b with
  | PyInt x, PyInt y => inr (Z_range x y)
  | _, _ => inl (TypeError "'numpy.float64' object cannot be interpreted as an integer")
  end.

(** [np.linspace(start, stop, n)]: [n] evenly spaced points, the two ends
    included ([arange(0, n) * step + start]; numpy stores [stop] itself as
    the last point, here it is a rational equal to [stop]). *)
Definition np_linspace (start stop : Q) (n : nat) : list Q :=
  match n with
  | 0 => []
  | 1 => [start]
  | _ => let step := ((stop - start) / inject_Z (Z.of_nat (n - 1)))%Q in
         map (fun i => (inject_Z (Z.of_nat i) * step + start)%Q) (seq 0 n)
  end.

(** [x >= a], [x <= a] and [m1 & m2] of numpy arrays. *)
Definition np_ge (x : list Q) (a : Q) : list bool := map (fun xi => Qle_bool a xi) x.

Definition np_le (x : list Q) (a : Q) : list bool := map (fun xi => Qle_bool xi a) x.

Definition np_and (m1 m2 : list bool) : list bool := zip_with andb m1 m2.

(** Truth value of a float: nonzero. *)
Definition Q_truthy (q : Q) : bool := negb (Qeq_bool q 0).

(** Truth value of a string: not empty. *)
Definition str_truthy (s : string) : bool :=
  match s with
  | EmptyString => false
  | _ => true
  end.

(** ** Collaborators *)

(** One variable instance as [xarray_var_iter] yields it. *)
Definition plotter : Type := string * selection * ndarray.

(** The functions [densityplot] imports from the rest of arviz and from
    numpy.  Their code is not part of the two functions verified here: the
    embedding takes them as parameters. *)
Record Collaborators := {
  (** [xarray_var_iter(data, var_names, combined=True)], as a list *)
  xarray_var_iter : Dataset -> option (list string) -> res (list plotter);
  (** [make_label(var_name, selection)] *)
  make_label : string -> selection -> string;
  (** [_scale_text(figsize, textsize=textsize)]:
      (textsize, linewidth, markersize) *)
  _scale_text : Q * Q -> option Q -> Q * Q * Q;
  (** [fast_kde(vec, bw=bw)]: (density, lower, upper) *)
  fast_kde : ndarray -> Q -> res (list Q * Q * Q);
  (** [hpd(vec, alpha)]: the two bounds of the interval *)
  hpd : ndarray -> Q -> res (num * num);
  (** [np.mean(vec)] and [np.median(vec)] *)
  np_mean : ndarray -> num;
  np_median : ndarray -> num
}.

(** Modelled from the spec: [convert_to_xarray] (arviz.utils) is missing
    from the sources.  It "accepts arbitrary supported input representations
    and produces a canonical labeled multi-dimensional array collection".
    An input that is canonical already is returned as it is, the same
    object: the case in which a later change of the result would reach the
    caller's data. *)
Definition convert_to_xarray (obj : loc) : M loc :=
  _ ← emit (Call_convert_to_xarray obj);
  o ← deref obj;
  match o with
  | XrDataset _ => mret obj
  | Convertible d => alloc (XrDataset d)
  | Unsupported => raise (TypeError "cannot convert to xarray")
  end.

Definition deref_dataset (data : loc) : M Dataset :=
  o ← deref data;
  match o with
  | XrDataset d => mret d
  | _ => raise (AttributeError "not a Dataset")
  end.

(** [data.draw >= skip_first] *)
Definition xr_draw_ge (data : loc) (skip_first : Z) : M (list bool) :=
  d ← deref_dataset data;
  mret (map (fun c => (skip_first <=? c)%Z) (ds_draw d)).

(** [data.where(cond)] *)
Definition xr_where (data : loc) (cond : list bool) : M loc :=
  _ ← emit (Call_where data cond);
  d ← deref_dataset data;
  alloc (XrDataset (ds_where d cond)).

(** [data.dropna(dim)] *)
Definition xr_dropna (data : loc) (dim : string) : M loc :=
  _ ← emit (Call_dropna data dim);
  d ← deref_dataset data;
  alloc (XrDataset (ds_dropna_draw d)).

(** What the caller passes as [data]: one object, or a list or tuple of
    them. *)
Inductive py_data :=
| Single (obj : loc)
| Sequence (objs : list loc).

(** What the caller passes as [colors]: a string or a list. *)
Inductive colors_arg :=
| ColorStr (s : string)
| ColorList (l : list string).

Section Densityplot.

Variable E : Collaborators.

(** ** [_d_helper] (lines 119-189) *)

Definition call_fast_kde (vec : ndarray) (bw : Q) : M (list Q * Q * Q) :=
  _ ← emit (Call_fast_kde vec bw);
  lift (fast_kde E vec bw).

Definition call_hpd (vec : ndarray) (alpha : Q) : M (num * num) :=
  _ ← emit (Call_hpd vec alpha);
  lift (hpd E vec alpha).

(** Lines 148-164: the branch of the floating-point vectors.  It returns
    [xmin] and [xmax]. *)
Definition kde_branch (vec : ndarray) (color : string) (bw linewidth alpha : Q)
    (outline : bool) (shade : Q) (ax : nat) : M (num * num) :=
  '(density, lower, upper) ← call_fast_kde vec bw;
  let x := np_linspace lower upper (length density) in
  hpd_ ← call_hpd vec alpha;
  let cut := np_and (np_ge x (num_to_Q hpd_.1)) (np_le x (num_to_Q hpd_.2)) in
  xmin ← lift (array_first (array_mask x cut));
  xmax ← lift (array_last (array_mask x cut));
  ymin ← lift (array_first (array_mask density cut));
  ymax ← lift (array_last (array_mask density cut));
  _ ← when outline (
    _ ← emit (Ax_plot ax (array_mask x cut) (array_mask density cut) color linewidth);
    _ ← emit (Ax_plot ax [xmin; xmin] [(- ymin / 100)%Q; ymin] color linewidth);
    emit (Ax_plot ax [xmax; xmax] [(- ymax / 100)%Q; ymax] color linewidth));
  _ ← when (Q_truthy shade) (emit (Ax_fill_between ax x density cut color shade));
  mret (PyFloat xmin, PyFloat xmax).

(** Lines 167-172: the branch of all other vectors. *)
Definition hist_branch (vec : ndarray) (color : string) (alpha : Q)
    (outline : bool) (shade : Q) (ax : nat) : M (num * num) :=
  '(xmin, xmax) ← call_hpd vec alpha;
  bins ← lift (py_range xmin (num_add_int xmax 2));
  _ ← when outline (emit (Ax_hist ax vec bins color HistStep));
  _ ← when (Q_truthy shade) (emit (Ax_hist ax vec bins color (HistFilled shade)));
  mret (xmin, xmax).

(** Lines 174-189: what is drawn for every vector. *)
Definition finish_panel (vec : ndarray) (vname color : string) (textsize markersize : Q)
    (point_estimate : option string) (hpd_markers : string) (xmin xmax : num) (ax : nat) : M unit :=
  _ ← when (str_truthy hpd_markers) (
    _ ← emit (Ax_plot_marker ax xmin (PyInt 0) hpd_markers color "k" markersize);
    emit (Ax_plot_marker ax xmax (PyInt 0) hpd_markers color "k" markersize));
  _ ← match point_estimate with
      | None => mret tt
      | Some kind =>
          est ← (if String.eqb kind "mean" then mret (np_mean E vec)
                 else if String.eqb kind "median" then mret (np_median E vec)
                 else raise (UnboundLocalError "est"));
          emit (Ax_plot_marker ax est (PyFloat (- (1 # 1000))%Q) "o" color "k" markersize)
      end;
  _ ← emit (Ax_set_yticks ax);
  _ ← emit (Ax_set_title ax vname);
  _ ← for_each ["left"; "right"; "top"] (fun pos => emit (Ax_spine_set_visible ax pos false));
  emit (Ax_tick_params ax textsize).

Definition _d_helper (vec : ndarray) (vname color : string)
    (bw textsize linewidth markersize alpha : Q) (point_estimate : option string)
    (hpd_markers : string) (outline : bool) (shade : Q) (ax : nat) : M unit :=
  '(xmin, xmax) ← (if String.eqb (dtype_kind vec) "f"
                   then kde_branch vec color bw linewidth alpha outline shade ax
                   else hist_branch vec color alpha outline shade ax);
  finish_panel vec vname color textsize markersize point_estimate hpd_markers xmin xmax ax.

(** ** [densityplot] (lines 10-116) *)

(** Lines 63-66. *)
Definition convert_all (data : py_data) : M (list loc) :=
  match data with
  | Single obj => d ← convert_to_xarray obj; mret [d]
  | Sequence objs => comprehension convert_to_xarray objs
  end.

(** Line 67, for one dataset. *)
Definition burn_in_one (skip_first : Z) (data : loc) : M loc :=
  cond ← xr_draw_ge data skip_first;
  masked ← xr_where data cond;
  xr_dropna masked "draw".

(** Line 67. *)
Definition burn_in (skip_first : Z) (datasets : list loc) : M (list loc) :=
  comprehension (burn_in_one skip_first) datasets.

(** Lines 63-67. *)
Definition prepare_datasets (data : py_data) (skip_first : Z) : M (list loc) :=
  datasets ← convert_all data;
  burn_in skip_first datasets.

(** Lines 69-70. *)
Definition check_point_estimate (point_estimate : option string) : M unit :=
  match point_estimate with
  | None => mret tt
  | Some kind =>
      if String.eqb kind "mean" || String.eqb kind "median" then mret tt
      else raise (ValueError
             ("Point estimate should be 'mean', 'median' or None, not " +:+ kind))
  end.

(** Lines 74-81. *)
Definition resolve_data_labels (data_labels : option (list string)) (n_data : nat)
    : res (list string) :=
  match data_labels with
  | None =>
      if 1 <? n_data then inr (map py_str (seq 0 n_data))
      else inr [""]
  | Some labels =>
      if negb (length labels =? n_data) then
        inl (ValueError ("The number of names for the models (" +:+ py_str (length labels)
                         +:+ ") does not match the number of models ("
                         +:+ py_str n_data +:+ ")"))
      else inr labels
  end.

(** Lines 83-86. *)
Definition resolve_colors (colors : colors_arg) (n_data : nat) : list string :=
  match colors with
  | ColorStr s =>
      if String.eqb s "cycle" then map (fun idx => "C" +:+ py_str (idx mod 10)) (seq 0 n_data)
      else map (fun _ => s) (seq 0 n_data)
  | ColorList l => l
  end.

(** Line 88, for one dataset. *)
Definition var_iter_list (var_names : option (list string)) (data : loc) : M (list plotter) :=
  _ ← emit (Call_xarray_var_iter data var_names);
  d ← deref_dataset data;
  lift (xarray_var_iter E d var_names).

(** Lines 89-92: the set of the labels. *)
Definition collect_labels (to_plot : list (list plotter)) : gset string :=
  foldl (fun all_labels plotters =>
           foldl (fun all_labels (p : plotter) =>
                    all_labels ∪ {[ make_label E p.1.1 p.1.2 ]})
                 all_labels plotters)
        ∅ to_plot.

(** Line 99: the axes of a new figure, [axes.flatten()] numbers them.
    matplotlib makes the figure and then refuses a grid without rows or
    without columns. *)
Definition plt_subplots (nrows ncols : nat) (figsize : Q * Q) : M (list nat) :=
  _ ← emit (Plt_subplots nrows ncols figsize);
  if nrows =? 0 then
    raise (ValueError "Number of rows must be a positive integer, not 0")
  else if ncols =? 0 then
    raise (ValueError "Number of columns must be a positive integer, not 0")
  else mret (seq 0 (nrows * ncols)).

(** Line 100. *)
Definition make_axis_map (all_labels : gset string) (axes : list nat) : gmap string nat :=
  list_to_map (zip (elements all_labels) axes).

(** Lines 103-106: the variables of one dataset. *)
Definition render_dataset (colors : list string) (axis_map : gmap string nat)
    (bw textsize linewidth markersize alpha : Q) (point_estimate : option string)
    (hpd_markers : string) (outline : bool) (shade : Q)
    (m_idx : nat) (plotters : list plotter) : M unit :=
  for_each plotters (fun p =>
    let '(var_name, selection, values) := p in
    let label := make_label E var_name selection in
    let vec := ndarray_flatten values in
    color ← lift (list_getitem colors m_idx);
    ax ← lift (dict_getitem axis_map label);
    _d_helper vec label color bw textsize linewidth markersize alpha point_estimate
              hpd_markers outline shade ax).

(** Lines 102-106. *)
Definition render_all (colors : list string) (axis_map : gmap string nat)
    (bw textsize linewidth markersize alpha : Q) (point_estimate : option string)
    (hpd_markers : string) (outline : bool) (shade : Q)
    (to_plot : list (list plotter)) : M unit :=
  for_each (enumerate to_plot) (fun ip =>
    render_dataset colors axis_map bw textsize linewidth markersize alpha point_estimate
                   hpd_markers outline shade ip.1 ip.2).

(** Lines 109-112. *)
Definition add_legend (axes : list nat) (data_labels colors : list string)
    (textsize markersize : Q) : M unit :=
  ax ← lift (array_first axes);
  _ ← for_each (enumerate data_labels) (fun il =>
        color ← lift (list_getitem colors il.1);
        emit (Ax_plot_legend_entry ax il.2 color markersize));
  emit (Ax_legend ax textsize).

(** Lines 72-116: all that follows the check of [point_estimate]. *)
Definition plot_datasets (datasets : list loc) (data_labels : option (list string))
    (var_names : option (list string)) (alpha : Q) (point_estimate : option string)
    (colors : colors_arg) (outline : bool) (hpd_markers : string) (shade bw : Q)
    (figsize : option (Q * Q)) (textsize : option Q) : M (list nat) :=
  let n_data := length datasets in
  data_labels ← lift (resolve_data_labels data_labels n_data);
  let colors := resolve_colors colors n_data in
  to_plot ← comprehension (var_iter_list var_names) datasets;
  let all_labels := collect_labels to_plot in
  let figsize := match figsize with
                 | None => (6, inject_Z (Z.of_nat (size all_labels * 2)))%Q
                 | Some fs => fs
                 end in
  let '(textsize, linewidth, markersize) := _scale_text E figsize textsize in
  axes ← plt_subplots (size all_labels) 1 figsize;
  let axis_map := make_axis_map all_labels axes in
  _ ← render_all colors axis_map bw textsize linewidth markersize alpha point_estimate
                 hpd_markers outline shade to_plot;
  _ ← when (1 <? n_data) (add_legend axes data_labels colors textsize markersize);
  _ ← emit Fig_tight_layout;
  mret axes.

Definition densityplot (data : py_data) (data_labels : option (list string))
    (var_names : option (list string)) (alpha : Q) (point_estimate : option string)
    (colors : colors_arg) (outline : bool) (hpd_markers : string) (shade bw : Q)
    (figsize : option (Q * Q)) (textsize : option Q) (skip_first : Z) : M (list nat) :=
  datasets ← prepare_datasets data skip_first;
  _ ← check_point_estimate point_estimate;
  plot_datasets datasets data_labels var_names alpha point_estimate colors outline
                hpd_markers shade bw figsize textsize.

End Densityplot.

(** ** A concrete set of collaborators

    Simple stand-ins for the functions of arviz and numpy, to run the
    embedding on concrete inputs. *)
Module Demo.

Definition cell_values (cs : list cell) : list Q :=
  omap (fun c => match c with Num q => Some q | NaN => None end) cs.

Definition Qmin_list (l : list Q) : option Q :=
  match l with
  | [] => None
  | q :: l' => Some (foldl (fun a b => if Qle_bool a b then a else b) q l')
  end.

Definition Qmax_list (l : list Q) : option Q :=
  match l with
  | [] => None
  | q :: l' => Some (foldl (fun a b => if Qle_bool a b then b else a) q l')
  end.

Fixpoint Qinsert (q : Q) (l : list Q) : list Q :=
  match l with
  | [] => [q]
  | p :: l' => if Qle_bool q p then q :: l else p :: Qinsert q l'
  end.

Definition Qsort (l : list Q) : list Q := foldr Qinsert [] l.

(** The names of the variables of a dataset. *)
Definition var_names_of (d : Dataset) : list string :=
  match slices d with
  | [] => []
  | s :: _ => map fst (draw_values s)
  end.

(** All values of one variable, draw after draw, as an array of floats. *)
Definition values_of (d : Dataset) (v : string) : ndarray :=
  {| dtype_kind := "f";
     items := concat (map (fun s => concat (map snd (filter (fun nv => nv.1 = v) (draw_values s))))
                          (slices d)) |}.

(** The variables of the dataset, or those of [var_names] that the
    dataset has; each is a scalar, its selection is empty. *)
Definition var_iter (d : Dataset) (var_names : option (list string)) : res (list plotter) :=
  let names := match var_names with
               | None => var_names_of d
               | Some l => filter (fun v => v ∈ var_names_of d) l
               end in
  inr (map (fun v => (v, [], values_of d v)) names).

Definition label (var_name : string) (sel : selection) : string :=
  foldl (fun s (c : string * Z) => s +:+ "_" +:+ pretty c.2) var_name sel.

Definition scale_text (figsize : Q * Q) (textsize : option Q) : Q * Q * Q :=
  match textsize with
  | Some t => (t, t / 8, t / 2)%Q
  | None => (figsize.1 * 2, figsize.1 / 4, figsize.1)%Q
  end.

(** A flat density on five points between the least and the largest
    value. *)
Definition kde (vec : ndarray) (bw : Q) : res (list Q * Q * Q) :=
  let qs := cell_values (items vec) in
  match Qmin_list qs, Qmax_list qs with
  | Some lo, Some hi => inr (replicate 5 (1 # 5)%Q, lo, hi)
  | _, _ => inl (ValueError "zero-size array")
  end.

(** The interval from the least to the largest value. *)
Definition interval (vec : ndarray) (alpha : Q) : res (num * num) :=
  let qs := cell_values (items vec) in
  match Qmin_list qs, Qmax_list qs with
  | Some lo, Some hi =>
      if String.eqb (dtype_kind vec) "f" then inr (PyFloat lo, PyFloat hi)
      else inr (PyInt (Qfloor lo), PyInt (Qfloor hi))
  | _, _ => inl (IndexError "index out of bounds")
  end.

Definition mean (vec : ndarray) : num :=
  let qs := cell_values (items vec) in
  PyFloat (Qred (foldr Qplus 0%Q qs / inject_Z (Z.of_nat (length qs)))).

Definition median (vec : ndarray) : num :=
  let qs := Qsort (cell_values (items vec)) in
  let n := length qs in
  if Nat.even n
  then PyFloat (Qred ((nth (n / 2 - 1) qs 0%Q + nth (n / 2) qs 0%Q) / 2))
  else PyFloat (nth (n / 2) qs 0%Q).

Definition env : Collaborators := {|
  xarray_var_iter := var_iter;
  make_label := label;
  _scale_text := scale_text;
  fast_kde := kde;
  hpd := interval;
  np_mean := mean;
  np_median := median
|}.

(** A dataset of one scalar variable: one value per draw, the draws
    numbered from 0. *)
Definition dataset1 (v : string) (values : list cell) : Dataset :=
  {| slices := imap (fun i c => {| draw_coord := Z.of_nat i; draw_values := [(v, [c])] |}) values |}.

Definition floats (qs : list Q) : ndarray :=
  {| dtype_kind := "f"; items := map Num qs |}.

Definition ints (zs : list Z) : ndarray :=
  {| dtype_kind := "i"; items := map (fun z => Num (inject_Z z)) zs |}.

Definition bools (bs : list bool) : ndarray :=
  {| dtype_kind := "b"; items := map (fun b : bool => Num (if b then 1 else 0)%Q) bs |}.

End Demo.

(** ** Notions of the documentation *)

(** The palette of matplotlib's colour cycle. *)
Definition palette : list string :=
  ["C0"; "C1"; "C2"; "C3"; "C4"; "C5"; "C6"; "C7"; "C8"; "C9"].

(** The objects the caller passes as [data]. *)
Definition objs_of (data : py_data) : list loc :=
  match data with
  | Single obj => [obj]
  | Sequence objs => objs
  end.

(** The samples an object of the store stands for. *)
Definition dataset_at (h : heap) (obj : loc) : option Dataset :=
  match h !! obj with
  | Some (XrDataset d) | Some (Convertible d) => Some d
  | _ => None
  end.

(** A draw that holds at least one value. *)
Definition slice_has_value (s : draw_slice) : bool :=
  existsb (fun v => negb (bool_decide (v.2 = []))) (draw_values s).

(** The three parts of a run. *)
Definition store_of {A} (x : heap * list event * res A) : heap := x.1.1.
Definition trace_of {A} (x : heap * list event * res A) : list event := x.1.2.
Definition result_of {A} (x : heap * list event * res A) : res A := x.2.

(** The display labels of the variable instances of all datasets. *)
Definition instance_labels (E : Collaborators) (to_plot : list (list plotter)) : list string :=
  map (fun p : plotter => make_label E p.1.1 p.1.2) (concat to_plot).

(** Kinds of calls. *)
Definition is_kde_call (e : event) : bool :=
  match e with
  | Call_fast_kde _ _ => true
  | _ => false
  end.

Definition is_curve (e : event) : bool :=
  match e with
  | Ax_plot _ _ _ _ _ | Ax_fill_between _ _ _ _ _ _ => true
  | _ => false
  end.

Definition is_hist (e : event) : bool :=
  match e with
  | Ax_hist _ _ _ _ _ => true
  | _ => false
  end.

(** The entries of the legend: axis, label and colour. *)
Definition legend_entry (e : event) : option (nat * string * string) :=
  match e with
  | Ax_plot_legend_entry ax label color _ => Some (ax, label, color)
  | _ => None
  end.

Definition legend_entries (t : list event) : list (nat * string * string) :=
  omap legend_entry t.

(** The titles set on the panels: axis and title. *)
Definition panel_title (e : event) : option (nat * string) :=
  match e with
  | Ax_set_title ax title => Some (ax, title)
  | _ => None
  end.

(** The values of [point_estimate] the documentation allows. *)
Definition valid_point_estimate (point_estimate : option string) : Prop :=
  point_estimate = None ∨ point_estimate = Some "mean" ∨ point_estimate = Some "median".

(** The messages of the two configuration errors. *)
Definition point_estimate_message (kind : string) : string :=
  "Point estimate should be 'mean', 'median' or None, not " +:+ kind.

Definition data_labels_message (n_labels n_data : nat) : string :=
  "The number of names for the models (" +:+ py_str n_labels
  +:+ ") does not match the number of models (" +:+ py_str n_data +:+ ")".

(** What a call says about the titles of the panels. *)
Definition title_ok (ok : nat -> string -> Prop) (e : event) : Prop :=
  match e with
  | Ax_set_title ax title => ok ax title
  | _ => True
  end.

(** The calls of the rendering of one variable: they draw on panels, on
    the panel [ax] under the title [title]. *)
Definition draws_on (ok : nat -> string -> Prop) (e : event) : Prop :=
  creates_figure e = false ∧ legend_entry e = None ∧ title_ok ok e.

(** The rendering of the datasets [to_plot] ends with the exception [e]
    inside [_d_helper]: in the call for a variable of one of the datasets,
    made with the colour of the dataset and the panel of the label. *)
Definition render_raised_in (E : Collaborators) (colors : list string)
    (axis_map : gmap string nat) (bw textsize linewidth markersize alpha : Q)
    (point_estimate : option string) (hpd_markers : string) (outline : bool) (shade : Q)
    (to_plot : list (list plotter)) (e : exn) : Prop :=
  ∃ m_idx plotters (p : plotter) color ax h h' t,
    to_plot !! m_idx = Some plotters ∧ p ∈ plotters ∧
    colors !! m_idx = Some color ∧
    axis_map !! make_label E p.1.1 p.1.2 = Some ax ∧
    _d_helper E (ndarray_flatten p.2) (make_label E p.1.1 p.1.2) color bw textsize linewidth
              markersize alpha point_estimate hpd_markers outline shade ax h
    = (h', t, inl e).

(** [steps P m]: a run of [m] leaves every object of the store as it was
    (the store only grows) and makes only calls that satisfy [P]. *)
Definition steps {A} (P : event -> Prop) (m : M A) : Prop :=
  ∀ h h' t r, m h = (h', t, r) -> h `prefix_of` h' ∧ Forall P t.

(** ** Notions for the further properties *)

(** Line 151-153: the points of the grid of the density that lie inside
    the interval [hpd_]. *)
Definition restricted_domain (lower upper : Q) (n : nat) (hpd_ : num * num) : list Q :=
  let x := np_linspace lower upper n in
  array_mask x (np_and (np_ge x (num_to_Q hpd_.1)) (np_le x (num_to_Q hpd_.2))).

(** What the collaborators have to return for [_d_helper] to render a
    vector: a density and an interval that holds a point of the grid for a
    vector of floats, integer bounds of the interval for any other. *)
Definition can_render (E : Collaborators) (bw alpha : Q) (vec : ndarray) : Prop :=
  if String.eqb (dtype_kind vec) "f" then
    ∃ density lower upper hpd_,
      fast_kde E vec bw = inr (density, lower, upper) ∧
      hpd E vec alpha = inr hpd_ ∧
      restricted_domain lower upper (length density) hpd_ ≠ []
  else
    ∃ lo hi, hpd E vec alpha = inr (PyInt lo, PyInt hi).

(** The colour a call to matplotlib is given as [color] (or [c]). *)
Definition event_color (e : event) : option string :=
  match e with
  | Ax_plot _ _ _ color _ | Ax_fill_between _ _ _ _ color _ | Ax_hist _ _ _ color _
  | Ax_plot_marker _ _ _ _ color _ _ | Ax_plot_legend_entry _ _ color _ => Some color
  | _ => None
  end.

(** The colour a call to matplotlib is given as [markeredgecolor]. *)
Definition event_edge_color (e : event) : option string :=
  match e with
  | Ax_plot_marker _ _ _ _ _ edge _ => Some edge
  | _ => None
  end.

(** The calls of [ax.plot] that draw a line. *)
Definition is_line (e : event) : bool :=
  match e with
  | Ax_plot _ _ _ _ _ => true
  | _ => false
  end.

(** The calls that make the legend. *)
Definition is_legend_call (e : event) : bool :=
  match e with
  | Ax_plot_legend_entry _ _ _ _ | Ax_legend _ _ => true
  | _ => false
  end.

(** The calls that finish a panel (lines 185-189). *)
Definition is_panel_finish (e : event) : bool :=
  match e with
  | Ax_set_yticks _ | Ax_set_title _ _ | Ax_spine_set_visible _ _ _ | Ax_tick_params _ _ => true
  | _ => false
  end.

(** Lines 94-95: the size of the figure for [n_labels] panels. *)
Definition figsize_of (figsize : option (Q * Q)) (n_labels : nat) : Q * Q :=
  match figsize with
  | None => (6, inject_Z (Z.of_nat (n_labels * 2)))%Q
  | Some fs => fs
  end.

(** Collaborators whose interval has no width: the bounds are the second
    value of the vector, as floats. *)
Module Narrow.

Definition interval (vec : ndarray) (alpha : Q) : res (num * num) :=
  match Demo.cell_values (items vec) with
  | _ :: q :: _ => inr (PyFloat q, PyFloat q)
  | _ => inl (IndexError "index out of bounds")
  end.

Definition env : Collaborators := {|
  xarray_var_iter := Demo.var_iter;
  make_label := Demo.label;
  _scale_text := Demo.scale_text;
  fast_kde := Demo.kde;
  hpd := interval;
  np_mean := Demo.mean;
  np_median := Demo.median
|}.

End Narrow.

(** * Runs of a computation *)

Section Runs.

Context {A B : Type}.

(** A computation that ends well continues with the rest. *)
Lemma bind_run (m : M A) (f : A -> M B) h h' t r :
  (m ≫= f) h = (h', t, r) ->
  (∃ e, m h = (h', t, inl e) ∧ r = inl e) ∨
  (∃ h1 t1 a t2, m h = (h1, t1, inr a) ∧ f a h1 = (h', t2, r) ∧ t = t1 ++ t2).
Proof.
  unfold mbind, M_bind.
  destruct (m h) as [[h1 t1] [e|a]].
  - intros [= <- <- <-]. left. by exists e.
  - destruct (f a h1) as [[h2 t2] r2] eqn:Hf.
    intros [= <- <- <-]. right. by exists h1, t1, a, t2.
Qed.

Lemma bind_ok (m : M A) (f : A -> M B) h h1 t1 a :
  m h = (h1, t1, inr a) ->
  (m ≫= f) h = (let '(h2, t2, r) := f a h1 in (h2, t1 ++ t2, r)).
Proof.
  intros Hm. unfold mbind, M_bind. rewrite Hm. by destruct (f a h1) as [[? ?] ?].
Qed.

Lemma bind_err (m : M A) (f : A -> M B) h h1 t1 e :
  m h = (h1, t1, inl e) ->
  (m ≫= f) h = (h1, t1, inl e).
Proof. intros Hm. unfold mbind, M_bind. by rewrite Hm. Qed.

End Runs.

Section Steps.

Context (P : event -> Prop).

Lemma steps_ret {A} (a : A) : steps P (mret a).
Proof. intros h h' t r [= <- <- <-]. split; [done | constructor]. Qed.

Lemma steps_raise {A} (e : exn) : steps P (@raise A e).
Proof. intros h h' t r [= <- <- <-]. split; [done | constructor]. Qed.

Lemma steps_lift {A} (x : res A) : steps P (lift x).
Proof. intros h h' t r [= <- <- <-]. split; [done | constructor]. Qed.

Lemma steps_emit (e : event) : P e -> steps P (emit e).
Proof. intros He h h' t r [= <- <- <-]. split; [done | by repeat constructor]. Qed.

Lemma steps_alloc (o : pyobj) : steps P (alloc o).
Proof.
  intros h h' t r [= <- <- <-]. split; [by apply prefix_app_r | constructor].
Qed.

Lemma steps_deref (l : loc) : steps P (deref l).
Proof.
  intros h h' t r. unfold deref.
  destruct (h !! l); intros [= <- <- <-]; (split; [done | constructor]).
Qed.

Lemma steps_bind {A B} (m : M A) (f : A -> M B) :
  steps P m -> (∀ a, steps P (f a)) -> steps P (m ≫= f).
Proof.
  intros Hm Hf h h' t r Hrun.
  apply bind_run in Hrun as [(e & Hrun & ->) | (h1 & t1 & a & t2 & Hrun & Hk & ->)].
  - by apply Hm in Hrun.
  - apply Hm in Hrun as [Hp1 Ht1]. apply Hf in Hk as [Hp2 Ht2].
    split; [by etrans | by apply Forall_app].
Qed.

Lemma steps_when (c : bool) (body : M unit) : steps P body -> steps P (when c body).
Proof. destruct c; [done | intros _; apply steps_ret]. Qed.

Lemma steps_for_each {A} (l : list A) (body : A -> M unit) :
  (∀ x, steps P (body x)) -> steps P (for_each l body).
Proof.
  intros Hbody. induction l as [|x l IH]; simpl.
  - apply steps_ret.
  - apply steps_bind; [apply Hbody | intros _; apply IH].
Qed.

Lemma steps_comprehension {A B} (f : A -> M B) (l : list A) :
  (∀ x, steps P (f x)) -> steps P (comprehension f l).
Proof.
  intros Hf. induction l as [|x l IH]; simpl.
  - apply steps_ret.
  - apply steps_bind; [apply Hf | intros y].
    apply steps_bind; [apply IH | intros ys; apply steps_ret].
Qed.

End Steps.

Lemma steps_mono {A} (P Q : event -> Prop) (m : M A) :
  (∀ e, P e -> Q e) -> steps P m -> steps Q m.
Proof.
  intros HPQ Hm h h' t r Hrun. apply Hm in Hrun as [? ?].
  split; [done | by eapply Forall_impl].
Qed.

(** Solves [steps P m] for the code of the module, call by call. *)
Ltac steps_tac :=
  repeat first
    [ apply steps_ret | apply steps_raise | apply steps_lift | apply steps_alloc
    | apply steps_deref
    | apply steps_emit; done
    | apply steps_when
    | apply steps_for_each; intros ?; lazy beta
    | apply steps_comprehension; intros ?; lazy beta
    | apply steps_bind; [| intros ?; lazy beta]
    | match goal with
      | |- steps _ (match ?x with _ => _ end) => destruct x
      | |- steps _ (if ?c then _ else _) => destruct c
      | |- steps _ (let '(_, _) := ?x in _) => destruct x
      end ].

(** Finds an element in a list built with [::] and [++]. *)
Ltac elem_of_tac :=
  first [ assumption
        | apply list_elem_of_here
        | apply list_elem_of_further; elem_of_tac
        | apply elem_of_app; left; elem_of_tac
        | apply elem_of_app; right; elem_of_tac ].

(** * The options (lines 69-86) *)

Lemma py_str_digit (d : nat) : d < 10 -> palette !! d = Some ("C" +:+ py_str d).
Proof.
  intros Hd. do 10 (destruct d as [|d]; [reflexivity|]). lia.
Qed.

(** C2: [colors='cycle'] gives each dataset the palette entry of its index
    modulo 10, any other string is repeated for all datasets, and a list
    is taken as it is, whatever its length. *)
Theorem colors_resolved (n_data : nat) :
  (length (resolve_colors (ColorStr "cycle") n_data) = n_data ∧
   ∀ idx, idx < n_data ->
     resolve_colors (ColorStr "cycle") n_data !! idx = palette !! (idx mod 10)) ∧
  (∀ s, s ≠ "cycle" -> resolve_colors (ColorStr s) n_data = replicate n_data s) ∧
  (∀ l, resolve_colors (ColorList l) n_data = l).
Proof.
  split; [split|split].
  - simpl. by rewrite length_map, length_seq.
  - intros idx Hidx.
    change (resolve_colors (ColorStr "cycle") n_data)
      with (map (fun idx => "C" +:+ py_str (idx mod 10)) (seq 0 n_data)).
    rewrite list_lookup_fmap, lookup_seq_lt by done.
    symmetry. apply py_str_digit. apply Nat.mod_upper_bound. lia.
  - intros s Hs. unfold resolve_colors.
    destruct (String.eqb_spec s "cycle") as [->|_]; [done|].
    generalize 0. induction n_data as [|n IH]; intros k; simpl; [done|].
    by rewrite IH.
  - done.
Qed.

Lemma colors_resolved_witness :
  resolve_colors (ColorStr "cycle") 12 !! 11 = Some "C1" ∧
  resolve_colors (ColorStr "red") 3 = ["red"; "red"; "red"] ∧
  resolve_colors (ColorList ["k"]) 3 = ["k"].
Proof.
  split; [|split].
  - apply (proj2 (proj1 (colors_resolved 12)) 11). lia.
  - apply (proj1 (proj2 (colors_resolved 3)) "red"). discriminate.
  - apply (proj2 (proj2 (colors_resolved 3)) ["k"]).
Defined.

(** C3: without [data_labels], N > 1 datasets are labelled with their
    indices "0", "1", ..., "N-1", and a single dataset with the empty
    string. *)
Theorem labels_synthesized (N : nat) :
  (1 < N ->
     resolve_data_labels None N = inr (map py_str (seq 0 N)) ∧
     length (map py_str (seq 0 N)) = N ∧
     (∀ idx, idx < N -> map py_str (seq 0 N) !! idx = Some (py_str idx)) ∧
     NoDup (map py_str (seq 0 N))) ∧
  (N = 1 -> resolve_data_labels None N = inr [""]).
Proof.
  split.
  - intros HN. split; [|split; [|split]].
    + unfold resolve_data_labels.
      by destruct (Nat.ltb_spec 1 N); [|lia].
    + by rewrite length_map, length_seq.
    + intros idx Hidx. by rewrite list_lookup_fmap, lookup_seq_lt.
    + apply NoDup_fmap_2; [apply pretty_nat_inj | apply NoDup_seq].
  - by intros ->.
Qed.

Lemma labels_synthesized_witness :
  resolve_data_labels None 3 = inr ["0"; "1"; "2"] ∧
  resolve_data_labels None 1 = inr [""].
Proof.
  split.
  - apply (proj1 (labels_synthesized 3)). lia.
  - apply (proj2 (labels_synthesized 1)). reflexivity.
Defined.

(** Twelve datasets: the labels are decimal numbers, the colours cycle. *)
Example labels_of_twelve :
  resolve_data_labels None 12
  = inr ["0"; "1"; "2"; "3"; "4"; "5"; "6"; "7"; "8"; "9"; "10"; "11"].
Proof. reflexivity. Qed.

(** * Validation (lines 63-81) *)

Section Validation.

Variable E : Collaborators.

(** The preparation of the datasets computes and does not plot. *)
Lemma prepare_datasets_steps data skip_first :
  steps (fun e => is_plotting e = false) (prepare_datasets data skip_first).
Proof.
  unfold prepare_datasets, convert_all, burn_in, burn_in_one, convert_to_xarray,
    xr_draw_ge, xr_where, xr_dropna, deref_dataset.
  steps_tac.
Qed.

Lemma check_point_estimate_invalid kind h :
  kind ≠ "mean" -> kind ≠ "median" ->
  check_point_estimate (Some kind) h = (h, [], inl (ValueError (point_estimate_message kind))).
Proof.
  intros Hmean Hmedian. unfold check_point_estimate.
  destruct (String.eqb_spec kind "mean"); [done|].
  by destruct (String.eqb_spec kind "median").
Qed.

Lemma check_point_estimate_valid point_estimate h :
  valid_point_estimate point_estimate ->
  check_point_estimate point_estimate h = (h, [], inr tt).
Proof. by intros [-> | [-> | ->]]. Qed.

Lemma check_point_estimate_run point_estimate h h' t r :
  check_point_estimate point_estimate h = (h', t, r) ->
  h' = h ∧ t = [] ∧
  (r = inr tt ∧ valid_point_estimate point_estimate ∨
   ∃ kind, point_estimate = Some kind ∧ r = inl (ValueError (point_estimate_message kind))).
Proof.
  unfold check_point_estimate, valid_point_estimate.
  destruct point_estimate as [kind|].
  - destruct (String.eqb_spec kind "mean") as [->|?]; simpl.
    { intros [= <- <- <-]. naive_solver. }
    destruct (String.eqb_spec kind "median") as [->|?]; simpl.
    { intros [= <- <- <-]. naive_solver. }
    intros [= <- <- <-]. split_and!; [done..|]. right. by exists kind.
  - intros [= <- <- <-]. naive_solver.
Qed.

Lemma resolve_data_labels_mismatch labels n_data :
  length labels ≠ n_data ->
  resolve_data_labels (Some labels) n_data
  = inl (ValueError (data_labels_message (length labels) n_data)).
Proof.
  intros Hne. unfold resolve_data_labels.
  by destruct (Nat.eqb_spec (length labels) n_data).
Qed.

(** C1, as the code has it: a [point_estimate] other than 'mean', 'median'
    and None ends the call with the error that names it, before anything
    is plotted; the datasets have been converted and filtered by then
    (the store and the trace at the error are those of the preparation),
    and an error of the preparation comes first. *)
Theorem invalid_point_estimate_rejected
    data data_labels var_names alpha kind colors outline hpd_markers shade bw figsize
    textsize skip_first h :
  kind ≠ "mean" -> kind ≠ "median" ->
  ∃ h' t r0,
    prepare_datasets data skip_first h = (h', t, r0) ∧
    densityplot E data data_labels var_names alpha (Some kind) colors outline hpd_markers
                shade bw figsize textsize skip_first h
    = (h', t, inl match r0 with
                  | inl e => e
                  | inr _ => ValueError (point_estimate_message kind)
                  end) ∧
    Forall (fun ev => is_plotting ev = false) t.
Proof.
  intros Hmean Hmedian.
  destruct (prepare_datasets data skip_first h) as [[h' t] r0] eqn:Hprep.
  exists h', t, r0. split; [done|]. split.
  - unfold densityplot. destruct r0 as [e|datasets].
    + by rewrite (bind_err _ _ _ _ _ _ Hprep).
    + rewrite (bind_ok _ _ _ _ _ _ Hprep).
      rewrite (bind_err _ _ _ _ _ _ (check_point_estimate_invalid kind h' Hmean Hmedian)).
      by rewrite app_nil_r.
  - by apply prepare_datasets_steps in Hprep as [_ ?].
Qed.

(** C4: explicit [data_labels] whose number differs from the number of
    datasets end the call with a [ValueError] before a figure is created;
    with a valid [point_estimate] the error is the one about the labels. *)
Theorem mismatched_labels_rejected
    data labels var_names alpha point_estimate colors outline hpd_markers shade bw figsize
    textsize skip_first h h1 t1 datasets :
  prepare_datasets data skip_first h = (h1, t1, inr datasets) ->
  length labels ≠ length datasets ->
  ∃ msg,
    densityplot E data (Some labels) var_names alpha point_estimate colors outline hpd_markers
                shade bw figsize textsize skip_first h
    = (h1, t1, inl (ValueError msg)) ∧
    Forall (fun ev => is_plotting ev = false) t1 ∧
    (valid_point_estimate point_estimate ->
       msg = data_labels_message (length labels) (length datasets)).
Proof.
  intros Hprep Hlen.
  assert (Forall (fun ev => is_plotting ev = false) t1) as Ht1
    by by apply prepare_datasets_steps in Hprep as [_ ?].
  unfold densityplot. rewrite (bind_ok _ _ _ _ _ _ Hprep).
  destruct (check_point_estimate point_estimate h1) as [[h2 t2] r2] eqn:Hcheck.
  pose proof (check_point_estimate_run _ _ _ _ _ Hcheck) as (-> & -> & Hr).
  destruct Hr as [[-> Hvalid] | (kind & -> & ->)].
  - exists (data_labels_message (length labels) (length datasets)).
    rewrite (bind_ok _ _ _ _ _ _ Hcheck).
    unfold plot_datasets.
    rewrite (bind_err (lift _) _ h1 h1 [] (ValueError (data_labels_message (length labels) (length datasets)))).
    + by rewrite !app_nil_r.
    + unfold lift. by rewrite resolve_data_labels_mismatch.
  - exists (point_estimate_message kind).
    rewrite (bind_err _ _ _ _ _ _ Hcheck). rewrite app_nil_r.
    split_and!; [done..|].
    intros [? | [[= ->] | [= ->]]]; [done| |];
      by vm_compute in Hcheck.
Qed.

End Validation.

(** C1 as the documentation states it does not hold: with
    [point_estimate='mode'] the error is raised after the dataset has been
    converted and filtered. *)
Lemma raise_follows_burn_in :
  let run := densityplot Demo.env (Single 0) None None (1 # 20)%Q (Some "mode")
               (ColorStr "cycle") true "" 0%Q (9 # 2)%Q None None 1%Z
               [XrDataset (Demo.dataset1 "mu" [Num 1; Num 2])] in
  result_of run = inl (ValueError "Point estimate should be 'mean', 'median' or None, not mode") ∧
  trace_of run = [Call_convert_to_xarray 0; Call_where 0 [false; true]; Call_dropna 1 "draw"] ∧
  ¬ Forall (fun ev => is_computation ev = false) (trace_of run) ∧
  length (store_of run) = 3.
Proof.
  split_and!; [reflexivity | reflexivity | | reflexivity].
  intros Hall. by apply Forall_cons_1 in Hall as [? _].
Qed.

Lemma invalid_point_estimate_rejected_witness :
  ∃ h' t r0,
    prepare_datasets (Single 0) 1 [XrDataset (Demo.dataset1 "mu" [Num 1; Num 2])] = (h', t, r0) ∧
    densityplot Demo.env (Single 0) None None (1 # 20)%Q (Some "mode")
                (ColorStr "cycle") true "" 0%Q (9 # 2)%Q None None 1%Z
                [XrDataset (Demo.dataset1 "mu" [Num 1; Num 2])]
    = (h', t, inl match r0 with
                  | inl e => e
                  | inr _ => ValueError (point_estimate_message "mode")
                  end) ∧
    Forall (fun ev => is_plotting ev = false) t.
Proof.
  apply (invalid_point_estimate_rejected Demo.env); discriminate.
Defined.

Lemma mismatched_labels_rejected_witness :
  ∃ msg,
    densityplot Demo.env (Single 0) (Some ["a"; "b"]) None (1 # 20)%Q (Some "mean")
                (ColorStr "cycle") true "" 0%Q (9 # 2)%Q None None 0%Z
                [XrDataset (Demo.dataset1 "mu" [Num 1; Num 2])]
    = ([XrDataset (Demo.dataset1 "mu" [Num 1; Num 2]);
        XrDataset (ds_where (Demo.dataset1 "mu" [Num 1; Num 2]) [true; true]);
        XrDataset (Demo.dataset1 "mu" [Num 1; Num 2])],
       [Call_convert_to_xarray 0; Call_where 0 [true; true]; Call_dropna 1 "draw"],
       inl (ValueError msg)) ∧
    Forall (fun ev => is_plotting ev = false)
           [Call_convert_to_xarray 0; Call_where 0 [true; true]; Call_dropna 1 "draw"] ∧
    (valid_point_estimate (Some "mean") -> msg = data_labels_message 2 1).
Proof.
  apply (mismatched_labels_rejected Demo.env (Single 0) ["a"; "b"] None (1 # 20)%Q
           (Some "mean") (ColorStr "cycle") true "" 0%Q (9 # 2)%Q None None 0%Z
           [XrDataset (Demo.dataset1 "mu" [Num 1; Num 2])] _ _ [2]).
  - vm_compute. reflexivity.
  - simpl. lia.
Defined.

(** * The burn-in filter (line 67) *)

Lemma slice_mask_has_nan (s : draw_slice) :
  slice_has_nan (slice_mask s) = slice_has_value s.
Proof.
  unfold slice_has_nan, slice_has_value, slice_mask. simpl.
  induction (draw_values s) as [|[v cs] l IH]; simpl; [done|].
  rewrite IH. f_equal. by destruct cs.
Qed.

Lemma slice_mask_without_value (s : draw_slice) :
  slice_has_value s = false -> slice_mask s = s.
Proof.
  destruct s as [c vs]. unfold slice_has_value, slice_mask. simpl.
  intros Hvs. f_equal.
  induction vs as [|[v cs] vs IH]; simpl in *; [done|].
  apply orb_false_elim in Hvs as [Hcs Hvs].
  rewrite IH by done. by destruct cs.
Qed.

(** What [where] and [dropna] keep of a dataset. *)
Lemma where_dropna_slices (skip_first : Z) (d : Dataset) :
  slices (ds_dropna_draw (ds_where d (map (fun c => (skip_first <=? c)%Z) (ds_draw d))))
  = filter (fun s => slice_has_nan (if (skip_first <=? draw_coord s)%Z then s else slice_mask s)
                     = false)
           (slices d).
Proof.
  unfold ds_dropna_draw, ds_where, ds_draw. simpl.
  induction (slices d) as [|s l IH]; simpl; [done|].
  rewrite !filter_cons, IH.
  destruct (skip_first <=? draw_coord s)%Z; [done|].
  case_decide as Hmask; [|done].
  by rewrite (slice_mask_without_value s) by by rewrite <- slice_mask_has_nan.
Qed.

(** On draws that hold values these are the draws from [skip_first] on
    that have no missing value. *)
Lemma where_dropna_with_values (skip_first : Z) (d : Dataset) :
  Forall (fun s => slice_has_value s = true) (slices d) ->
  slices (ds_dropna_draw (ds_where d (map (fun c => (skip_first <=? c)%Z) (ds_draw d))))
  = filter (fun s => (skip_first <= draw_coord s)%Z ∧ slice_has_nan s = false) (slices d).
Proof.
  rewrite where_dropna_slices.
  induction 1 as [|s l Hs _ IH]; [done|].
  rewrite !filter_cons, IH.
  destruct (Z.leb_spec skip_first (draw_coord s)).
  - destruct (decide (slice_has_nan s = false)) as [Hnan|Hnan];
      destruct (decide _) as [[? ?]|Hno]; try done.
    by destruct Hno.
  - rewrite slice_mask_has_nan, Hs.
    destruct (decide (true = false)) as [?|_]; [done|].
    destruct (decide _) as [[? ?]|_]; [lia | done].
Qed.

(** Without missing values the filter is the one of the documentation. *)
Lemma where_dropna_without_nan (skip_first : Z) (d : Dataset) :
  Forall (fun s => slice_has_value s = true) (slices d) ->
  Forall (fun s => slice_has_nan s = false) (slices d) ->
  slices (ds_dropna_draw (ds_where d (map (fun c => (skip_first <=? c)%Z) (ds_draw d))))
  = filter (fun s => (skip_first <= draw_coord s)%Z) (slices d).
Proof.
  intros Hval Hnan. rewrite where_dropna_with_values by done.
  induction Hnan as [|s l Hs _ IH]; [done|].
  apply Forall_cons_1 in Hval as [_ Hval].
  rewrite !filter_cons, IH by done.
  destruct (decide (skip_first <= draw_coord s)%Z) as [Hle|Hle];
    destruct (decide _) as [[? ?]|Hno]; try done.
  by destruct Hno.
Qed.

Lemma deref_dataset_run (l : loc) (d : Dataset) h :
  h !! l = Some (XrDataset d) -> deref_dataset l h = (h, [], inr d).
Proof.
  intros Hl. unfold deref_dataset, deref, mbind, M_bind. by rewrite Hl.
Qed.

Lemma burn_in_one_run (skip_first : Z) (l : loc) (d : Dataset) h :
  h !! l = Some (XrDataset d) ->
  let cond := map (fun c => (skip_first <=? c)%Z) (ds_draw d) in
  burn_in_one skip_first l h
  = (h ++ [XrDataset (ds_where d cond); XrDataset (ds_dropna_draw (ds_where d cond))],
     [Call_where l cond; Call_dropna (length h) "draw"],
     inr (S (length h))).
Proof.
  intros Hl cond.
  assert ((h ++ [XrDataset (ds_where d cond)]) !! length h = Some (XrDataset (ds_where d cond)))
    as Hw by by rewrite lookup_app_r, Nat.sub_diag.
  unfold burn_in_one, xr_draw_ge, xr_where, xr_dropna.
  rewrite (bind_ok _ _ h h [] (map (fun c => (skip_first <=? c)%Z) (ds_draw d))).
  2:{ by rewrite (bind_ok _ _ _ _ _ _ (deref_dataset_run _ _ _ Hl)). }
  fold cond.
  rewrite (bind_ok _ _ h (h ++ [XrDataset (ds_where d cond)]) [Call_where l cond] (length h)).
  2:{ unfold emit at 1. unfold mbind at 1, M_bind at 1.
      rewrite (bind_ok _ _ _ _ _ _ (deref_dataset_run _ _ _ Hl)). done. }
  unfold emit at 1. unfold mbind at 1, M_bind at 1.
  rewrite (bind_ok _ _ _ _ _ _ (deref_dataset_run _ _ _ Hw)).
  unfold alloc. rewrite length_app, <- app_assoc. simpl.
  by rewrite Nat.add_1_r.
Qed.

Lemma convert_to_xarray_run (obj : loc) h h' t l :
  convert_to_xarray obj h = (h', t, inr l) ->
  h `prefix_of` h' ∧ ∃ d, dataset_at h obj = Some d ∧ h' !! l = Some (XrDataset d).
Proof.
  unfold convert_to_xarray, dataset_at, deref, emit, alloc, raise, mbind, M_bind, mret, M_ret.
  destruct (h !! obj) as [[d|d|]|] eqn:Hobj; simpl; intros [= <- <- <-].
  - split; [done|]. by exists d.
  - split; [by apply prefix_app_r|]. exists d. split; [done|].
    by apply list_lookup_middle.
Qed.

(** A list comprehension relates its results to its items one by one. *)
Lemma comprehension_Forall2 {A B} (f : A -> M B)
    (I : heap -> A -> Prop) (R : heap -> A -> B -> Prop) :
  (∀ h h' x, h `prefix_of` h' -> I h x -> I h' x) ->
  (∀ h h' x y, h `prefix_of` h' -> R h x y -> R h' x y) ->
  (∀ x h h' t y, I h x -> f x h = (h', t, inr y) -> h `prefix_of` h' ∧ R h' x y) ->
  ∀ l h h' t ys,
    Forall (I h) l -> comprehension f l h = (h', t, inr ys) ->
    h `prefix_of` h' ∧ Forall2 (R h') l ys.
Proof.
  intros HI HR Hf l. induction l as [|x l IH]; intros h h' t ys Hl; simpl.
  - intros [= <- <- <-]. split; [done | constructor].
  - apply Forall_cons_1 in Hl as [Hx Hl]. intros Hrun.
    apply bind_run in Hrun as [(e & _ & [=]) | (h1 & t1 & y & t2 & Hy & Hrun & ->)].
    apply bind_run in Hrun as [(e & _ & [=]) | (h2 & t3 & ys' & t4 & Hys & Hret & ->)].
    injection Hret as <- <- <-.
    destruct (Hf _ _ _ _ _ Hx Hy) as [Hp1 HRy].
    destruct (IH h1 h2 t3 ys') as [Hp2 HRys]; [|done|].
    { eapply Forall_impl; [exact Hl|]. intros z. by apply HI. }
    split; [by etrans|]. constructor; [by eapply HR | done].
Qed.

Lemma comprehension_length {A B} (f : A -> M B) l h h' t ys :
  comprehension f l h = (h', t, inr ys) -> length ys = length l.
Proof.
  revert h h' t ys. induction l as [|x l IH]; intros h h' t ys; simpl.
  - by intros [= <- <- <-].
  - intros Hrun.
    apply bind_run in Hrun as [(e & _ & [=]) | (h1 & t1 & y & t2 & Hy & Hrun & ->)].
    apply bind_run in Hrun as [(e & _ & [=]) | (h2 & t3 & ys' & t4 & Hys & Hret & ->)].
    injection Hret as <- <- <-. simpl. f_equal. by eapply IH.
Qed.

Lemma convert_all_run data h h1 t1 datasets :
  Forall (fun obj => obj < length h) (objs_of data) ->
  convert_all data h = (h1, t1, inr datasets) ->
  h `prefix_of` h1 ∧
  Forall2 (fun obj l => ∃ d, dataset_at h obj = Some d ∧ h1 !! l = Some (XrDataset d))
          (objs_of data) datasets.
Proof.
  intros Hobjs Hrun.
  assert (comprehension convert_to_xarray (objs_of data) h = (h1, t1, inr datasets)) as Hc.
  { destruct data as [obj|objs]; [|done]. simpl in *.
    apply bind_run in Hrun as [(e & _ & [=]) | (h2 & t2 & y & t3 & Hy & Hret & ->)].
    injection Hret as <- <- <-.
    rewrite (bind_ok _ _ _ _ _ _ Hy). reflexivity. }
  apply (comprehension_Forall2 convert_to_xarray
           (fun h2 obj => h `prefix_of` h2 ∧ obj < length h)
           (fun h2 obj l => ∃ d, dataset_at h obj = Some d ∧ h2 !! l = Some (XrDataset d)))
    in Hc; [done|..].
  - intros h2 h3 obj Hp [Hp0 Hlt]. split; [by etrans | done].
  - intros h2 h3 obj l Hp (d & Hd & Hl). exists d. split; [done|].
    by eapply prefix_lookup_Some.
  - intros obj h2 h3 t l [Hp0 Hlt] Hconv.
    apply convert_to_xarray_run in Hconv as (Hp & d & Hd & Hl).
    split; [done|]. exists d. split; [|done].
    unfold dataset_at in *.
    apply lookup_lt_is_Some_2 in Hlt as [o Ho].
    rewrite (prefix_lookup_Some _ _ _ _ Ho Hp0) in Hd. by rewrite Ho.
  - eapply Forall_impl; [exact Hobjs|]. intros obj ?. done.
Qed.

Lemma burn_in_run skip_first datasets h1 h2 t2 outs :
  Forall (fun l => ∃ d, h1 !! l = Some (XrDataset d)) datasets ->
  burn_in skip_first datasets h1 = (h2, t2, inr outs) ->
  h1 `prefix_of` h2 ∧
  Forall2 (fun l out => ∃ d, h2 !! l = Some (XrDataset d) ∧
             h2 !! out = Some (XrDataset (ds_dropna_draw
                           (ds_where d (map (fun c => (skip_first <=? c)%Z) (ds_draw d))))))
          datasets outs.
Proof.
  intros Hds Hrun. unfold burn_in in Hrun.
  apply (comprehension_Forall2 (burn_in_one skip_first)
           (fun h l => ∃ d, h !! l = Some (XrDataset d))
           (fun h l out => ∃ d, h !! l = Some (XrDataset d) ∧
              h !! out = Some (XrDataset (ds_dropna_draw
                           (ds_where d (map (fun c => (skip_first <=? c)%Z) (ds_draw d)))))))
    in Hrun; [done|..|done].
  - intros h h' l Hp (d & Hd). exists d. by eapply prefix_lookup_Some.
  - intros h h' l out Hp (d & Hd & Hout). exists d.
    split; by eapply prefix_lookup_Some.
  - intros l h h' t out (d & Hd) Hone.
    rewrite (burn_in_one_run skip_first l d h Hd) in Hone.
    injection Hone as <- <- <-.
    split; [by apply prefix_app_r|]. exists d. split.
    + by apply lookup_app_l_Some.
    + rewrite lookup_app_r by lia.
      by replace (S (length h) - length h) with 1 by lia.
Qed.

Lemma Forall2_compose {A B C} (R1 : A -> B -> Prop) (R2 : B -> C -> Prop)
    (R : A -> C -> Prop) xs ys zs :
  (∀ x y z, R1 x y -> R2 y z -> R x z) ->
  Forall2 R1 xs ys -> Forall2 R2 ys zs -> Forall2 R xs zs.
Proof.
  intros HR H1. revert zs.
  induction H1 as [|x y xs ys Hxy _ IH]; intros zs H2; inversion H2; subst.
  - constructor.
  - constructor; [by eapply HR | by apply IH].
Qed.

Lemma prepare_datasets_run data skip_first h h2 t datasets :
  Forall (fun obj => obj < length h) (objs_of data) ->
  prepare_datasets data skip_first h = (h2, t, inr datasets) ->
  h `prefix_of` h2 ∧
  Forall2 (fun obj out => ∃ d, dataset_at h obj = Some d ∧
             h2 !! out = Some (XrDataset (ds_dropna_draw
                           (ds_where d (map (fun c => (skip_first <=? c)%Z) (ds_draw d))))))
          (objs_of data) datasets.
Proof.
  intros Hobjs Hrun. unfold prepare_datasets in Hrun.
  apply bind_run in Hrun as [(e & _ & [=]) | (h1 & t1 & ds & t2 & Hconv & Hburn & ->)].
  apply convert_all_run in Hconv as [Hp1 Hconv]; [|done].
  apply burn_in_run in Hburn as [Hp2 Hburn].
  2:{ apply Forall2_Forall_r with (Q := fun l => ∃ d, h1 !! l = Some (XrDataset d)) in Hconv;
        [done|].
      apply Forall_forall. intros obj _ l (d & _ & Hl). by exists d. }
  split; [by etrans|].
  eapply Forall2_compose; [|exact Hconv|exact Hburn].
  intros obj l out (d & Hd & Hl) (d' & Hl' & Hout). simpl in *.
  exists d. split; [done|].
  pose proof (prefix_lookup_Some _ _ _ _ Hl Hp2) as Hl2.
  rewrite Hl' in Hl2. by injection Hl2 as ->.
Qed.

Section Frame.

Variable E : Collaborators.

(** No call of [densityplot] changes an object of the store. *)
Lemma d_helper_steps_any vec vname color bw textsize linewidth markersize alpha point_estimate
    hpd_markers outline shade ax :
  steps (fun _ => True)
        (_d_helper E vec vname color bw textsize linewidth markersize alpha point_estimate
                   hpd_markers outline shade ax).
Proof.
  unfold _d_helper, kde_branch, hist_branch, finish_panel, call_fast_kde, call_hpd.
  steps_tac.
Qed.

Lemma plot_datasets_steps_any datasets data_labels var_names alpha point_estimate colors
    outline hpd_markers shade bw figsize textsize :
  steps (fun _ => True)
        (plot_datasets E datasets data_labels var_names alpha point_estimate colors outline
                       hpd_markers shade bw figsize textsize).
Proof.
  unfold plot_datasets, var_iter_list, deref_dataset, plt_subplots, render_all,
    render_dataset, add_legend.
  steps_tac; apply d_helper_steps_any.
Qed.

Lemma check_and_plot_steps_any datasets data_labels var_names alpha point_estimate colors
    outline hpd_markers shade bw figsize textsize :
  steps (fun _ => True)
        (_ ← check_point_estimate point_estimate;
         plot_datasets E datasets data_labels var_names alpha point_estimate colors outline
                       hpd_markers shade bw figsize textsize).
Proof.
  apply steps_bind.
  - unfold check_point_estimate. steps_tac.
  - intros _. apply plot_datasets_steps_any.
Qed.

Lemma densityplot_steps_any data data_labels var_names alpha point_estimate colors outline
    hpd_markers shade bw figsize textsize skip_first :
  steps (fun _ => True)
        (densityplot E data data_labels var_names alpha point_estimate colors outline
                     hpd_markers shade bw figsize textsize skip_first).
Proof.
  unfold densityplot. apply steps_bind.
  - eapply steps_mono; [|apply prepare_datasets_steps]. done.
  - intros datasets. apply check_and_plot_steps_any.
Qed.

(** C7, as the code has it: the burn-in filter makes new datasets and
    leaves every object of the caller as it was; of a dataset whose draws
    hold values it keeps the draws with a coordinate of at least
    [skip_first] that have no missing value: all draws from [skip_first]
    on if no value is missing. *)
Theorem burn_in_filters_a_copy
    data data_labels var_names alpha point_estimate colors outline hpd_markers shade bw
    figsize textsize skip_first h h' t r :
  Forall (fun obj => obj < length h) (objs_of data) ->
  densityplot E data data_labels var_names alpha point_estimate colors outline hpd_markers
              shade bw figsize textsize skip_first h = (h', t, r) ->
  (∀ l o, h !! l = Some o -> h' !! l = Some o) ∧
  (∀ h1 t1 datasets,
     prepare_datasets data skip_first h = (h1, t1, inr datasets) ->
     Forall2 (fun obj out => ∃ d d',
                dataset_at h obj = Some d ∧
                h' !! out = Some (XrDataset d') ∧
                (Forall (fun s => slice_has_value s = true) (slices d) ->
                 slices d' = filter (fun s => (skip_first <= draw_coord s)%Z ∧
                                              slice_has_nan s = false) (slices d) ∧
                 (Forall (fun s => slice_has_nan s = false) (slices d) ->
                  slices d' = filter (fun s => (skip_first <= draw_coord s)%Z) (slices d))))
             (objs_of data) datasets).
Proof.
  intros Hobjs Hrun. split.
  - intros l o Hl. apply densityplot_steps_any in Hrun as [Hp _].
    by eapply prefix_lookup_Some.
  - intros h1 t1 datasets Hprep.
    assert (h1 `prefix_of` h') as Hp.
    { unfold densityplot in Hrun.
      apply bind_run in Hrun as [(e & Hp' & _) | (h1' & t1' & ds' & t2 & Hp' & Hrest & ->)];
        rewrite Hprep in Hp'; [done|].
      injection Hp' as <- <- <-.
      by apply check_and_plot_steps_any in Hrest as [? _]. }
    apply prepare_datasets_run in Hprep as [_ Hall]; [|done].
    eapply Forall2_impl; [exact Hall|].
    intros obj out (d & Hd & Hout). simpl in *.
    eexists d, _. split; [done|]. split.
    + by eapply prefix_lookup_Some.
    + intros Hval. split; [by apply where_dropna_with_values|].
      intros Hnan. by apply where_dropna_without_nan.
Qed.

End Frame.

(** C7 as the documentation states it does not hold: a draw that holds a
    missing value is dropped by [dropna], whatever its index. *)
Lemma burn_in_drops_missing_values :
  let d := Demo.dataset1 "mu" [Num 1; NaN; Num 3] in
  let run := densityplot Demo.env (Single 0) None None (1 # 20)%Q (Some "mean")
               (ColorStr "cycle") true "" 0%Q (9 # 2)%Q None None 0%Z [XrDataset d] in
  result_of (prepare_datasets (Single 0) 0 [XrDataset d]) = inr [2] ∧
  ∃ d', store_of run !! 2 = Some (XrDataset d') ∧
        ds_draw d' = [0; 2]%Z ∧
        ds_draw d' ≠ filter (fun c => (0 <= c)%Z) (ds_draw d).
Proof.
  split; [reflexivity|].
  eexists. split; [reflexivity|]. split; [reflexivity|]. discriminate.
Qed.

Lemma burn_in_filters_a_copy_witness :
  let d := Demo.dataset1 "mu" [Num 1; NaN; Num 3; Num 4] in
  let run := densityplot Demo.env (Single 0) None None (1 # 20)%Q (Some "mean")
               (ColorStr "cycle") true "" 0%Q (9 # 2)%Q None None 1%Z [XrDataset d] in
  (∀ l o, [XrDataset d] !! l = Some o -> store_of run !! l = Some o) ∧
  (∀ h1 t1 datasets,
     prepare_datasets (Single 0) 1 [XrDataset d] = (h1, t1, inr datasets) ->
     Forall2 (fun obj out => ∃ d0 d',
                dataset_at [XrDataset d] obj = Some d0 ∧
                store_of run !! out = Some (XrDataset d') ∧
                (Forall (fun s => slice_has_value s = true) (slices d0) ->
                 slices d' = filter (fun s => (1 <= draw_coord s)%Z ∧
                                              slice_has_nan s = false) (slices d0) ∧
                 (Forall (fun s => slice_has_nan s = false) (slices d0) ->
                  slices d' = filter (fun s => (1 <= draw_coord s)%Z) (slices d0))))
             [0] datasets).
Proof.
  intros d run.
  apply (burn_in_filters_a_copy Demo.env (Single 0) None None (1 # 20)%Q (Some "mean")
           (ColorStr "cycle") true "" 0%Q (9 # 2)%Q None None 1%Z [XrDataset d]
           (store_of run) (trace_of run) (result_of run)).
  - simpl. repeat constructor.
  - vm_compute. reflexivity.
Defined.

(** * The renderer of one variable (lines 119-189) *)

Section Runs_of_calls.

Context {A : Type}.

Lemma emit_bind_run (e : event) (f : unit -> M A) h h' t r :
  (emit e ≫= f) h = (h', t, r) -> ∃ t', t = e :: t' ∧ f tt h = (h', t', r).
Proof.
  intros Hrun.
  apply bind_run in Hrun as [(x & [=] & _) | (h1 & t1 & [] & t2 & [= <- <-] & Hf & ->)].
  by exists t2.
Qed.

Lemma lift_bind_run {B} (x : res B) (f : B -> M A) h h' t r :
  (lift x ≫= f) h = (h', t, r) ->
  (∃ e, x = inl e ∧ h' = h ∧ t = [] ∧ r = inl e) ∨
  (∃ b, x = inr b ∧ f b h = (h', t, r)).
Proof.
  intros Hrun.
  apply bind_run in Hrun as [(e & [= <- <- ->] & ->) | (h1 & t1 & b & t2 & [= <- <- ->] & Hf & ->)].
  - left. by exists e.
  - right. by exists b.
Qed.

Lemma bind_assoc_run {B C} (m : M B) (f : B -> M C) (g : C -> M A) h :
  ((m ≫= f) ≫= g) h = (m ≫= (fun b => f b ≫= g)) h.
Proof.
  unfold mbind, M_bind.
  destruct (m h) as [[h1 t1] [e|b]]; [done|].
  destruct (f b h1) as [[h2 t2] [e|c]]; [done|].
  destruct (g c h2) as [[h3 t3] r3]. by rewrite app_assoc.
Qed.

End Runs_of_calls.

Example np_linspace_five : np_linspace 0 1 5 = [0 # 4; 1 # 4; 2 # 4; 3 # 4; 4 # 4]%Q.
Proof. reflexivity. Qed.

Example array_mask_interval :
  let x := np_linspace 0 1 5 in
  array_mask x (np_and (np_ge x (3 # 10)) (np_le x (8 # 10))) = [2 # 4; 3 # 4]%Q.
Proof. reflexivity. Qed.

Example py_range_2_9 : py_range (PyInt 2) (num_add_int (PyInt 7) 2) = inr [2; 3; 4; 5; 6; 7; 8]%Z.
Proof. reflexivity. Qed.

Example py_range_float :
  py_range (PyFloat 2) (num_add_int (PyFloat 7) 2)
  = inl (TypeError "'numpy.float64' object cannot be interpreted as an integer").
Proof. reflexivity. Qed.

Lemma elem_of_array_mask {A} (a : list A) (mask : list bool) (x : A) :
  x ∈ array_mask a mask -> ∃ i, a !! i = Some x ∧ mask !! i = Some true.
Proof.
  revert mask. induction a as [|y a IH]; intros [|b mask]; simpl; try by intros ?%elem_of_nil.
  destruct b.
  - intros [->|Hx]%elem_of_cons.
    + by exists 0.
    + destruct (IH _ Hx) as (i & ? & ?). by exists (S i).
  - intros Hx. destruct (IH _ Hx) as (i & ? & ?). by exists (S i).
Qed.

Lemma array_mask_subseteq {A} (a : list A) (mask : list bool) : array_mask a mask ⊆ a.
Proof.
  intros x (i & Hi & _)%elem_of_array_mask. by eapply list_elem_of_lookup_2.
Qed.

(** The points that the mask of an interval keeps lie in the interval. *)
Lemma elem_of_interval_mask (x : list Q) (lo hi p : Q) :
  p ∈ array_mask x (np_and (np_ge x lo) (np_le x hi)) ->
  p ∈ x ∧ (lo <= p)%Q ∧ (p <= hi)%Q.
Proof.
  intros (i & Hi & Hm)%elem_of_array_mask.
  split; [by eapply list_elem_of_lookup_2|].
  unfold np_and, np_ge, np_le in Hm.
  rewrite lookup_zip_with, !list_lookup_fmap, Hi in Hm. simpl in Hm.
  injection Hm as [Hlo Hhi]%andb_true_iff.
  by rewrite <- !Qle_bool_iff.
Qed.

(** The points of [np.linspace] lie between its two ends. *)
Lemma np_linspace_bounds (start stop p : Q) (n : nat) :
  (start <= stop)%Q -> p ∈ np_linspace start stop n ->
  (start <= p)%Q ∧ (p <= stop)%Q.
Proof.
  intros Hle. destruct n as [|[|n]].
  - by intros ?%elem_of_nil.
  - intros ->%list_elem_of_singleton. split; [apply Qle_refl | done].
  - unfold np_linspace. cbv beta iota zeta.
    set (N := inject_Z (Z.of_nat (S (S n) - 1))).
    intros (i & -> & Hi)%list_elem_of_fmap_1.
    apply elem_of_seq in Hi.
    assert (0 < N)%Q as HN.
    { unfold N. change 0%Q with (inject_Z 0). rewrite <- Zlt_Qlt. lia. }
    assert (0 <= inject_Z (Z.of_nat i))%Q as Hi0.
    { change 0%Q with (inject_Z 0). rewrite <- Zle_Qle. lia. }
    assert (inject_Z (Z.of_nat i) <= N)%Q as HiN.
    { unfold N. rewrite <- Zle_Qle. lia. }
    assert (0 <= (stop - start) / N)%Q as Hstep.
    { apply Qle_shift_div_l; [done|]. lra. }
    assert ((stop - start) / N * N == stop - start)%Q as Hmul.
    { field. lra. }
    split; nra.
Qed.

(** * The grid of the density and its restriction to the interval *)

Lemma length_np_linspace (start stop : Q) (n : nat) :
  length (np_linspace start stop n) = n.
Proof.
  destruct n as [|[|n]]; [done..|].
  unfold np_linspace. cbv beta iota zeta. by rewrite length_map, length_seq.
Qed.

Lemma length_interval_mask (x : list Q) (lo hi : Q) :
  length (np_and (np_ge x lo) (np_le x hi)) = length x.
Proof.
  unfold np_and, np_ge, np_le. rewrite length_zip_with, !length_map. lia.
Qed.

(** The items a mask picks of two arrays of one length stand at the same
    places. *)
Lemma array_mask_zip {A B} (a : list A) (b : list B) (mask : list bool) :
  length a = length b ->
  array_mask (zip a b) mask = zip (array_mask a mask) (array_mask b mask).
Proof.
  revert b mask. induction a as [|x a IH]; intros [|y b] [|m mask] Hlen; try done.
  simpl in *. destruct m; simpl; [f_equal|]; apply IH; lia.
Qed.

Lemma array_mask_length {A B} (a : list A) (b : list B) (mask : list bool) :
  length a = length b ->
  length (array_mask a mask) = length (array_mask b mask).
Proof.
  revert b mask. induction a as [|x a IH]; intros [|y b] [|m mask] Hlen; try done.
  simpl in *. destruct m; simpl; [f_equal|]; apply IH; lia.
Qed.

Lemma array_mask_head_last {A} (a : list A) (mask : list bool) (u v : A) :
  head (array_mask a mask) = Some u -> last (array_mask a mask) = Some v ->
  ∃ i j, i <= j ∧ a !! i = Some u ∧ a !! j = Some v.
Proof.
  revert mask. induction a as [|x a IH]; intros [|b mask]; simpl; try done.
  destruct b; simpl.
  - intros [= ->]. rewrite last_cons.
    destruct (last (array_mask a mask)) as [w|] eqn:Hlast.
    + intros [= ->]. apply last_Some_elem_of, elem_of_array_mask in Hlast as (j & Hj & _).
      exists 0, (S j). split; [lia | done].
    + intros [= ->]. exists 0, 0. done.
  - intros Hu Hv. destruct (IH _ Hu Hv) as (i & j & Hij & Hi & Hj).
    exists (S i), (S j). split; [lia | done].
Qed.

Lemma head_zip {A B} (a : list A) (b : list B) (x : A) (y : B) :
  head a = Some x -> head b = Some y -> head (zip a b) = Some (x, y).
Proof. destruct a, b; simpl; congruence. Qed.

Lemma last_zip {A B} (a : list A) (b : list B) (x : A) (y : B) :
  length a = length b ->
  last a = Some x -> last b = Some y -> last (zip a b) = Some (x, y).
Proof.
  intros Hlen [a' ->]%last_Some [b' ->]%last_Some.
  rewrite !length_app in Hlen. simpl in Hlen.
  rewrite (zip_with_app pair a' [x] b' [y]) by lia. simpl. apply last_snoc.
Qed.

(** The grid of [np.linspace] goes up when [start <= stop]. *)
Lemma np_linspace_mono (start stop : Q) (n i j : nat) (u v : Q) :
  (start <= stop)%Q -> i <= j ->
  np_linspace start stop n !! i = Some u -> np_linspace start stop n !! j = Some v ->
  (u <= v)%Q.
Proof.
  intros Hle Hij. destruct n as [|[|n]].
  - done.
  - destruct i, j; simpl; try done. intros [= <-] [= <-]. apply Qle_refl.
  - unfold np_linspace. cbv beta iota zeta.
    set (N := inject_Z (Z.of_nat (S (S n) - 1))).
    rewrite !list_lookup_fmap.
    intros Hi Hj.
    destruct (seq 0 (S (S n)) !! i) as [i'|] eqn:Hi'; [|done].
    destruct (seq 0 (S (S n)) !! j) as [j'|] eqn:Hj'; [|done].
    apply lookup_seq in Hi' as [-> _]. apply lookup_seq in Hj' as [-> _].
    simpl in Hi, Hj. injection Hi as <-. injection Hj as <-.
    assert (0 < N)%Q as HN.
    { unfold N. change 0%Q with (inject_Z 0). rewrite <- Zlt_Qlt. lia. }
    assert (0 <= (stop - start) / N)%Q as Hstep.
    { apply Qle_shift_div_l; [done|]. lra. }
    assert (inject_Z (Z.of_nat i) <= inject_Z (Z.of_nat j))%Q as Hq.
    { rewrite <- Zle_Qle. lia. }
    nra.
Qed.

Section Kde_runs.

Variable E : Collaborators.

Lemma restricted_domain_ends (density : list Q) (lower upper : Q) (hpd_ : num * num) :
  restricted_domain lower upper (length density) hpd_ ≠ [] ->
  let x := np_linspace lower upper (length density) in
  let cut := np_and (np_ge x (num_to_Q hpd_.1)) (np_le x (num_to_Q hpd_.2)) in
  ∃ x0 x1 y0 y1,
    head (array_mask x cut) = Some x0 ∧ last (array_mask x cut) = Some x1 ∧
    head (array_mask density cut) = Some y0 ∧ last (array_mask density cut) = Some y1.
Proof.
  unfold restricted_domain. cbv zeta. intros Hne.
  set (x := np_linspace lower upper (length density)) in *.
  set (cut := np_and _ _) in *.
  assert (length (array_mask x cut) = length (array_mask density cut)) as Hlen.
  { apply array_mask_length. apply length_np_linspace. }
  assert (array_mask density cut ≠ []) as Hne'.
  { intros Hnil. rewrite Hnil in Hlen. by destruct (array_mask x cut). }
  apply last_is_Some in Hne as Hx1. destruct Hx1 as [x1 Hx1].
  apply last_is_Some in Hne' as Hy1. destruct Hy1 as [y1 Hy1].
  destruct (array_mask x cut) as [|x0 ?] eqn:Hx0; [done|].
  destruct (array_mask density cut) as [|y0 ?] eqn:Hy0; [done|].
  by exists x0, x1, y0, y1.
Qed.

(** The run of the KDE branch that finds a point of the grid inside the
    interval. *)
Lemma kde_branch_run vec color bw linewidth alpha outline shade ax h
    density lower upper hpd_ x0 x1 y0 y1 :
  fast_kde E vec bw = inr (density, lower, upper) ->
  hpd E vec alpha = inr hpd_ ->
  let x := np_linspace lower upper (length density) in
  let cut := np_and (np_ge x (num_to_Q hpd_.1)) (np_le x (num_to_Q hpd_.2)) in
  head (array_mask x cut) = Some x0 -> last (array_mask x cut) = Some x1 ->
  head (array_mask density cut) = Some y0 -> last (array_mask density cut) = Some y1 ->
  kde_branch E vec color bw linewidth alpha outline shade ax h
  = (h,
     [Call_fast_kde vec bw; Call_hpd vec alpha]
       ++ (if outline
           then [Ax_plot ax (array_mask x cut) (array_mask density cut) color linewidth;
                 Ax_plot ax [x0; x0] [(- y0 / 100)%Q; y0] color linewidth;
                 Ax_plot ax [x1; x1] [(- y1 / 100)%Q; y1] color linewidth]
           else [])
       ++ (if Q_truthy shade then [Ax_fill_between ax x density cut color shade] else []),
     inr (PyFloat x0, PyFloat x1)).
Proof.
  intros Hkde Hhpd x cut Hx0 Hx1 Hy0 Hy1.
  unfold kde_branch, call_fast_kde, call_hpd.
  rewrite bind_assoc_run.
  unfold mbind at 1, M_bind at 1, emit at 1.
  unfold mbind at 1, M_bind at 1, lift at 1. rewrite Hkde.
  rewrite bind_assoc_run.
  unfold mbind at 1, M_bind at 1, emit at 1.
  unfold mbind at 1, M_bind at 1, lift at 1. rewrite Hhpd.
  fold x. fold cut. unfold array_first, array_last. rewrite Hx0, Hx1, Hy0, Hy1.
  unfold lift, emit, when, mbind, M_bind, mret, M_ret.
  by destruct outline, (Q_truthy shade).
Qed.

(** The run of the KDE branch when no point of the grid lies inside the
    interval: [x[cut][0]] raises, nothing has been drawn. *)
Lemma kde_branch_empty vec color bw linewidth alpha outline shade ax h
    density lower upper hpd_ :
  fast_kde E vec bw = inr (density, lower, upper) ->
  hpd E vec alpha = inr hpd_ ->
  restricted_domain lower upper (length density) hpd_ = [] ->
  kde_branch E vec color bw linewidth alpha outline shade ax h
  = (h, [Call_fast_kde vec bw; Call_hpd vec alpha],
     inl (IndexError "index 0 is out of bounds for axis 0 with size 0")).
Proof.
  intros Hkde Hhpd Hempty. unfold restricted_domain in Hempty. cbv zeta in Hempty.
  unfold kde_branch, call_fast_kde, call_hpd.
  rewrite bind_assoc_run.
  unfold mbind at 1, M_bind at 1, emit at 1.
  unfold mbind at 1, M_bind at 1, lift at 1. rewrite Hkde.
  rewrite bind_assoc_run.
  unfold mbind at 1, M_bind at 1, emit at 1.
  unfold mbind at 1, M_bind at 1, lift at 1. rewrite Hhpd.
  cbv zeta. unfold array_first at 1. rewrite Hempty. done.
Qed.

End Kde_runs.

Section Renderer.

Variable E : Collaborators.

Lemma finish_panel_steps vec vname color textsize markersize point_estimate hpd_markers
    xmin xmax ax :
  steps (fun e => is_kde_call e = false ∧ is_curve e = false ∧ is_hist e = false)
        (finish_panel E vec vname color textsize markersize point_estimate hpd_markers
                      xmin xmax ax).
Proof. unfold finish_panel. steps_tac. Qed.

Lemma hist_branch_steps vec color alpha outline shade ax :
  steps (fun e => is_kde_call e = false ∧ is_curve e = false)
        (hist_branch E vec color alpha outline shade ax).
Proof. unfold hist_branch, call_hpd. steps_tac. Qed.

Lemma kde_branch_steps vec color bw linewidth alpha outline shade ax :
  steps (fun e => is_hist e = false)
        (kde_branch E vec color bw linewidth alpha outline shade ax).
Proof. unfold kde_branch, call_fast_kde, call_hpd. steps_tac. Qed.

Lemma kde_branch_head vec color bw linewidth alpha outline shade ax h h' t r :
  kde_branch E vec color bw linewidth alpha outline shade ax h = (h', t, r) ->
  ∃ t', t = Call_fast_kde vec bw :: t'.
Proof.
  unfold kde_branch, call_fast_kde. rewrite bind_assoc_run.
  intros (t' & -> & _)%emit_bind_run. by exists t'.
Qed.

Lemma hist_branch_head vec color alpha outline shade ax h h' t r :
  hist_branch E vec color alpha outline shade ax h = (h', t, r) ->
  ∃ t', t = Call_hpd vec alpha :: t'.
Proof.
  unfold hist_branch, call_hpd. rewrite bind_assoc_run.
  intros (t' & -> & _)%emit_bind_run. by exists t'.
Qed.

(** The run of the histogram branch on integer bounds. *)
Lemma hist_branch_run vec color alpha outline shade ax lo hi h :
  hpd E vec alpha = inr (PyInt lo, PyInt hi) ->
  hist_branch E vec color alpha outline shade ax h
  = (h,
     Call_hpd vec alpha
       :: (if outline then [Ax_hist ax vec (Z_range lo (int64_wrap (hi + 2))) color HistStep] else [])
       ++ (if Q_truthy shade
           then [Ax_hist ax vec (Z_range lo (int64_wrap (hi + 2))) color (HistFilled shade)]
           else []),
     inr (PyInt lo, PyInt hi)).
Proof.
  intros Hhpd.
  unfold hist_branch, call_hpd, lift, emit, when, mbind, M_bind, mret, M_ret.
  rewrite Hhpd. simpl. by destruct outline, (Q_truthy shade).
Qed.

(** A run of [_d_helper]: one of the two branches, then the common part. *)
Lemma d_helper_run vec vname color bw textsize linewidth markersize alpha point_estimate
    hpd_markers outline shade ax h h' t r :
  _d_helper E vec vname color bw textsize linewidth markersize alpha point_estimate
            hpd_markers outline shade ax h = (h', t, r) ->
  ∃ hb tb rb,
    (if String.eqb (dtype_kind vec) "f"
     then kde_branch E vec color bw linewidth alpha outline shade ax
     else hist_branch E vec color alpha outline shade ax) h = (hb, tb, rb) ∧
    ((∃ e, rb = inl e ∧ r = inl e ∧ t = tb ∧ h' = hb) ∨
     (∃ xmin xmax tf,
        rb = inr (xmin, xmax) ∧
        finish_panel E vec vname color textsize markersize point_estimate hpd_markers
                     xmin xmax ax hb = (h', tf, r) ∧
        t = tb ++ tf)).
Proof.
  unfold _d_helper. intros Hrun.
  apply bind_run in Hrun as [(e & Hb & ->) | (hb & tb & [xmin xmax] & tf & Hb & Hf & ->)].
  - exists h', t, (inl e). split; [done|]. left. by exists e.
  - exists hb, tb, (inr (xmin, xmax)). split; [done|]. right. by exists xmin, xmax, tf.
Qed.

(** The trace of [_d_helper] on a vector that is not of floats, with
    integer bounds of the interval. *)
Lemma d_helper_hist_trace vec vname color bw textsize linewidth markersize alpha
    point_estimate hpd_markers outline shade ax h lo hi :
  dtype_kind vec ≠ "f" ->
  hpd E vec alpha = inr (PyInt lo, PyInt hi) ->
  ∃ tf,
    trace_of (_d_helper E vec vname color bw textsize linewidth markersize alpha
                        point_estimate hpd_markers outline shade ax h)
    = (Call_hpd vec alpha
        :: (if outline then [Ax_hist ax vec (Z_range lo (int64_wrap (hi + 2))) color HistStep] else [])
        ++ (if Q_truthy shade
            then [Ax_hist ax vec (Z_range lo (int64_wrap (hi + 2))) color (HistFilled shade)]
           else []))
      ++ tf ∧
    Forall (fun e => is_kde_call e = false ∧ is_curve e = false ∧ is_hist e = false) tf.
Proof.
  intros Hkind Hhpd.
  destruct (_d_helper _ _ _ _ _ _ _ _ _ _ _ _ _ _ _) as [[h' t] r] eqn:Hrun.
  unfold trace_of. simpl.
  apply d_helper_run in Hrun as (hb & tb & rb & Hb & Hrest).
  destruct (String.eqb_spec (dtype_kind vec) "f") as [?|_]; [done|].
  rewrite (hist_branch_run _ _ _ _ _ _ _ _ _ Hhpd) in Hb. injection Hb as <- <- <-.
  destruct Hrest as [(e & [=] & _) | (xmin & xmax & tf & _ & Hf & ->)].
  exists tf. split; [done|]. by apply finish_panel_steps in Hf as [_ ?].
Qed.

(** C9: the KDE branch is taken exactly for the vectors whose dtype kind
    is 'f': the density is estimated first, then the interval is asked
    for, no histogram is drawn, and the first thing drawn is the curve
    over the restricted grid (with [outline]) or the filled area.  Every
    other vector, whatever its kind, goes through the histogram branch:
    the interval is asked for first, no density is estimated, no curve is
    drawn, and the first thing drawn is a histogram over
    [range(xmin, xmax + 2)]. *)
Theorem branch_on_dtype_kind
    vec vname color bw textsize linewidth markersize alpha point_estimate hpd_markers
    outline shade ax h :
  let run := _d_helper E vec vname color bw textsize linewidth markersize alpha
                       point_estimate hpd_markers outline shade ax h in
  let t := trace_of run in
  (Call_fast_kde vec bw ∈ t ↔ dtype_kind vec = "f") ∧
  (dtype_kind vec = "f" ->
     head t = Some (Call_fast_kde vec bw) ∧
     Forall (fun e => is_hist e = false) t ∧
     ∀ density lower upper hpd_,
       fast_kde E vec bw = inr (density, lower, upper) ->
       hpd E vec alpha = inr hpd_ ->
       t !! 1 = Some (Call_hpd vec alpha) ∧
       (restricted_domain lower upper (length density) hpd_ ≠ [] ->
        let x := np_linspace lower upper (length density) in
        let cut := np_and (np_ge x (num_to_Q hpd_.1)) (np_le x (num_to_Q hpd_.2)) in
        (outline = true ->
           t !! 2 = Some (Ax_plot ax (array_mask x cut) (array_mask density cut)
                                  color linewidth)) ∧
        (outline = false -> Q_truthy shade = true ->
           t !! 2 = Some (Ax_fill_between ax x density cut color shade)) ∧
        (result_of run = inr tt -> Q_truthy shade = true ->
           Ax_fill_between ax x density cut color shade ∈ t))) ∧
  (dtype_kind vec ≠ "f" ->
     head t = Some (Call_hpd vec alpha) ∧
     Forall (fun e => is_kde_call e = false ∧ is_curve e = false) t ∧
     ∀ lo hi, hpd E vec alpha = inr (PyInt lo, PyInt hi) ->
       let bins := Z_range lo (int64_wrap (hi + 2)) in
       (outline = true -> t !! 1 = Some (Ax_hist ax vec bins color HistStep)) ∧
       (outline = false -> Q_truthy shade = true ->
          t !! 1 = Some (Ax_hist ax vec bins color (HistFilled shade))) ∧
       (result_of run = inr tt -> Q_truthy shade = true ->
          Ax_hist ax vec bins color (HistFilled shade) ∈ t)).
Proof.
  destruct (_d_helper _ _ _ _ _ _ _ _ _ _ _ _ _ _ _) as [[h' t] r] eqn:Hrun.
  unfold trace_of, result_of. simpl.
  apply d_helper_run in Hrun as (hb & tb & rb & Hb & Hrest).
  assert (∃ tf, t = tb ++ tf ∧
            Forall (fun e => is_kde_call e = false ∧ is_curve e = false ∧ is_hist e = false) tf)
    as (tf & -> & Htf).
  { destruct Hrest as [(e & _ & _ & -> & _) | (xmin & xmax & tf & _ & Hf & ->)].
    - exists []. by rewrite app_nil_r.
    - exists tf. split; [done|]. by apply finish_panel_steps in Hf as [_ ?]. }
  clear Hrest.
  destruct (String.eqb_spec (dtype_kind vec) "f") as [Hkind|Hkind].
  - destruct (kde_branch_head _ _ _ _ _ _ _ _ _ _ _ _ Hb) as (tb' & Htb).
    pose proof Hb as Hsteps. apply kde_branch_steps in Hsteps as [_ Hsteps].
    split_and!; [| |done].
    + split; [done|]. intros _. rewrite Htb. apply list_elem_of_here.
    + intros _. split_and!.
      * by rewrite Htb.
      * apply Forall_app. split; [done|].
        eapply Forall_impl; [exact Htf|]. by intros e (_ & _ & ?).
      * intros density lower upper hpd_ Hkde Hhpd.
        destruct (restricted_domain lower upper (length density) hpd_) as [|p ps] eqn:Hdom.
        { rewrite (kde_branch_empty E _ _ _ _ _ _ _ _ _ _ _ _ _ Hkde Hhpd Hdom) in Hb.
          injection Hb as <- <- <-. done. }
        assert (restricted_domain lower upper (length density) hpd_ ≠ []) as Hne
          by by rewrite Hdom.
        destruct (restricted_domain_ends _ _ _ _ Hne)
          as (x0 & x1 & y0 & y1 & H0 & H1 & H2 & H3).
        rewrite (kde_branch_run E vec color bw linewidth alpha outline shade ax h
                   density lower upper hpd_ x0 x1 y0 y1 Hkde Hhpd H0 H1 H2 H3) in Hb.
        injection Hb as <- <- <-.
        split; [done|]. intros _. split_and!.
        -- by intros ->.
        -- by intros -> ->.
        -- intros _ ->. destruct outline; elem_of_tac.
  - destruct (hist_branch_head _ _ _ _ _ _ _ _ _ _ Hb) as (tb' & Htb).
    pose proof Hb as Hsteps. apply hist_branch_steps in Hsteps as [_ Hsteps].
    assert (Forall (fun e => is_kde_call e = false ∧ is_curve e = false) (tb ++ tf)) as Hall.
    { apply Forall_app. split; [done|]. eapply Forall_impl; [exact Htf|].
      by intros e (? & ? & _). }
    split_and!; [|done|].
    + split; [|done]. intros Hin.
      rewrite Forall_forall in Hall. by destruct (Hall _ Hin).
    + intros _. split_and!; [by rewrite Htb | done |].
      intros lo hi Hhpd. rewrite (hist_branch_run _ _ _ _ _ _ _ _ _ Hhpd) in Hb.
      injection Hb as <- <- <-.
      split_and!.
      * by intros ->.
      * by intros -> ->.
      * intros _ ->. destruct outline; elem_of_tac.
Qed.

Lemma elem_of_Z_range (a b z : Z) : z ∈ Z_range a b ↔ (a <= z < b)%Z.
Proof.
  unfold Z_range. rewrite list_elem_of_fmap. split.
  - intros (i & -> & Hi%elem_of_seq). lia.
  - intros Hz. exists (Z.to_nat (z - a)). split; [lia|].
    apply elem_of_seq. lia.
Qed.

Lemma lookup_Z_range (a b : Z) (i : nat) :
  i < length (Z_range a b) -> Z_range a b !! i = Some (a + Z.of_nat i)%Z.
Proof.
  unfold Z_range. rewrite length_map, length_seq. intros Hi.
  by rewrite list_lookup_fmap, lookup_seq_lt.
Qed.

Lemma Z_range_empty (a b : Z) : (b <= a)%Z -> Z_range a b = [].
Proof. intros Hle. unfold Z_range. by replace (Z.to_nat (b - a)) with 0 by lia. Qed.

(** A sum inside the range of [np.int64] is the sum of the integers. *)
Lemma int64_wrap_in_range (z : Z) : in_int64 z -> int64_wrap z = z.
Proof.
  unfold in_int64, int64_wrap, int64_min, int64_max. intros Hz.
  rewrite Z.mod_small; lia.
Qed.

(** A sum above the range comes back from the lower end. *)
Lemma int64_wrap_above (z : Z) :
  (int64_max < z <= int64_max + 2 ^ 64)%Z -> int64_wrap z = (z - 2 ^ 64)%Z.
Proof.
  unfold int64_wrap, int64_min, int64_max. intros Hz.
  replace (z - - 2 ^ 63)%Z with ((z - 2 ^ 64 - - 2 ^ 63) + 1 * 2 ^ 64)%Z by lia.
  rewrite Z.mod_add by lia. rewrite Z.mod_small; lia.
Qed.

(** C6, as the code has it: for a vector that is not of floats and the
    [np.int64] bounds [lo], [hi] of its interval, every histogram drawn
    has the bin edges [range(lo, hi + 2)], the sum taken in [np.int64],
    and the first thing drawn is such a histogram.  Where [hi + 2] does
    not overflow these are the integers of [lo, hi + 2), one unit apart
    (2, ..., 8 for the interval [2, 7]); where it overflows the sum wraps
    around and there are no bin edges (one, for the interval of all of
    [np.int64]). *)
Theorem histogram_bins
    vec vname color bw textsize linewidth markersize alpha point_estimate hpd_markers
    outline shade ax h lo hi :
  dtype_kind vec ≠ "f" ->
  hpd E vec alpha = inr (PyInt lo, PyInt hi) ->
  in_int64 lo -> in_int64 hi ->
  let run := _d_helper E vec vname color bw textsize linewidth markersize alpha
                       point_estimate hpd_markers outline shade ax h in
  let t := trace_of run in
  let bins := Z_range lo (int64_wrap (hi + 2)) in
  (∀ ax' vec' bins' color' style, Ax_hist ax' vec' bins' color' style ∈ t -> bins' = bins) ∧
  (outline = true -> t !! 1 = Some (Ax_hist ax vec bins color HistStep)) ∧
  (outline = false -> Q_truthy shade = true ->
     t !! 1 = Some (Ax_hist ax vec bins color (HistFilled shade))) ∧
  (result_of run = inr tt -> Q_truthy shade = true ->
     Ax_hist ax vec bins color (HistFilled shade) ∈ t) ∧
  ((hi + 2 <= int64_max)%Z ->
     bins = Z_range lo (hi + 2) ∧
     (∀ z, z ∈ bins ↔ (lo <= z < hi + 2)%Z) ∧
     (∀ i, i < length bins -> bins !! i = Some (lo + Z.of_nat i)%Z)) ∧
  (lo = 2%Z -> hi = 7%Z -> bins = [2; 3; 4; 5; 6; 7; 8]%Z) ∧
  ((int64_max < hi + 2)%Z ->
     int64_wrap (hi + 2) = (hi + 2 - 2 ^ 64)%Z ∧
     (∀ z, z ∈ bins ↔ (lo <= z < hi + 2 - 2 ^ 64)%Z) ∧
     ((int64_min < lo)%Z -> bins = [])).
Proof.
  intros Hkind Hhpd Hlo Hhi run t bins.
  destruct (d_helper_hist_trace vec vname color bw textsize linewidth markersize alpha
              point_estimate hpd_markers outline shade ax h lo hi Hkind Hhpd)
    as (tf & Ht & Htf).
  fold run t bins in Ht.
  split_and!.
  - intros ax' vec' bins' color' style Hin. rewrite Ht in Hin.
    apply elem_of_app in Hin as [Hin|Hin].
    + apply elem_of_cons in Hin as [[=]|Hin].
      apply elem_of_app in Hin as [Hin|Hin].
      * destruct outline; [|by apply elem_of_nil in Hin].
        by apply list_elem_of_singleton in Hin as [= -> -> -> -> ->].
      * destruct (Q_truthy shade); [|by apply elem_of_nil in Hin].
        by apply list_elem_of_singleton in Hin as [= -> -> -> -> ->].
    + rewrite Forall_forall in Htf. by destruct (Htf _ Hin) as (_ & _ & ?).
  - intros ->. by rewrite Ht.
  - intros -> Hshade. by rewrite Ht, Hshade.
  - intros _ Hshade. rewrite Ht, Hshade. destruct outline; elem_of_tac.
  - intros Hsum.
    assert (int64_wrap (hi + 2) = (hi + 2)%Z) as Hwrap.
    { apply int64_wrap_in_range. unfold in_int64 in *. unfold int64_min in *. lia. }
    unfold bins. rewrite Hwrap. split; [done|]. split.
    + intros z. apply elem_of_Z_range.
    + apply lookup_Z_range.
  - intros -> ->. reflexivity.
  - intros Hsum.
    assert (int64_wrap (hi + 2) = (hi + 2 - 2 ^ 64)%Z) as Hwrap.
    { apply int64_wrap_above. unfold in_int64 in *. lia. }
    split; [done|]. unfold bins. rewrite Hwrap. split.
    + intros z. apply elem_of_Z_range.
    + intros Hmin. apply Z_range_empty.
      unfold in_int64, int64_min, int64_max in *. lia.
Qed.

(** A run of the KDE branch that ends well. *)
Lemma kde_branch_ok vec color bw linewidth alpha outline shade ax h h' t xmin xmax :
  kde_branch E vec color bw linewidth alpha outline shade ax h = (h', t, inr (xmin, xmax)) ->
  ∃ density lower upper hpd_ x0 x1 y0 y1,
    fast_kde E vec bw = inr (density, lower, upper) ∧
    hpd E vec alpha = inr hpd_ ∧
    let x := np_linspace lower upper (length density) in
    let cut := np_and (np_ge x (num_to_Q hpd_.1)) (np_le x (num_to_Q hpd_.2)) in
    head (array_mask x cut) = Some x0 ∧ last (array_mask x cut) = Some x1 ∧
    head (array_mask density cut) = Some y0 ∧ last (array_mask density cut) = Some y1 ∧
    xmin = PyFloat x0 ∧ xmax = PyFloat x1 ∧
    t = [Call_fast_kde vec bw; Call_hpd vec alpha]
        ++ (if outline
            then [Ax_plot ax (array_mask x cut) (array_mask density cut) color linewidth;
                  Ax_plot ax [x0; x0] [(- y0 / 100)%Q; y0] color linewidth;
                  Ax_plot ax [x1; x1] [(- y1 / 100)%Q; y1] color linewidth]
            else [])
        ++ (if Q_truthy shade then [Ax_fill_between ax x density cut color shade] else []).
Proof.
  unfold kde_branch, call_fast_kde, call_hpd. rewrite bind_assoc_run.
  intros (t1 & -> & Hrun)%emit_bind_run.
  apply lift_bind_run in Hrun as [(e & _ & _ & _ & [=]) | ([[density lower] upper] & Hkde & Hrun)].
  rewrite bind_assoc_run in Hrun.
  apply emit_bind_run in Hrun as (t2 & -> & Hrun).
  apply lift_bind_run in Hrun as [(e & _ & _ & _ & [=]) | (hpd_ & Hhpd & Hrun)].
  apply lift_bind_run in Hrun as [(e & _ & _ & _ & [=]) | (x0 & Hx0 & Hrun)].
  apply lift_bind_run in Hrun as [(e & _ & _ & _ & [=]) | (x1 & Hx1 & Hrun)].
  apply lift_bind_run in Hrun as [(e & _ & _ & _ & [=]) | (y0 & Hy0 & Hrun)].
  apply lift_bind_run in Hrun as [(e & _ & _ & _ & [=]) | (y1 & Hy1 & Hrun)].
  exists density, lower, upper, hpd_, x0, x1, y0, y1.
  unfold array_first, array_last in *.
  destruct (head (array_mask (np_linspace _ _ _) _)) as [?|]; [|done].
  destruct (last (array_mask (np_linspace _ _ _) _)) as [?|]; [|done].
  destruct (head (array_mask density _)) as [?|]; [|done].
  destruct (last (array_mask density _)) as [?|]; [|done].
  injection Hx0 as ->. injection Hx1 as ->. injection Hy0 as ->. injection Hy1 as ->.
  split_and!; try done;
    destruct outline, (Q_truthy shade); by injection Hrun as <- <- <- <-.
Qed.

(** C8: when [_d_helper] has rendered a vector of floats, the points of
    the curve it draws are points of the domain of the density, between
    [lower] and [upper] and inside the interval; so are [xmin] and [xmax],
    the first and the last of them. *)
Theorem restricted_domain_within_support
    vec vname color bw textsize linewidth markersize alpha point_estimate hpd_markers
    outline shade ax h h' t density lower upper :
  dtype_kind vec = "f" ->
  fast_kde E vec bw = inr (density, lower, upper) ->
  (lower <= upper)%Q ->
  _d_helper E vec vname color bw textsize linewidth markersize alpha point_estimate
            hpd_markers outline shade ax h = (h', t, inr tt) ->
  ∃ hpd_ xmin xmax,
    hpd E vec alpha = inr hpd_ ∧
    let x := np_linspace lower upper (length density) in
    let cut := np_and (np_ge x (num_to_Q hpd_.1)) (np_le x (num_to_Q hpd_.2)) in
    array_mask x cut ⊆ x ∧
    (∀ p, p ∈ x -> (lower <= p <= upper)%Q) ∧
    (∀ p, p ∈ array_mask x cut -> (num_to_Q hpd_.1 <= p <= num_to_Q hpd_.2)%Q) ∧
    head (array_mask x cut) = Some xmin ∧
    last (array_mask x cut) = Some xmax ∧
    (lower <= xmin <= upper)%Q ∧
    (lower <= xmax <= upper)%Q ∧
    (outline = true ->
       Ax_plot ax (array_mask x cut) (array_mask density cut) color linewidth ∈ t) ∧
    (str_truthy hpd_markers = true ->
       Ax_plot_marker ax (PyFloat xmin) (PyInt 0) hpd_markers color "k" markersize ∈ t ∧
       Ax_plot_marker ax (PyFloat xmax) (PyInt 0) hpd_markers color "k" markersize ∈ t).
Proof.
  intros Hkind Hkde Hle Hrun.
  apply d_helper_run in Hrun as (hb & tb & rb & Hb & Hrest).
  destruct (String.eqb_spec (dtype_kind vec) "f") as [_|?]; [|done].
  destruct Hrest as [(e & _ & [=] & _) | (xmin & xmax & tf & -> & Hf & ->)].
  apply kde_branch_ok in Hb
    as (density' & lower' & upper' & hpd_ & x0 & x1 & y0 & y1 & Hkde' & Hhpd & Hb).
  rewrite Hkde in Hkde'. injection Hkde' as <- <- <-.
  simpl in Hb. destruct Hb as (Hx0 & Hx1 & _ & _ & -> & -> & ->).
  exists hpd_, x0, x1. split; [done|]. simpl.
  assert (∀ p, p ∈ np_linspace lower upper (length density) -> (lower <= p <= upper)%Q)
    as Hdomain.
  { intros p Hp. exact (np_linspace_bounds _ _ _ _ Hle Hp). }
  assert ((lower <= x0 <= upper)%Q) as Hx0d.
  { apply Hdomain. eapply array_mask_subseteq. by apply head_Some_elem_of. }
  assert ((lower <= x1 <= upper)%Q) as Hx1d.
  { apply Hdomain. eapply array_mask_subseteq. by apply last_Some_elem_of. }
  split; [apply array_mask_subseteq|].
  split; [done|].
  split; [intros p Hp; by apply elem_of_interval_mask in Hp as (_ & ? & ?)|].
  do 4 (split; [done|]).
  split.
  - intros ->. elem_of_tac.
  - intros Hmark. unfold finish_panel in Hf. rewrite Hmark in Hf. simpl in Hf.
    rewrite bind_assoc_run in Hf.
    apply emit_bind_run in Hf as (t1 & -> & Hf).
    apply emit_bind_run in Hf as (t2 & -> & Hf).
    split; elem_of_tac.
Qed.

End Renderer.

(** The renderer on concrete vectors. *)

Lemma histogram_bins_witness :
  let vec := Demo.ints [2; 3; 7; 5]%Z in
  let run := _d_helper Demo.env vec "k" "C0" (9 # 2)%Q 12%Q 1%Q 4%Q (1 # 20)%Q
                       (Some "median") "v" true (1 # 2)%Q 0 [] in
  dtype_kind vec ≠ "f" ∧
  hpd Demo.env vec (1 # 20)%Q = inr (PyInt 2, PyInt 7) ∧
  in_int64 2 ∧ in_int64 7 ∧
  trace_of run !! 1 = Some (Ax_hist 0 vec [2; 3; 4; 5; 6; 7; 8]%Z "C0" HistStep) ∧
  Ax_hist 0 vec [2; 3; 4; 5; 6; 7; 8]%Z "C0" (HistFilled (1 # 2)%Q) ∈ trace_of run.
Proof.
  intros vec run.
  assert (in_int64 2) as H2 by by vm_compute.
  assert (in_int64 7) as H7 by by vm_compute.
  destruct (histogram_bins Demo.env vec "k" "C0" (9 # 2)%Q 12%Q 1%Q 4%Q (1 # 20)%Q
              (Some "median") "v" true (1 # 2)%Q 0 [] 2 7)
    as (_ & Hstep & _ & Hfilled & _); [discriminate | reflexivity | exact H2 | exact H7 |].
  split; [discriminate|]. split; [reflexivity|]. split; [exact H2|]. split; [exact H7|].
  split; [exact (Hstep eq_refl) | exact (Hfilled eq_refl eq_refl)].
Defined.

(** C6 as the documentation states it does not hold: for an interval that
    ends at the largest [np.int64], [xmax + 2] wraps around to the lower
    end, and the histogram is drawn with no bin edge at all. *)
Lemma bins_wrap_around_at_int64_max :
  let top := 9223372036854775807%Z in
  let vec := Demo.ints [top - 5; top]%Z in
  let t := trace_of (_d_helper Demo.env vec "k" "C0" (9 # 2)%Q 12%Q 1%Q 4%Q (1 # 20)%Q
                               (Some "median") "v" true 0%Q 0 []) in
  top = int64_max ∧
  hpd Demo.env vec (1 # 20)%Q = inr (PyInt (top - 5), PyInt top) ∧
  num_add_int (PyInt top) 2 = PyInt (- top) ∧
  t !! 1 = Some (Ax_hist 0 vec [] "C0" HistStep) ∧
  ¬ (∀ z, (top - 5 <= z < top + 2)%Z ->
          ∃ bins, Ax_hist 0 vec bins "C0" HistStep ∈ t ∧ z ∈ bins).
Proof.
  intros top vec t.
  split; [reflexivity|]. split; [reflexivity|]. split; [reflexivity|].
  split; [reflexivity|].
  intros Hall. destruct (Hall top) as (bins & Hin & Hz); [lia|].
  vm_compute in Hin.
  repeat (apply elem_of_cons in Hin as [Hin|Hin]; [try discriminate Hin|]).
  - injection Hin as ->. by apply elem_of_nil in Hz.
  - by apply elem_of_nil in Hin.
Qed.

Lemma restricted_domain_within_support_witness :
  let vec := Demo.floats [1; 2; 7 # 2]%Q in
  let run := _d_helper Demo.env vec "mu" "C0" (9 # 2)%Q 12%Q 1%Q 4%Q (1 # 20)%Q
                       (Some "mean") "v" true 0%Q 0 [] in
  ∃ hpd_ xmin xmax,
    hpd Demo.env vec (1 # 20)%Q = inr hpd_ ∧
    let x := np_linspace 1 (7 # 2) 5 in
    let cut := np_and (np_ge x (num_to_Q hpd_.1)) (np_le x (num_to_Q hpd_.2)) in
    array_mask x cut ⊆ x ∧
    (∀ p, p ∈ x -> (1 <= p <= 7 # 2)%Q) ∧
    (∀ p, p ∈ array_mask x cut -> (num_to_Q hpd_.1 <= p <= num_to_Q hpd_.2)%Q) ∧
    head (array_mask x cut) = Some xmin ∧
    last (array_mask x cut) = Some xmax ∧
    (1 <= xmin <= 7 # 2)%Q ∧
    (1 <= xmax <= 7 # 2)%Q ∧
    (true = true ->
       Ax_plot 0 (array_mask x cut) (array_mask (replicate 5 (1 # 5)%Q) cut) "C0" 1%Q
         ∈ trace_of run) ∧
    (str_truthy "v" = true ->
       Ax_plot_marker 0 (PyFloat xmin) (PyInt 0) "v" "C0" "k" 4%Q ∈ trace_of run ∧
       Ax_plot_marker 0 (PyFloat xmax) (PyInt 0) "v" "C0" "k" 4%Q ∈ trace_of run).
Proof.
  intros vec run.
  apply (restricted_domain_within_support Demo.env vec "mu" "C0" (9 # 2)%Q 12%Q 1%Q 4%Q
           (1 # 20)%Q (Some "mean") "v" true 0%Q 0 [] (store_of run) (trace_of run)
           (replicate 5 (1 # 5)%Q) 1%Q (7 # 2)%Q).
  - reflexivity.
  - reflexivity.
  - discriminate.
  - vm_compute. reflexivity.
Defined.

Lemma branch_on_dtype_kind_witness :
  let bools := Demo.bools [true; false; true] in
  let floats := Demo.floats [1; 2; 7 # 2]%Q in
  let t := trace_of (_d_helper Demo.env bools "flag" "C0" (9 # 2)%Q 12%Q 1%Q 4%Q (1 # 20)%Q
                               None "" true 0%Q 0 []) in
  let t' := trace_of (_d_helper Demo.env floats "mu" "C0" (9 # 2)%Q 12%Q 1%Q 4%Q (1 # 20)%Q
                                None "" true 0%Q 0 []) in
  head t = Some (Call_hpd bools (1 # 20)%Q) ∧
  Forall (fun e => is_kde_call e = false ∧ is_curve e = false) t ∧
  t !! 1 = Some (Ax_hist 0 bools [0; 1; 2]%Z "C0" HistStep) ∧
  head t' = Some (Call_fast_kde floats (9 # 2)%Q) ∧
  Forall (fun e => is_hist e = false) t' ∧
  t' !! 1 = Some (Call_hpd floats (1 # 20)%Q).
Proof.
  intros bools floats t t'.
  destruct (branch_on_dtype_kind Demo.env bools "flag" "C0" (9 # 2)%Q 12%Q 1%Q 4%Q (1 # 20)%Q
              None "" true 0%Q 0 []) as (_ & _ & Hother).
  destruct Hother as (Hhead & Hall & Hhist); [discriminate|].
  destruct (branch_on_dtype_kind Demo.env floats "mu" "C0" (9 # 2)%Q 12%Q 1%Q 4%Q (1 # 20)%Q
              None "" true 0%Q 0 []) as (_ & Hfloat & _).
  destruct Hfloat as (Hhead' & Hall' & Hkde); [reflexivity|].
  split; [exact Hhead|]. split; [exact Hall|].
  destruct (Hhist 0%Z 1%Z eq_refl) as [Hstep _].
  split; [exact (Hstep eq_refl)|].
  split; [exact Hhead'|]. split; [exact Hall'|].
  destruct (Hkde (replicate 5 (1 # 5)%Q) 1%Q (7 # 2)%Q (PyFloat 1, PyFloat (7 # 2))
              eq_refl eq_refl) as [Hhpd _].
  exact Hhpd.
Defined.

(** * The panels (lines 88-112) *)

Section Panels.

Variable E : Collaborators.

Lemma collect_labels_list (to_plot : list (list plotter)) :
  collect_labels E to_plot = list_to_set (instance_labels E to_plot).
Proof.
  unfold collect_labels, instance_labels.
  assert (∀ (pl : list plotter) (acc : gset string),
            foldl (fun all_labels (p : plotter) => all_labels ∪ {[ make_label E p.1.1 p.1.2 ]})
                  acc pl
            = acc ∪ list_to_set (map (fun p : plotter => make_label E p.1.1 p.1.2) pl))
    as Hinner.
  { induction pl as [|p pl IH]; intros acc; simpl.
    - by rewrite (right_id_L ∅ (∪)).
    - rewrite IH. by rewrite <- (assoc_L (∪)). }
  assert (∀ (tp : list (list plotter)) (acc : gset string),
            foldl (fun all_labels plotters =>
                     foldl (fun all_labels (p : plotter) =>
                              all_labels ∪ {[ make_label E p.1.1 p.1.2 ]})
                           all_labels plotters) acc tp
            = acc ∪ list_to_set (map (fun p : plotter => make_label E p.1.1 p.1.2) (concat tp)))
    as Houter.
  { induction tp as [|pl tp IH]; intros acc; simpl.
    - by rewrite (right_id_L ∅ (∪)).
    - rewrite IH, Hinner, map_app, list_to_set_app_L. by rewrite <- (assoc_L (∪)). }
  rewrite Houter. by rewrite (left_id_L ∅ (∪)).
Qed.

Lemma elem_of_collect_labels (to_plot : list (list plotter)) (label : string) :
  label ∈ collect_labels E to_plot ↔ label ∈ instance_labels E to_plot.
Proof. rewrite collect_labels_list. apply elem_of_list_to_set. Qed.

(** The set holds each label once. *)
Lemma size_collect_labels (to_plot : list (list plotter)) :
  size (collect_labels E to_plot) = length (remove_dups (instance_labels E to_plot)).
Proof.
  rewrite collect_labels_list.
  rewrite <- (size_list_to_set (C := gset string)) by apply NoDup_remove_dups.
  f_equal. apply set_eq. intros label.
  by rewrite !elem_of_list_to_set, elem_of_remove_dups.
Qed.

(** The axis of a label is the position of the label among the elements
    of the set. *)
Lemma axis_map_lookup (all_labels : gset string) (label : string) (ax : nat) :
  make_axis_map all_labels (seq 0 (size all_labels * 1)) !! label = Some ax
  ↔ elements all_labels !! ax = Some label.
Proof.
  unfold make_axis_map.
  assert (length (elements all_labels) = size all_labels) as Hsize by done.
  rewrite <- elem_of_list_to_map.
  2:{ rewrite fst_zip; [apply NoDup_elements|]. rewrite length_seq. lia. }
  rewrite list_elem_of_lookup. split.
  - intros (i & [Hl Hax]%lookup_zip_Some).
    apply lookup_seq in Hax as [-> _]. done.
  - intros Hl. exists ax. apply lookup_zip_Some. split; [done|].
    apply lookup_seq. split; [done|].
    apply lookup_lt_Some in Hl. lia.
Qed.

Lemma axis_map_total (to_plot : list (list plotter)) (label : string) :
  label ∈ instance_labels E to_plot ->
  ∃ ax, make_axis_map (collect_labels E to_plot)
                      (seq 0 (size (collect_labels E to_plot) * 1)) !! label = Some ax.
Proof.
  intros Hl%elem_of_collect_labels%elem_of_elements%list_elem_of_lookup.
  destruct Hl as [ax Hax]. exists ax. by apply axis_map_lookup.
Qed.

Lemma axis_map_inj (all_labels : gset string) (label label' : string) (ax : nat) :
  make_axis_map all_labels (seq 0 (size all_labels * 1)) !! label = Some ax ->
  make_axis_map all_labels (seq 0 (size all_labels * 1)) !! label' = Some ax ->
  label = label'.
Proof. rewrite !axis_map_lookup. congruence. Qed.

Lemma axis_map_range (all_labels : gset string) (label : string) (ax : nat) :
  make_axis_map all_labels (seq 0 (size all_labels * 1)) !! label = Some ax ->
  ax ∈ seq 0 (size all_labels * 1).
Proof.
  rewrite axis_map_lookup. intros Hl%lookup_lt_Some.
  apply elem_of_seq. unfold size, set_size. simpl. lia.
Qed.

End Panels.

Section Loops.

Context {A : Type}.

Lemma steps_bind_lift {B C} (P : event -> Prop) (x : res B) (f : B -> M C) :
  (∀ b, x = inr b -> steps P (f b)) -> steps P (lift x ≫= f).
Proof.
  intros Hf h h' t r Hrun.
  apply lift_bind_run in Hrun as [(e & _ & -> & -> & _) | (b & Hb & Hrun)].
  - split; [done | constructor].
  - by eapply Hf.
Qed.

(** A loop that ends well has run its body well on every item. *)
Lemma for_each_ok (l : list A) (body : A -> M unit) h h' t :
  for_each l body h = (h', t, inr tt) ->
  ∀ x, x ∈ l -> ∃ h1 h2 tx, body x h1 = (h2, tx, inr tt) ∧ tx ⊆ t.
Proof.
  revert h t. induction l as [|y l IH]; intros h t; simpl.
  - intros _ x Hx. by apply elem_of_nil in Hx.
  - intros Hrun x Hx.
    apply bind_run in Hrun as [(e & _ & [=]) | (h1 & t1 & [] & t2 & Hy & Hrun & ->)].
    apply elem_of_cons in Hx as [->|Hx].
    + exists h, h1, t1. split; [done|]. intros e He. apply elem_of_app. by left.
    + destruct (IH _ _ Hrun x Hx) as (h2 & h3 & tx & Hbody & Hsub).
      exists h2, h3, tx. split; [done|]. intros e He. apply elem_of_app. right. by apply Hsub.
Qed.

(** A loop that raises has raised in its body, on one of the items. *)
Lemma for_each_err (l : list A) (body : A -> M unit) h h' t e :
  for_each l body h = (h', t, inl e) ->
  ∃ x h1 tx, x ∈ l ∧ body x h1 = (h', tx, inl e).
Proof.
  revert h t. induction l as [|y l IH]; intros h t; simpl.
  - intros [=].
  - intros Hrun.
    apply bind_run in Hrun as [(e' & Hy & [= <-]) | (h1 & t1 & [] & t2 & Hy & Hrun & ->)].
    + exists y, h, t. split; [apply list_elem_of_here | done].
    + destruct (IH _ _ Hrun) as (x & h2 & tx & Hx & Hbody).
      exists x, h2, tx. split; [by apply list_elem_of_further | done].
Qed.

Lemma elem_of_enumerate (l : list A) (i : nat) (x : A) :
  (i, x) ∈ enumerate l ↔ l !! i = Some x.
Proof.
  unfold enumerate. rewrite list_elem_of_lookup. split.
  - intros (j & [Hi Hx]%lookup_zip_Some). by apply lookup_seq in Hi as [-> _].
  - intros Hx. exists i. apply lookup_zip_Some. split; [|done].
    apply lookup_seq. split; [done|]. by apply lookup_lt_Some in Hx.
Qed.

End Loops.

Lemma elem_of_concat {A} (ls : list (list A)) (x : A) :
  x ∈ concat ls ↔ ∃ l, x ∈ l ∧ l ∈ ls.
Proof.
  induction ls as [|l ls IH]; simpl.
  - split; [by intros ?%elem_of_nil | by intros (l & _ & ?%elem_of_nil)].
  - rewrite elem_of_app, IH. split.
    + intros [Hx | (l' & Hx & Hl')].
      * exists l. split; [done | apply list_elem_of_here].
      * exists l'. split; [done | by apply list_elem_of_further].
    + intros (l' & Hx & [->|Hl']%elem_of_cons); [by left|].
      right. by exists l'.
Qed.

Lemma filter_creates_figure_nil (t : list event) :
  Forall (fun e => creates_figure e = false) t ->
  filter (fun e => creates_figure e = true) t = [].
Proof.
  induction 1 as [|e t He _ IH]; [done|].
  rewrite filter_cons, IH. destruct (decide _) as [Heq|_]; [|done].
  by rewrite He in Heq.
Qed.

Lemma legend_entries_nil (t : list event) :
  Forall (fun e => legend_entry e = None) t -> legend_entries t = [].
Proof.
  induction 1 as [|e t He _ IH]; [done|].
  change (legend_entries (e :: t))
    with (match legend_entry e with
          | Some y => y :: legend_entries t
          | None => legend_entries t
          end).
  by rewrite He.
Qed.

Lemma legend_entries_app (t1 t2 : list event) :
  legend_entries (t1 ++ t2) = legend_entries t1 ++ legend_entries t2.
Proof. apply omap_app. Qed.

Lemma legend_entries_cons_None (e : event) (t : list event) :
  legend_entry e = None -> legend_entries (e :: t) = legend_entries t.
Proof.
  intros He.
  change (legend_entries (e :: t))
    with (match legend_entry e with
          | Some y => y :: legend_entries t
          | None => legend_entries t
          end).
  by rewrite He.
Qed.

Lemma is_plotting_draws_nothing (e : event) :
  is_plotting e = false ->
  creates_figure e = false ∧ legend_entry e = None ∧ panel_title e = None.
Proof. by destruct e. Qed.

Section Whole_call.

Variable E : Collaborators.

Lemma var_iter_list_steps var_names data :
  steps (fun e => is_plotting e = false) (var_iter_list E var_names data).
Proof. unfold var_iter_list, deref_dataset. steps_tac. Qed.

Lemma var_iter_list_run var_names data h h' t plotters :
  var_iter_list E var_names data h = (h', t, inr plotters) ->
  h' = h ∧ ∃ d, h !! data = Some (XrDataset d) ∧ xarray_var_iter E d var_names = inr plotters.
Proof.
  unfold var_iter_list, deref_dataset, deref.
  intros (t1 & -> & Hrun)%emit_bind_run.
  rewrite bind_assoc_run in Hrun.
  unfold mbind at 1, M_bind at 1 in Hrun.
  destruct (h !! data) as [[d|d|]|] eqn:Hd; simpl in Hrun; try done.
  unfold lift in Hrun. injection Hrun as <- <- Hr.
  split; [done|]. by exists d.
Qed.

(** The rendering of one variable draws on its panel, under its label. *)
Lemma d_helper_draws vec vname color bw textsize linewidth markersize alpha point_estimate
    hpd_markers outline shade ax :
  steps (draws_on (fun ax' title => ax' = ax ∧ title = vname))
        (_d_helper E vec vname color bw textsize linewidth markersize alpha point_estimate
                   hpd_markers outline shade ax).
Proof.
  unfold _d_helper, kde_branch, hist_branch, finish_panel, call_fast_kde, call_hpd.
  steps_tac.
Qed.

Lemma finish_panel_title vec vname color textsize markersize point_estimate hpd_markers
    xmin xmax ax h h' t :
  finish_panel E vec vname color textsize markersize point_estimate hpd_markers xmin xmax ax h
  = (h', t, inr tt) ->
  Ax_set_title ax vname ∈ t.
Proof.
  unfold finish_panel. intros Hrun.
  apply bind_run in Hrun as [(e & _ & [=]) | (h1 & t1 & [] & t2 & _ & Hrun & ->)].
  apply bind_run in Hrun as [(e & _ & [=]) | (h2 & t3 & [] & t4 & _ & Hrun & ->)].
  apply emit_bind_run in Hrun as (t5 & -> & Hrun).
  apply emit_bind_run in Hrun as (t6 & -> & Hrun).
  elem_of_tac.
Qed.

Lemma d_helper_title vec vname color bw textsize linewidth markersize alpha point_estimate
    hpd_markers outline shade ax h h' t :
  _d_helper E vec vname color bw textsize linewidth markersize alpha point_estimate
            hpd_markers outline shade ax h = (h', t, inr tt) ->
  Ax_set_title ax vname ∈ t.
Proof.
  intros Hrun. apply d_helper_run in Hrun as (hb & tb & rb & _ & Hrest).
  destruct Hrest as [(e & _ & [=] & _) | (xmin & xmax & tf & _ & Hf & ->)].
  apply elem_of_app. right. by eapply finish_panel_title.
Qed.

Lemma render_dataset_draws colors axis_map bw textsize linewidth markersize alpha
    point_estimate hpd_markers outline shade m_idx plotters :
  steps (draws_on (fun ax title => axis_map !! title = Some ax))
        (render_dataset E colors axis_map bw textsize linewidth markersize alpha
                        point_estimate hpd_markers outline shade m_idx plotters).
Proof.
  unfold render_dataset. apply steps_for_each. intros [[var_name sel] values].
  apply steps_bind_lift. intros color _.
  apply steps_bind_lift. intros ax Hax.
  eapply steps_mono; [|apply d_helper_draws].
  intros e (Hfig & Hleg & Htitle). split_and!; [done..|].
  destruct e; try done. simpl in *. destruct Htitle as [-> ->].
  unfold dict_getitem in Hax. destruct (axis_map !! _); by inversion Hax.
Qed.

Lemma render_all_draws colors axis_map bw textsize linewidth markersize alpha
    point_estimate hpd_markers outline shade to_plot :
  steps (draws_on (fun ax title => axis_map !! title = Some ax))
        (render_all E colors axis_map bw textsize linewidth markersize alpha
                    point_estimate hpd_markers outline shade to_plot).
Proof.
  unfold render_all. apply steps_for_each. intros [m_idx plotters].
  apply render_dataset_draws.
Qed.

End Whole_call.

(** * The legend (lines 108-112) *)

Lemma legend_loop_run (ax : nat) (colors : list string) (markersize : Q)
    (labels : list string) (k : nat) h :
  for_each (zip (seq k (length labels)) labels)
           (fun il => color ← lift (list_getitem colors il.1);
                      emit (Ax_plot_legend_entry ax il.2 color markersize)) h
  = (h,
     zip_with (fun label color => Ax_plot_legend_entry ax label color markersize)
              labels (drop k colors),
     if bool_decide (length labels ≤ length (drop k colors)) then inr tt
     else inl (IndexError "list index out of range")).
Proof.
  revert k. induction labels as [|label labels IH]; intros k.
  - done.
  - simpl. unfold mbind at 1, M_bind at 1. unfold mbind at 1, M_bind at 1.
    unfold lift, list_getitem. simpl.
    destruct (colors !! k) as [c|] eqn:Hk.
    + rewrite (drop_S _ _ _ Hk). simpl. rewrite IH.
      destruct (bool_decide (length labels ≤ length (drop (S k) colors))) eqn:Hle.
      * apply bool_decide_eq_true in Hle. rewrite bool_decide_eq_true_2 by lia. done.
      * apply bool_decide_eq_false in Hle. rewrite bool_decide_eq_false_2 by lia. done.
    + apply lookup_ge_None in Hk. rewrite drop_ge by done.
      rewrite bool_decide_eq_false_2 by (simpl; lia). done.
Qed.

Lemma add_legend_run (axes : list nat) (labels colors : list string) (textsize markersize : Q)
    (ax : nat) h :
  head axes = Some ax ->
  add_legend axes labels colors textsize markersize h
  = if bool_decide (length labels ≤ length colors)
    then (h,
          zip_with (fun label color => Ax_plot_legend_entry ax label color markersize)
                   labels colors ++ [Ax_legend ax textsize],
          inr tt)
    else (h,
          zip_with (fun label color => Ax_plot_legend_entry ax label color markersize)
                   labels colors,
          inl (IndexError "list index out of range")).
Proof.
  intros Hax. unfold add_legend, array_first, enumerate. rewrite Hax.
  unfold mbind at 1, M_bind at 1. unfold lift at 1.
  unfold mbind at 1, M_bind at 1.
  rewrite legend_loop_run. rewrite drop_0.
  by destruct (bool_decide (length labels ≤ length colors)).
Qed.

Lemma legend_entries_zip_with (ax : nat) (markersize : Q) (labels colors : list string) :
  legend_entries (zip_with (fun label color => Ax_plot_legend_entry ax label color markersize)
                           labels colors)
  = zip_with (fun label color => (ax, label, color)) labels colors.
Proof.
  revert colors. induction labels as [|label labels IH]; intros [|c colors]; try done.
  simpl. f_equal. apply IH.
Qed.

Section Unfolding.

Variable E : Collaborators.

(** The stages of [plot_datasets], one after the other. *)
Lemma plot_datasets_unfold datasets data_labels var_names alpha point_estimate colors
    outline hpd_markers shade bw figsize textsize h :
  plot_datasets E datasets data_labels var_names alpha point_estimate colors outline
                hpd_markers shade bw figsize textsize h
  = let n_data := length datasets in
    match resolve_data_labels data_labels n_data with
    | inl e => (h, [], inl e)
    | inr labels =>
        let cols := resolve_colors colors n_data in
        match comprehension (var_iter_list E var_names) datasets h with
        | (h1, t1, inl e) => (h1, t1, inl e)
        | (h1, t1, inr to_plot) =>
            let all_labels := collect_labels E to_plot in
            let fs := match figsize with
                      | None => (6, inject_Z (Z.of_nat (size all_labels * 2)))%Q
                      | Some fs => fs
                      end in
            let sizes := _scale_text E fs textsize in
            let axes := seq 0 (size all_labels * 1) in
            let axis_map := make_axis_map all_labels axes in
            if size all_labels =? 0 then
              (h1, t1 ++ [Plt_subplots (size all_labels) 1 fs],
               inl (ValueError "Number of rows must be a positive integer, not 0"))
            else
            match render_all E cols axis_map bw sizes.1.1 sizes.1.2 sizes.2 alpha
                             point_estimate hpd_markers outline shade to_plot h1 with
            | (h2, t2, inl e) =>
                (h2, t1 ++ Plt_subplots (size all_labels) 1 fs :: t2, inl e)
            | (h2, t2, inr _) =>
                match when (1 <? n_data)
                           (add_legend axes labels cols sizes.1.1 sizes.2) h2 with
                | (h3, t3, inl e) =>
                    (h3, t1 ++ Plt_subplots (size all_labels) 1 fs :: t2 ++ t3, inl e)
                | (h3, t3, inr _) =>
                    (h3,
                     t1 ++ Plt_subplots (size all_labels) 1 fs :: t2 ++ t3 ++ [Fig_tight_layout],
                     inr axes)
                end
            end
        end
    end.
Proof.
  unfold plot_datasets. cbv zeta.
  destruct (resolve_data_labels data_labels (length datasets)) as [e|labels]; [done|].
  unfold mbind at 1, M_bind at 1. unfold lift at 1.
  unfold mbind at 1, M_bind at 1.
  destruct (comprehension _ datasets h) as [[h1 t1] [e|to_plot]]; [done|].
  destruct (_scale_text E _ textsize) as [[ts lw] ms]. simpl.
  unfold mbind at 1, M_bind at 1. unfold plt_subplots at 1.
  unfold mbind at 1, M_bind at 1. unfold emit at 1.
  destruct (size (collect_labels E to_plot) =? 0); [done|].
  simpl.
  unfold mbind at 1, M_bind at 1.
  destruct (render_all _ _ _ _ _ _ _ _ _ _ _ _ _ _) as [[h2 t2] [e|[]]]; [done|].
  unfold mbind at 1, M_bind at 1.
  destruct (when _ _ h2) as [[h3 t3] [e|[]]].
  - done.
  - reflexivity.
Qed.

(** A call that has a variable to draw has a panel. *)
Lemma size_collect_labels_pos (to_plot : list (list plotter)) :
  instance_labels E to_plot ≠ [] ↔ 0 < size (collect_labels E to_plot).
Proof.
  rewrite size_collect_labels.
  destruct (instance_labels E to_plot) as [|label ls] eqn:Hls.
  - split; [done | simpl; lia].
  - split; [|done]. intros _.
    assert (label ∈ remove_dups (label :: ls)) as Hin
      by (apply elem_of_remove_dups, list_elem_of_here).
    destruct (remove_dups (label :: ls)); [by apply elem_of_nil in Hin | simpl; lia].
Qed.

End Unfolding.

Section Panels_and_legend.

Variable E : Collaborators.

Lemma add_legend_steps (c : bool) axes labels colors textsize markersize :
  steps (fun e => creates_figure e = false ∧ panel_title e = None)
        (when c (add_legend axes labels colors textsize markersize)).
Proof. unfold add_legend. steps_tac. Qed.

Lemma prepare_datasets_length data skip_first h h1 t1 datasets :
  prepare_datasets data skip_first h = (h1, t1, inr datasets) ->
  length datasets = length (objs_of data).
Proof.
  unfold prepare_datasets, burn_in. intros Hrun.
  apply bind_run in Hrun as [(e & _ & [=]) | (h2 & t2 & ds & t3 & Hconv & Hburn & ->)].
  apply comprehension_length in Hburn. rewrite Hburn.
  destruct data as [obj|objs]; simpl in *.
  - apply bind_run in Hconv as [(e & _ & [=]) | (h3 & t4 & d & t5 & _ & Hret & ->)].
    by injection Hret as <- <- <-.
  - by apply comprehension_length in Hconv.
Qed.

Lemma resolve_data_labels_length data_labels n_data labels :
  resolve_data_labels data_labels n_data = inr labels ->
  1 < n_data -> length labels = n_data.
Proof.
  unfold resolve_data_labels. destruct data_labels as [l|].
  - destruct (Nat.eqb_spec (length l) n_data); simpl; [|done]. by intros [= <-].
  - intros Hl Hn. destruct (Nat.ltb_spec 1 n_data); [|lia].
    injection Hl as <-. by rewrite length_map, length_seq.
Qed.

Lemma var_iter_all_run var_names datasets h h1 t1 to_plot :
  comprehension (var_iter_list E var_names) datasets h = (h1, t1, inr to_plot) ->
  Forall2 (fun l plotters => ∃ d, h1 !! l = Some (XrDataset d) ∧
                                   xarray_var_iter E d var_names = inr plotters)
          datasets to_plot.
Proof.
  intros Hrun.
  apply (comprehension_Forall2 (var_iter_list E var_names) (fun _ _ => True)
           (fun h l plotters => ∃ d, h !! l = Some (XrDataset d) ∧
                                      xarray_var_iter E d var_names = inr plotters))
    in Hrun as [_ ?]; [done|done|..].
  - intros h2 h3 l plotters Hp (d & Hd & Hiter). exists d.
    split; [by eapply prefix_lookup_Some | done].
  - intros l h2 h3 t plotters _ Hl.
    apply var_iter_list_run in Hl as (-> & d & Hd & Hiter).
    split; [done|]. by exists d.
  - by apply Forall_true.
Qed.

(** C5: a call that ends well has made one panel per distinct display
    label, whatever the number of datasets that hold the label: every
    variable instance is drawn on the one panel of its label; with more
    than one dataset the first panel gets one legend entry per dataset,
    and the legend. *)
Theorem one_panel_per_label
    data data_labels var_names alpha point_estimate colors outline hpd_markers shade bw
    figsize textsize skip_first h h' t axes :
  densityplot E data data_labels var_names alpha point_estimate colors outline hpd_markers
              shade bw figsize textsize skip_first h = (h', t, inr axes) ->
  ∃ datasets to_plot labels,
    result_of (prepare_datasets data skip_first h) = inr datasets ∧
    length datasets = length (objs_of data) ∧
    Forall2 (fun l plotters => ∃ d, h' !! l = Some (XrDataset d) ∧
                                     xarray_var_iter E d var_names = inr plotters)
            datasets to_plot ∧
    resolve_data_labels data_labels (length datasets) = inr labels ∧
    length axes = length (remove_dups (instance_labels E to_plot)) ∧
    (∃ fs, filter (fun e => creates_figure e = true) t = [Plt_subplots (length axes) 1 fs]) ∧
    (∀ label, label ∈ instance_labels E to_plot ->
       ∃ ax, ax ∈ axes ∧ Ax_set_title ax label ∈ t) ∧
    (∀ ax ax' label, Ax_set_title ax label ∈ t -> Ax_set_title ax' label ∈ t -> ax = ax') ∧
    (1 < length datasets ->
       legend_entries t
       = zip_with (fun label color => (0, label, color)) labels
                  (resolve_colors colors (length datasets)) ∧
       length (legend_entries t) = length datasets ∧
       ∃ fontsize, Ax_legend 0 fontsize ∈ t).
Proof.
  unfold densityplot. intros Hrun.
  apply bind_run in Hrun as [(e & _ & [=]) | (h1 & t1 & datasets & t2 & Hprep & Hrun & ->)].
  apply bind_run in Hrun as [(e & _ & [=]) | (h1' & t0 & [] & t3 & Hcheck & Hplot & ->)].
  apply check_point_estimate_run in Hcheck as (-> & -> & _).
  rewrite plot_datasets_unfold in Hplot. cbv zeta in Hplot.
  destruct (resolve_data_labels data_labels (length datasets)) as [e|labels] eqn:Hlabels;
    [done|].
  destruct (comprehension _ datasets h1) as [[h2 t4] [e|to_plot]] eqn:Hiter; [done|].
  set (all_labels := collect_labels E to_plot) in *.
  set (fs := match figsize with Some fs => fs | None => _ end) in *.
  set (sizes := _scale_text E fs textsize) in *.
  set (cols := resolve_colors colors (length datasets)) in *.
  set (axis_map := make_axis_map all_labels (seq 0 (size all_labels * 1))) in *.
  destruct (size all_labels =? 0); [done|].
  destruct (render_all _ _ _ _ _ _ _ _ _ _ _ _ _ _) as [[h3 t5] [e|[]]] eqn:Hrender; [done|].
  destruct (when _ _ h3) as [[h4 t6] [e|[]]] eqn:Hlegend; [done|].
  injection Hplot as <- <- <-.
  (* what each part of the trace holds *)
  pose proof (prepare_datasets_steps _ _ _ _ _ _ Hprep) as [_ Ht1].
  pose proof (steps_comprehension _ _ datasets (var_iter_list_steps E var_names)
                _ _ _ _ Hiter) as [_ Ht4].
  pose proof (render_all_draws E _ _ _ _ _ _ _ _ _ _ _ _ _ _ _ _ Hrender) as [Hp3 Ht5].
  pose proof (add_legend_steps _ _ _ _ _ _ _ _ _ _ Hlegend) as [Hp4 Ht6].
  assert (∀ ax label,
            Ax_set_title ax label
              ∈ t1 ++ [] ++ t4 ++ Plt_subplots (size all_labels) 1 fs :: t5 ++ t6
                  ++ [Fig_tight_layout] ->
            Ax_set_title ax label ∈ t5 ∧ axis_map !! label = Some ax) as Htitles.
  { intros ax label Hin.
    rewrite Forall_forall in Ht1, Ht4, Ht5, Ht6.
    rewrite !elem_of_app, elem_of_cons, !elem_of_app in Hin.
    destruct Hin as [Hin | [Hin | [Hin | [Hin | [Hin | [Hin | Hin]]]]]].
    - by apply Ht1 in Hin.
    - by apply elem_of_nil in Hin.
    - by apply Ht4 in Hin.
    - done.
    - split; [done|]. by destruct (Ht5 _ Hin) as (_ & _ & ?).
    - by destruct (Ht6 _ Hin) as (_ & ?).
    - by apply list_elem_of_singleton in Hin. }
  exists datasets, to_plot, labels.
  split; [by rewrite Hprep|].
  split; [by eapply prepare_datasets_length|].
  split.
  { eapply Forall2_impl; [by eapply var_iter_all_run|].
    intros l plotters (d & Hd & Hit). exists d. split; [|done].
    eapply prefix_lookup_Some; [exact Hd|]. by etrans. }
  split; [done|].
  split; [by rewrite length_seq, Nat.mul_1_r, <- size_collect_labels|].
  split.
  { exists fs. rewrite length_seq, Nat.mul_1_r.
    rewrite !filter_app, filter_cons, !filter_app. simpl.
    rewrite (filter_creates_figure_nil t1), (filter_creates_figure_nil t4),
      (filter_creates_figure_nil t5), (filter_creates_figure_nil t6); [done|..].
    - eapply Forall_impl; [exact Ht6|]. by intros e' [? _].
    - eapply Forall_impl; [exact Ht5|]. by intros e' [? _].
    - eapply Forall_impl; [exact Ht4|]. by intros e' (? & _)%is_plotting_draws_nothing.
    - eapply Forall_impl; [exact Ht1|]. by intros e' (? & _)%is_plotting_draws_nothing. }
  split.
  { intros label (p & -> & Hp)%list_elem_of_fmap_1.
    apply elem_of_concat in Hp as (plotters & Hp & Hpl).
    apply list_elem_of_lookup in Hpl as [m_idx Hpl].
    apply elem_of_enumerate in Hpl.
    unfold render_all in Hrender.
    destruct (for_each_ok _ _ _ _ _ Hrender _ Hpl) as (ha & hb & ta & Hds & Hsub).
    simpl in Hds. unfold render_dataset in Hds.
    destruct (for_each_ok _ _ _ _ _ Hds _ Hp) as (hc & hd & tb & Hvar & Hsub').
    destruct p as [[var_name sel] values]. simpl in *.
    apply lift_bind_run in Hvar as [(e & _ & _ & _ & [=]) | (color & _ & Hvar)].
    apply lift_bind_run in Hvar as [(e & _ & _ & _ & [=]) | (ax & Hax & Hvar)].
    apply d_helper_title in Hvar.
    exists ax. split.
    - unfold dict_getitem in Hax.
      destruct (axis_map !! make_label E var_name sel) as [ax'|] eqn:Hlookup; [|done].
      injection Hax as ->. by eapply axis_map_range.
    - apply Hsub', Hsub in Hvar. elem_of_tac. }
  split.
  { intros ax ax' label [_ Hax]%Htitles [_ Hax']%Htitles. congruence. }
  intros Hn. destruct (Nat.ltb_spec 1 (length datasets)) as [_|?]; [|lia].
  simpl in Hlegend.
  destruct (size all_labels * 1) as [|n] eqn:Hsize.
  { simpl in Hlegend. unfold add_legend, array_first in Hlegend. simpl in Hlegend.
    by apply lift_bind_run in Hlegend as [(e & _ & _ & _ & [=]) | (b & [=] & _)]. }
  rewrite (add_legend_run _ _ _ _ _ 0) in Hlegend by done.
  destruct (bool_decide (length labels ≤ length cols)) eqn:Hle; [|done].
  apply bool_decide_eq_true in Hle.
  injection Hlegend as <- <-.
  assert (length labels = length datasets) as Hlen
    by by eapply resolve_data_labels_length.
  assert (legend_entries (t1 ++ [] ++ t4 ++ Plt_subplots (size all_labels) 1 fs :: t5
            ++ (zip_with (fun label color => Ax_plot_legend_entry 0 label color sizes.2)
                         labels cols ++ [Ax_legend 0 sizes.1.1]) ++ [Fig_tight_layout])
          = zip_with (fun label color => (0, label, color)) labels cols) as Hentries.
  { rewrite !legend_entries_app, legend_entries_cons_None by done.
    rewrite !legend_entries_app, legend_entries_zip_with.
    rewrite (legend_entries_nil t1), (legend_entries_nil t4), (legend_entries_nil t5).
    - simpl. by rewrite !app_nil_r.
    - eapply Forall_impl; [exact Ht5|]. by intros e' (_ & ? & _).
    - eapply Forall_impl; [exact Ht4|]. by intros e' (_ & ? & _)%is_plotting_draws_nothing.
    - eapply Forall_impl; [exact Ht1|]. by intros e' (_ & ? & _)%is_plotting_draws_nothing. }
  split; [done|]. split.
  - rewrite Hentries, length_zip_with. lia.
  - exists sizes.1.1. elem_of_tac.
Qed.

End Panels_and_legend.

(** * The colours of the datasets (lines 83-86, 102-111) *)

Section Colors.

Variable E : Collaborators.

Lemma list_getitem_in_bounds {A} (l : list A) (i : nat) :
  (∃ x, list_getitem l i = inr x) ↔ i < length l.
Proof.
  unfold list_getitem. split.
  - intros [x Hx]. destruct (l !! i) eqn:Hi; [|done]. by eapply lookup_lt_Some.
  - intros [x Hx]%lookup_lt_is_Some_2. exists x. by rewrite Hx.
Qed.

(** A dataset with variables is rendered only if it has a colour. *)
Lemma render_dataset_ok colors axis_map bw textsize linewidth markersize alpha
    point_estimate hpd_markers outline shade m_idx plotters h h' t :
  render_dataset E colors axis_map bw textsize linewidth markersize alpha point_estimate
                 hpd_markers outline shade m_idx plotters h = (h', t, inr tt) ->
  plotters ≠ [] -> m_idx < length colors.
Proof.
  intros Hrun Hne. destruct plotters as [|p plotters]; [done|].
  unfold render_dataset in Hrun.
  destruct (for_each_ok _ _ _ _ _ Hrun p) as (h1 & h2 & tx & Hbody & _);
    [apply list_elem_of_here|].
  destruct p as [[var_name sel] values].
  apply lift_bind_run in Hbody as [(e & _ & _ & _ & [=]) | (color & Hcolor & _)].
  apply list_getitem_in_bounds. by exists color.
Qed.

Lemma render_all_ok colors axis_map bw textsize linewidth markersize alpha
    point_estimate hpd_markers outline shade to_plot h h' t :
  render_all E colors axis_map bw textsize linewidth markersize alpha point_estimate
             hpd_markers outline shade to_plot h = (h', t, inr tt) ->
  ∀ m_idx plotters, to_plot !! m_idx = Some plotters -> plotters ≠ [] ->
    m_idx < length colors.
Proof.
  intros Hrun m_idx plotters Hpl%elem_of_enumerate Hne. unfold render_all in Hrun.
  destruct (for_each_ok _ _ _ _ _ Hrun _ Hpl) as (h1 & h2 & tx & Hbody & _).
  by eapply render_dataset_ok.
Qed.

(** A loop over two lists, one after the other. *)
Lemma for_each_app {A} (l1 l2 : list A) (body : A -> M unit) h :
  for_each (l1 ++ l2) body h
  = match for_each l1 body h with
    | (h1, t1, inl e) => (h1, t1, inl e)
    | (h1, t1, inr _) => let '(h2, t2, r) := for_each l2 body h1 in (h2, t1 ++ t2, r)
    end.
Proof.
  revert h. induction l1 as [|x l1 IH]; intros h; simpl.
  - by destruct (for_each l2 body h) as [[h2 t2] r].
  - unfold mbind, M_bind.
    destruct (body x h) as [[h1 t1] [e|[]]]; [done|].
    rewrite IH.
    destruct (for_each l1 body h1) as [[h2 t2] [e|[]]]; [done|].
    destruct (for_each l2 body h2) as [[h3 t3] r]. by rewrite app_assoc.
Qed.

Lemma enumerate_app_cons {A} (l1 l2 : list A) (x : A) :
  enumerate (l1 ++ x :: l2)
  = enumerate l1 ++ (length l1, x) :: zip (seq (S (length l1)) (length l2)) l2.
Proof.
  unfold enumerate. rewrite length_app. simpl length. rewrite seq_app.
  rewrite (zip_with_app pair) by by rewrite length_seq.
  done.
Qed.

(** The rendering stops at a dataset that has a variable and no colour:
    the datasets before are rendered, then [colors[m_idx]] raises. *)
Lemma render_all_beyond colors axis_map bw textsize linewidth markersize alpha
    point_estimate hpd_markers outline shade to_plot m_idx plotters h :
  to_plot !! m_idx = Some plotters -> plotters ≠ [] -> length colors <= m_idx ->
  render_all E colors axis_map bw textsize linewidth markersize alpha point_estimate
             hpd_markers outline shade to_plot h
  = match render_all E colors axis_map bw textsize linewidth markersize alpha point_estimate
                     hpd_markers outline shade (take m_idx to_plot) h with
    | (h1, t1, inl e) => (h1, t1, inl e)
    | (h1, t1, inr _) => (h1, t1, inl (IndexError "list index out of range"))
    end.
Proof.
  intros Hpl Hne Hle.
  rewrite <- (take_drop_middle to_plot m_idx plotters Hpl) at 1.
  unfold render_all. rewrite enumerate_app_cons, for_each_app.
  rewrite length_take_le by (apply lookup_lt_Some in Hpl; lia).
  destruct (for_each (enumerate (take m_idx to_plot)) _ h) as [[h1 t1] [e|[]]]; [done|].
  destruct plotters as [|[[var_name sel] values] plotters]; [done|].
  simpl. unfold render_dataset. simpl.
  unfold mbind, M_bind, lift, list_getitem.
  rewrite (proj2 (lookup_ge_None colors m_idx)) by lia.
  by rewrite app_nil_r.
Qed.

(** A rendering that raises although every dataset with a variable has a
    colour has raised inside [_d_helper]. *)
Lemma render_all_err colors axis_map bw textsize linewidth markersize alpha
    point_estimate hpd_markers outline shade to_plot h h' t e :
  render_all E colors axis_map bw textsize linewidth markersize alpha point_estimate
             hpd_markers outline shade to_plot h = (h', t, inl e) ->
  (∀ label, label ∈ instance_labels E to_plot -> is_Some (axis_map !! label)) ->
  (∀ m_idx plotters, to_plot !! m_idx = Some plotters -> plotters ≠ [] ->
     m_idx < length colors) ->
  render_raised_in E colors axis_map bw textsize linewidth markersize alpha point_estimate
                   hpd_markers outline shade to_plot e.
Proof.
  intros Hrun Hlabels Hcolors. unfold render_all in Hrun.
  apply for_each_err in Hrun as ([m_idx plotters] & h1 & tx & Hpl & Hbody).
  apply elem_of_enumerate in Hpl. simpl in Hbody. unfold render_dataset in Hbody.
  apply for_each_err in Hbody as (p & h2 & ty & Hp & Hbody).
  assert (is_Some (axis_map !! make_label E p.1.1 p.1.2)) as [ax Hax].
  { apply Hlabels. unfold instance_labels. apply list_elem_of_fmap. exists p.
    split; [done|]. apply elem_of_concat. exists plotters. split; [done|].
    by eapply list_elem_of_lookup_2. }
  assert (is_Some (colors !! m_idx)) as [color Hcolor].
  { apply lookup_lt_is_Some_2. eapply Hcolors; [exact Hpl|].
    intros ->. by apply elem_of_nil in Hp. }
  exists m_idx, plotters, p, color, ax.
  destruct p as [[var_name sel] values]. simpl in *.
  unfold list_getitem, dict_getitem in Hbody. rewrite Hcolor, Hax in Hbody.
  unfold lift, mbind, M_bind in Hbody.
  destruct (_d_helper _ _ _ _ _ _ _ _ _ _ _ _ _ _ _) as [[h3 t3] r3] eqn:Hd.
  simpl in Hbody. injection Hbody as <- <- ->.
  by exists h2, h3, t3.
Qed.

(** C10, as the code has it: a list of colours shorter than the number of
    datasets passes the resolution of the colours as it is; [colors[m_idx]]
    is in bounds exactly for [m_idx] below its length; and a call that
    has passed the validation and has a variable to draw cannot end well.
    It ends after the figure has been made.  When a dataset beyond the
    list has a variable, the call ends in the rendering, at the first
    such dataset: the datasets before it are rendered, each with its own
    colour, and then the lookup of the colour raises [IndexError] before
    anything of that dataset is drawn (unless [_d_helper] has raised for
    a variable of a dataset before).  When no dataset beyond the list has
    a variable, all datasets are rendered, and the call ends in the
    legend loop, with the [IndexError] of the lookup for the first label
    beyond the list. *)
Theorem short_color_list
    data data_labels var_names alpha point_estimate l outline hpd_markers shade bw figsize
    textsize skip_first h h1 t1 datasets labels h2 t2 to_plot :
  prepare_datasets data skip_first h = (h1, t1, inr datasets) ->
  valid_point_estimate point_estimate ->
  resolve_data_labels data_labels (length datasets) = inr labels ->
  comprehension (var_iter_list E var_names) datasets h1 = (h2, t2, inr to_plot) ->
  instance_labels E to_plot ≠ [] ->
  length l < length datasets ->
  let all_labels := collect_labels E to_plot in
  let fs := match figsize with
            | None => (6, inject_Z (Z.of_nat (size all_labels * 2)))%Q
            | Some fs => fs
            end in
  let sizes := _scale_text E fs textsize in
  let axis_map := make_axis_map all_labels (seq 0 (size all_labels * 1)) in
  let render := render_all E l axis_map bw sizes.1.1 sizes.1.2 sizes.2 alpha
                           point_estimate hpd_markers outline shade in
  let raised_in := render_raised_in E l axis_map bw sizes.1.1 sizes.1.2 sizes.2 alpha
                                    point_estimate hpd_markers outline shade in
  let figure := Plt_subplots (length (remove_dups (instance_labels E to_plot))) 1 fs in
  resolve_colors (ColorList l) (length datasets) = l ∧
  (∀ m_idx, (∃ color, list_getitem l m_idx = inr color) ↔ m_idx < length l) ∧
  ∃ h' t e,
    densityplot E data data_labels var_names alpha point_estimate (ColorList l) outline
                hpd_markers shade bw figsize textsize skip_first h = (h', t, inl e) ∧
    (∀ m_idx plotters,
       to_plot !! m_idx = Some plotters -> plotters ≠ [] -> length l <= m_idx ->
       (∀ j pl, j < m_idx -> to_plot !! j = Some pl -> pl ≠ [] -> j < length l) ->
       let before := render (take m_idx to_plot) h2 in
       t = t1 ++ t2 ++ figure :: trace_of before ∧
       ((result_of before = inr tt ∧ e = IndexError "list index out of range") ∨
        (result_of before = inl e ∧ raised_in (take m_idx to_plot) e))) ∧
    ((∀ m_idx plotters,
        to_plot !! m_idx = Some plotters -> length l <= m_idx -> plotters = []) ->
     let rendering := render to_plot h2 in
     (result_of rendering = inl e ∧
      t = t1 ++ t2 ++ figure :: trace_of rendering ∧
      raised_in to_plot e) ∨
     (result_of rendering = inr tt ∧
      e = IndexError "list index out of range" ∧
      1 < length datasets ∧
      t = t1 ++ t2 ++ figure :: trace_of rendering
            ++ zip_with (fun label color => Ax_plot_legend_entry 0 label color sizes.2)
                        labels l)).
Proof.
  intros Hprep Hvalid Hlabels Hiter Hinst Hshort all_labels fs sizes axis_map render
    raised_in figure.
  split; [done|]. split; [apply list_getitem_in_bounds|].
  assert (0 < size all_labels) as Hsize by by apply size_collect_labels_pos.
  assert (∀ label, label ∈ instance_labels E to_plot -> is_Some (axis_map !! label))
    as Htotal.
  { intros label Hl. by apply axis_map_total. }
  assert (length to_plot = length datasets) as Hlen by by eapply comprehension_length.
  unfold densityplot. rewrite (bind_ok _ _ _ _ _ _ Hprep).
  rewrite (bind_ok _ _ _ _ _ _ (check_point_estimate_valid _ h1 Hvalid)).
  rewrite plot_datasets_unfold. cbv zeta. rewrite Hlabels, Hiter.
  fold all_labels. fold fs. fold sizes. fold axis_map.
  simpl resolve_colors. fold render.
  destruct (Nat.eqb_spec (size all_labels) 0) as [?|_]; [lia|].
  assert (Plt_subplots (size all_labels) 1 fs = figure) as ->
    by (unfold figure, all_labels; by rewrite size_collect_labels).
  destruct (render to_plot h2) as [[h3 t3] [e|[]]] eqn:Hrender.
  - (* the rendering raises *)
    eexists _, _, e. split; [reflexivity|]. split.
    + intros m_idx plotters Hpl Hne Hbeyond Hfirst.
      set (before := render (take m_idx to_plot) h2).
      unfold render in Hrender.
      rewrite (render_all_beyond _ _ _ _ _ _ _ _ _ _ _ _ _ _ _ Hpl Hne Hbeyond) in Hrender.
      fold render in Hrender. fold before in Hrender.
      destruct before as [[hb tb] [eb|[]]] eqn:Hbefore; injection Hrender as <- <- <-.
      * split; [done|]. right. split; [done|].
        eapply render_all_err; [exact Hbefore | |].
        -- intros label Hl. apply Htotal. unfold instance_labels in *.
           apply list_elem_of_fmap in Hl as (p & -> & Hp).
           apply list_elem_of_fmap. exists p. split; [done|].
           apply elem_of_concat in Hp as (pl & Hp & Hpl').
           apply elem_of_concat. exists pl. split; [done|].
           eapply subseteq_take, Hpl'.
        -- intros j pl Hj Hpl'.
           apply lookup_take_Some in Hj as [Hj Hlt]. by eapply Hfirst.
      * split; [done|]. left. done.
    + intros Hnone. left. split; [done|]. split; [done|].
      eapply render_all_err; [exact Hrender | exact Htotal |].
      intros j pl Hj Hpl'. destruct (decide (j < length l)) as [?|Hge]; [done|].
      exfalso. apply Hpl'. eapply Hnone; [exact Hj | lia].
  - (* the rendering returns: the legend loop raises *)
    assert (∀ m_idx plotters,
              to_plot !! m_idx = Some plotters -> length l <= m_idx -> plotters = [])
      as Hnone.
    { intros m_idx [|p plotters] Hpl Hle; [done|].
      assert (m_idx < length l)
        by (eapply render_all_ok; [exact Hrender | exact Hpl | done]).
      lia. }
    assert (1 < length datasets) as Hn.
    { destruct (Nat.ltb_spec 1 (length datasets)) as [?|Hn]; [done|]. exfalso.
      destruct to_plot as [|plotters [|? ?]]; simpl in Hlen; [done| |lia].
      assert (plotters = []) as -> by (apply (Hnone 0); [done | lia]).
      by apply Hinst. }
    destruct (Nat.ltb_spec 1 (length datasets)) as [_|?]; [|lia].
    simpl when.
    rewrite (add_legend_run _ _ _ _ _ 0).
    2:{ destruct (size all_labels * 1) eqn:Hs; [lia | done]. }
    rewrite bool_decide_eq_false_2.
    2:{ rewrite (resolve_data_labels_length _ _ _ Hlabels Hn). lia. }
    eexists _, _, _. split; [reflexivity|]. split.
    + intros m_idx plotters Hpl Hne Hbeyond _. exfalso. apply Hne. by eapply Hnone.
    + intros _. right. done.
Qed.

End Colors.

(** * Calls on concrete datasets *)

(** Two datasets with the same variable: one panel, two legend entries. *)
Lemma one_panel_per_label_witness :
  let h := [XrDataset (Demo.dataset1 "mu" [Num 1; Num 2; Num 3]);
            XrDataset (Demo.dataset1 "mu" [Num 2; Num 4; Num 5])] in
  let run := densityplot Demo.env (Sequence [0; 1]) None None (1 # 20)%Q (Some "mean")
               (ColorStr "cycle") true "" 0%Q (9 # 2)%Q None None 0%Z h in
  result_of run = inr [0] ∧
  legend_entries (trace_of run) = [(0, "0", "C0"); (0, "1", "C1")] ∧
  ∃ to_plot,
    length to_plot = 2 ∧
    length (remove_dups (instance_labels Demo.env to_plot)) = 1.
Proof.
  intros h run.
  destruct (one_panel_per_label Demo.env (Sequence [0; 1]) None None (1 # 20)%Q (Some "mean")
              (ColorStr "cycle") true "" 0%Q (9 # 2)%Q None None 0%Z h
              (store_of run) (trace_of run) [0])
    as (datasets & to_plot & labels & Hprep & Hlen & Hiter & Hlabels & Haxes & _ & _ & _
        & Hlegend).
  { vm_compute. reflexivity. }
  injection Hprep as <-. injection Hlabels as <-.
  destruct Hlegend as (Hentries & _ & _); [simpl; lia|].
  split; [reflexivity|]. split; [exact Hentries|].
  exists to_plot. split.
  - apply Forall2_length in Hiter. by rewrite <- Hiter.
  - by rewrite <- Haxes.
Defined.

(** A list of one colour for two datasets with the same variable: the
    first dataset is rendered, the call ends at the second. *)
Lemma short_color_list_witness :
  let h := [XrDataset (Demo.dataset1 "mu" [Num 1; Num 2; Num 3]);
            XrDataset (Demo.dataset1 "mu" [Num 2; Num 4; Num 5])] in
  ∃ h' t e,
    densityplot Demo.env (Sequence [0; 1]) None None (1 # 20)%Q (Some "mean")
                (ColorList ["r"]) true "" 0%Q (9 # 2)%Q None None 0%Z h = (h', t, inl e) ∧
    e = IndexError "list index out of range" ∧
    (∃ fs, Plt_subplots 1 1 fs ∈ t) ∧
    (∃ fs, last t = Some (Ax_tick_params 0 fs)).
Proof.
  intros h.
  edestruct (short_color_list Demo.env (Sequence [0; 1]) None None (1 # 20)%Q (Some "mean")
               ["r"] true "" 0%Q (9 # 2)%Q None None 0%Z h)
    as (_ & _ & h' & t & e & Hrun & Hfirst & _).
  - vm_compute. reflexivity.
  - right. left. reflexivity.
  - reflexivity.
  - vm_compute. reflexivity.
  - discriminate.
  - simpl. lia.
  - exists h', t, e. split; [exact Hrun|].
    destruct (Hfirst 1 _ eq_refl) as [Ht [[_ He] | [Hr _]]].
    + discriminate.
    + simpl. lia.
    + intros j pl Hj _ _. simpl. lia.
    + split; [exact He|]. rewrite Ht. split.
      * eexists. vm_compute. elem_of_tac.
      * eexists. vm_compute. reflexivity.
    + vm_compute in Hr. discriminate Hr.
Defined.

(** C10 as the documentation states it does not hold: when the datasets
    beyond the list of colours have no variable to draw (here the second
    dataset has no variable [mu]), all datasets are rendered, and the call
    ends in the making of the legend. *)
Lemma legend_loop_raises_for_short_colors :
  let h := [XrDataset (Demo.dataset1 "mu" [Num 1; Num 2; Num 3]);
            XrDataset (Demo.dataset1 "tau" [Num 2; Num 4; Num 5])] in
  let run := densityplot Demo.env (Sequence [0; 1]) None (Some ["mu"]) (1 # 20)%Q
               (Some "mean") (ColorList ["r"]) true "" 0%Q (9 # 2)%Q None None 0%Z h in
  result_of run = inl (IndexError "list index out of range") ∧
  Ax_tick_params 0 12%Q ∈ trace_of run ∧
  last (trace_of run) = Some (Ax_plot_legend_entry 0 "0" "r" 6%Q).
Proof.
  split_and!.
  - reflexivity.
  - vm_compute. elem_of_tac.
  - reflexivity.
Qed.

(** * Further properties of the renderer of one variable *)

Section Renderer_runs.

Variable E : Collaborators.

Lemma hist_branch_ok vec color alpha outline shade ax h h' t xmin xmax :
  hist_branch E vec color alpha outline shade ax h = (h', t, inr (xmin, xmax)) ->
  ∃ lo hi, hpd E vec alpha = inr (PyInt lo, PyInt hi).
Proof.
  unfold hist_branch, call_hpd. rewrite bind_assoc_run.
  intros (t1 & -> & Hrun)%emit_bind_run.
  apply lift_bind_run in Hrun as [(e & _ & _ & _ & [=]) | ([a b] & Hhpd & Hrun)].
  apply lift_bind_run in Hrun as [(e & _ & _ & _ & [=]) | (bins & Hbins & _)].
  destruct a as [lo|?], b as [hi|?]; try done. by exists lo, hi.
Qed.

(** The run of the histogram branch on a bound that is a float:
    [range] raises, nothing has been drawn. *)
Lemma hist_branch_float vec color alpha outline shade ax h a b :
  hpd E vec alpha = inr (a, b) ->
  (∃ q, a = PyFloat q) ∨ (∃ q, b = PyFloat q) ->
  hist_branch E vec color alpha outline shade ax h
  = (h, [Call_hpd vec alpha],
     inl (TypeError "'numpy.float64' object cannot be interpreted as an integer")).
Proof.
  intros Hhpd Hfloat.
  unfold hist_branch, call_hpd. rewrite bind_assoc_run.
  unfold mbind at 1, M_bind at 1, emit at 1.
  unfold mbind at 1, M_bind at 1, lift at 1. rewrite Hhpd.
  unfold mbind at 1, M_bind at 1, lift at 1.
  destruct Hfloat as [[q ->] | [q ->]]; [done | by destruct a].
Qed.

(** The run of the common part for a valid [point_estimate]. *)
Lemma finish_panel_run vec vname color textsize markersize point_estimate hpd_markers
    xmin xmax ax h :
  valid_point_estimate point_estimate ->
  finish_panel E vec vname color textsize markersize point_estimate hpd_markers xmin xmax ax h
  = (h,
     (if str_truthy hpd_markers
      then [Ax_plot_marker ax xmin (PyInt 0) hpd_markers color "k" markersize;
            Ax_plot_marker ax xmax (PyInt 0) hpd_markers color "k" markersize]
      else [])
     ++ match point_estimate with
        | None => []
        | Some kind =>
            [Ax_plot_marker ax (if String.eqb kind "mean" then np_mean E vec
                                else np_median E vec)
                            (PyFloat (- (1 # 1000))%Q) "o" color "k" markersize]
        end
     ++ [Ax_set_yticks ax; Ax_set_title ax vname;
         Ax_spine_set_visible ax "left" false; Ax_spine_set_visible ax "right" false;
         Ax_spine_set_visible ax "top" false; Ax_tick_params ax textsize],
     inr tt).
Proof.
  intros [-> | [-> | ->]]; unfold finish_panel; by destruct (str_truthy hpd_markers).
Qed.

(** The run of the common part for any other [point_estimate]: [est] has no
    value when it is plotted. *)
Lemma finish_panel_unbound vec vname color textsize markersize kind hpd_markers
    xmin xmax ax h :
  kind ≠ "mean" -> kind ≠ "median" ->
  finish_panel E vec vname color textsize markersize (Some kind) hpd_markers xmin xmax ax h
  = (h,
     (if str_truthy hpd_markers
      then [Ax_plot_marker ax xmin (PyInt 0) hpd_markers color "k" markersize;
            Ax_plot_marker ax xmax (PyInt 0) hpd_markers color "k" markersize]
      else []),
     inl (UnboundLocalError "est")).
Proof.
  intros Hmean Hmedian. unfold finish_panel.
  destruct (String.eqb_spec kind "mean") as [?|_]; [done|].
  destruct (String.eqb_spec kind "median") as [?|_]; [done|].
  by destruct (str_truthy hpd_markers).
Qed.

End Renderer_runs.

Section Renderer_properties.

Variable E : Collaborators.

Lemma branch_not_finish vec color bw linewidth alpha outline shade ax :
  steps (fun e => is_panel_finish e = false)
        (if String.eqb (dtype_kind vec) "f"
         then kde_branch E vec color bw linewidth alpha outline shade ax
         else hist_branch E vec color alpha outline shade ax).
Proof. unfold kde_branch, hist_branch, call_fast_kde, call_hpd. steps_tac. Qed.

(** A run of [_d_helper] that returns has got from the collaborators what
    the branch of the vector needs, and a [point_estimate] that it knows. *)
Lemma d_helper_ok_inv vec vname color bw textsize linewidth markersize alpha
    point_estimate hpd_markers outline shade ax h h' t :
  _d_helper E vec vname color bw textsize linewidth markersize alpha point_estimate
            hpd_markers outline shade ax h = (h', t, inr tt) ->
  valid_point_estimate point_estimate ∧ can_render E bw alpha vec.
Proof.
  intros Hrun.
  apply d_helper_run in Hrun as (hb & tb & rb & Hb & Hrest).
  destruct Hrest as [(e & _ & [=] & _) | (xmin & xmax & tf & -> & Hf & ->)].
  split.
  - unfold valid_point_estimate. destruct point_estimate as [kind|]; [|by left].
    destruct (String.eqb_spec kind "mean") as [->|Hmean]; [right; by left|].
    destruct (String.eqb_spec kind "median") as [->|Hmedian]; [right; by right|].
    by rewrite finish_panel_unbound in Hf.
  - unfold can_render. destruct (String.eqb (dtype_kind vec) "f").
    + apply kde_branch_ok in Hb
        as (density & lower & upper & hpd_ & x0 & x1 & y0 & y1 & Hkde & Hhpd & Hb).
      simpl in Hb. destruct Hb as (Hx0 & _).
      exists density, lower, upper, hpd_. split; [done|]. split; [done|].
      unfold restricted_domain. cbv zeta. intros Hnil. by rewrite Hnil in Hx0.
    + by eapply hist_branch_ok.
Qed.

(** X1: [_d_helper] returns only if [point_estimate] is 'mean', 'median'
    or None and the collaborators have returned what the branch of the
    vector needs: for a vector of floats a density and an interval that
    holds a point of the grid, for any other vector an interval with
    integer bounds.  When it returns, the six calls that finish the panel
    are its last calls, made once. *)
Theorem d_helper_returns_only_if
    vec vname color bw textsize linewidth markersize alpha point_estimate hpd_markers
    outline shade ax h h' t :
  _d_helper E vec vname color bw textsize linewidth markersize alpha point_estimate
            hpd_markers outline shade ax h = (h', t, inr tt) ->
  valid_point_estimate point_estimate ∧
  can_render E bw alpha vec ∧
  ∃ t', t = t' ++ [Ax_set_yticks ax; Ax_set_title ax vname;
                   Ax_spine_set_visible ax "left" false;
                   Ax_spine_set_visible ax "right" false;
                   Ax_spine_set_visible ax "top" false; Ax_tick_params ax textsize] ∧
        Forall (fun e => is_panel_finish e = false) t'.
Proof.
  intros Hrun.
  destruct (d_helper_ok_inv _ _ _ _ _ _ _ _ _ _ _ _ _ _ _ _ Hrun) as [Hvalid Hcan].
  split; [done|]. split; [done|].
  apply d_helper_run in Hrun as (hb & tb & rb & Hb & Hrest).
  destruct Hrest as [(e & _ & [=] & _) | (xmin & xmax & tf & -> & Hf & ->)].
  apply branch_not_finish in Hb as [_ Htb].
  rewrite finish_panel_run in Hf by done. injection Hf as _ <-.
  eexists. split.
  - rewrite !app_assoc. reflexivity.
  - apply Forall_app. split; [apply Forall_app; split; [done|]|].
    + destruct (str_truthy hpd_markers); by repeat constructor.
    + destruct point_estimate; by repeat constructor.
Qed.

(** X2: When no point of the grid of the density lies inside the interval,
    [_d_helper] ends with the [IndexError] of [x[cut][0]]: the two
    estimators have been called, nothing has been drawn. *)
Theorem empty_restricted_domain_raises
    vec vname color bw textsize linewidth markersize alpha point_estimate hpd_markers
    outline shade ax h density lower upper hpd_ :
  dtype_kind vec = "f" ->
  fast_kde E vec bw = inr (density, lower, upper) ->
  hpd E vec alpha = inr hpd_ ->
  restricted_domain lower upper (length density) hpd_ = [] ->
  _d_helper E vec vname color bw textsize linewidth markersize alpha point_estimate
            hpd_markers outline shade ax h
  = (h, [Call_fast_kde vec bw; Call_hpd vec alpha],
     inl (IndexError "index 0 is out of bounds for axis 0 with size 0")).
Proof.
  intros Hkind Hkde Hhpd Hempty. unfold _d_helper. rewrite Hkind. simpl.
  by rewrite (bind_err _ _ _ _ _ _
                (kde_branch_empty E vec color bw linewidth alpha outline shade ax h
                   density lower upper hpd_ Hkde Hhpd Hempty)).
Qed.

(** X3: For a vector that is not of floats, a bound of the interval that is a
    float ends [_d_helper] with the [TypeError] of [range]: nothing has
    been drawn. *)
Theorem float_bounds_raise_in_histogram_branch
    vec vname color bw textsize linewidth markersize alpha point_estimate hpd_markers
    outline shade ax h a b :
  dtype_kind vec ≠ "f" ->
  hpd E vec alpha = inr (a, b) ->
  (∃ q, a = PyFloat q) ∨ (∃ q, b = PyFloat q) ->
  _d_helper E vec vname color bw textsize linewidth markersize alpha point_estimate
            hpd_markers outline shade ax h
  = (h, [Call_hpd vec alpha],
     inl (TypeError "'numpy.float64' object cannot be interpreted as an integer")).
Proof.
  intros Hkind Hhpd Hfloat. unfold _d_helper.
  destruct (String.eqb_spec (dtype_kind vec) "f") as [?|_]; [done|].
  by rewrite (bind_err _ _ _ _ _ _
                (hist_branch_float E vec color alpha outline shade ax h a b Hhpd Hfloat)).
Qed.


(** X5: With [outline=False] and [shade=0] no curve, no filled area and no
    histogram is drawn, for any vector and whatever the collaborators
    return. *)
Theorem nothing_drawn_without_outline_and_shade
    vec vname color bw textsize linewidth markersize alpha point_estimate hpd_markers
    shade ax h :
  Q_truthy shade = false ->
  Forall (fun e => is_curve e = false ∧ is_hist e = false)
         (trace_of (_d_helper E vec vname color bw textsize linewidth markersize alpha
                              point_estimate hpd_markers false shade ax h)).
Proof.
  intros Hshade.
  destruct (_d_helper _ _ _ _ _ _ _ _ _ _ _ _ _ _ _) as [[h' t] r] eqn:Hrun.
  unfold trace_of. simpl. revert Hrun.
  assert (steps (fun e => is_curve e = false ∧ is_hist e = false)
                (_d_helper E vec vname color bw textsize linewidth markersize alpha
                           point_estimate hpd_markers false shade ax)) as Hsteps.
  { unfold _d_helper, kde_branch, hist_branch, finish_panel, call_fast_kde, call_hpd, when.
    rewrite Hshade. steps_tac. }
  intros Hrun. by apply Hsteps in Hrun as [_ ?].
Qed.

(** X6: With [outline], the first three calls to matplotlib draw the curve
    over the restricted grid and the two vertical ticks, and no other line
    is drawn.  The ticks stand at the two ends of this curve: [xmin] and
    [ymin] are its first point, [xmax] and [ymax] its last; they are the
    point and the density at one place of the grid, at places [i <= j];
    and the curve has as many abscissas as ordinates. *)
Theorem outline_ticks_on_curve
    vec vname color bw textsize linewidth markersize alpha point_estimate hpd_markers
    shade ax h h' t density lower upper hpd_ :
  dtype_kind vec = "f" ->
  fast_kde E vec bw = inr (density, lower, upper) ->
  hpd E vec alpha = inr hpd_ ->
  _d_helper E vec vname color bw textsize linewidth markersize alpha point_estimate
            hpd_markers true shade ax h = (h', t, inr tt) ->
  let x := np_linspace lower upper (length density) in
  let cut := np_and (np_ge x (num_to_Q hpd_.1)) (np_le x (num_to_Q hpd_.2)) in
  let xs := array_mask x cut in
  let ys := array_mask density cut in
  ∃ i j xmin xmax ymin ymax t',
    i <= j ∧
    x !! i = Some xmin ∧ density !! i = Some ymin ∧
    x !! j = Some xmax ∧ density !! j = Some ymax ∧
    head xs = Some xmin ∧ head ys = Some ymin ∧
    last xs = Some xmax ∧ last ys = Some ymax ∧
    length xs = length ys ∧
    t = [Call_fast_kde vec bw; Call_hpd vec alpha;
         Ax_plot ax xs ys color linewidth;
         Ax_plot ax [xmin; xmin] [(- ymin / 100)%Q; ymin] color linewidth;
         Ax_plot ax [xmax; xmax] [(- ymax / 100)%Q; ymax] color linewidth] ++ t' ∧
    Forall (fun e => is_line e = false) t'.
Proof.
  intros Hkind Hkde Hhpd Hrun x cut xs ys.
  apply d_helper_run in Hrun as (hb & tb & rb & Hb & Hrest).
  destruct (String.eqb_spec (dtype_kind vec) "f") as [_|?]; [|done].
  destruct Hrest as [(e & _ & [=] & _) | (xmin & xmax & tf & -> & Hf & ->)].
  apply kde_branch_ok in Hb
    as (density' & lower' & upper' & hpd_' & x0 & x1 & y0 & y1 & Hkde' & Hhpd' & Hb).
  rewrite Hkde in Hkde'. injection Hkde' as <- <- <-.
  rewrite Hhpd in Hhpd'. injection Hhpd' as <-.
  simpl in Hb. destruct Hb as (Hx0 & Hx1 & Hy0 & Hy1 & -> & -> & ->).
  fold x in Hx0, Hx1, Hy0, Hy1 |- *. fold cut in Hx0, Hx1, Hy0, Hy1 |- *.
  fold xs in Hx0, Hx1 |- *. fold ys in Hy0, Hy1 |- *.
  assert (length x = length density) as Hlen by apply length_np_linspace.
  assert (length xs = length ys) as Hlen' by by apply array_mask_length.
  destruct (array_mask_head_last (zip x density) cut (x0, y0) (x1, y1))
    as (i & j & Hij & Hi & Hj).
  { rewrite array_mask_zip by done. by apply head_zip. }
  { rewrite array_mask_zip by done. by apply last_zip. }
  apply lookup_zip_Some in Hi as [Hix Hiy]. apply lookup_zip_Some in Hj as [Hjx Hjy].
  apply finish_panel_steps in Hf as [_ Htf].
  exists i, j, x0, x1, y0, y1,
    ((if Q_truthy shade then [Ax_fill_between ax x density cut color shade] else []) ++ tf).
  split_and!; try done.
  apply Forall_app. split.
  - destruct (Q_truthy shade); by repeat constructor.
  - eapply Forall_impl; [exact Htf|]. intros e (_ & He & _). by destruct e.
Qed.

(** X7: The interval that is drawn is well formed: [xmin <= xmax]. *)
Theorem rendered_interval_ordered
    vec vname color bw textsize linewidth markersize alpha point_estimate hpd_markers
    outline shade ax h h' t density lower upper :
  dtype_kind vec = "f" ->
  fast_kde E vec bw = inr (density, lower, upper) ->
  (lower <= upper)%Q ->
  _d_helper E vec vname color bw textsize linewidth markersize alpha point_estimate
            hpd_markers outline shade ax h = (h', t, inr tt) ->
  ∃ hpd_ xmin xmax,
    hpd E vec alpha = inr hpd_ ∧
    head (restricted_domain lower upper (length density) hpd_) = Some xmin ∧
    last (restricted_domain lower upper (length density) hpd_) = Some xmax ∧
    (xmin <= xmax)%Q ∧
    (str_truthy hpd_markers = true ->
       Ax_plot_marker ax (PyFloat xmin) (PyInt 0) hpd_markers color "k" markersize ∈ t ∧
       Ax_plot_marker ax (PyFloat xmax) (PyInt 0) hpd_markers color "k" markersize ∈ t).
Proof.
  intros Hkind Hkde Hle Hrun.
  apply d_helper_run in Hrun as (hb & tb & rb & Hb & Hrest).
  destruct (String.eqb_spec (dtype_kind vec) "f") as [_|?]; [|done].
  destruct Hrest as [(e & _ & [=] & _) | (xmin & xmax & tf & -> & Hf & ->)].
  apply kde_branch_ok in Hb
    as (density' & lower' & upper' & hpd_ & x0 & x1 & y0 & y1 & Hkde' & Hhpd & Hb).
  rewrite Hkde in Hkde'. injection Hkde' as <- <- <-.
  simpl in Hb. destruct Hb as (Hx0 & Hx1 & _ & _ & -> & -> & ->).
  exists hpd_, x0, x1. unfold restricted_domain. cbv zeta.
  split; [done|]. split; [done|]. split; [done|]. split.
  - destruct (array_mask_head_last _ _ _ _ Hx0 Hx1) as (i & j & Hij & Hi & Hj).
    by eapply np_linspace_mono.
  - intros Hmark. unfold finish_panel in Hf. rewrite Hmark in Hf. simpl in Hf.
    rewrite bind_assoc_run in Hf.
    apply emit_bind_run in Hf as (t1 & -> & Hf).
    apply emit_bind_run in Hf as (t2 & -> & Hf).
    split; elem_of_tac.
Qed.

End Renderer_properties.

(** The further properties of the renderer on concrete vectors. *)

Lemma d_helper_returns_only_if_witness :
  let vec := Demo.floats [1; 2; 7 # 2]%Q in
  let run := _d_helper Demo.env vec "mu" "C0" (9 # 2)%Q 12%Q 1%Q 4%Q (1 # 20)%Q
                       (Some "mean") "v" true 0%Q 0 [] in
  result_of run = inr tt ∧
  valid_point_estimate (Some "mean") ∧
  can_render Demo.env (9 # 2)%Q (1 # 20)%Q vec ∧
  ∃ t', trace_of run
        = t' ++ [Ax_set_yticks 0; Ax_set_title 0 "mu";
                 Ax_spine_set_visible 0 "left" false;
                 Ax_spine_set_visible 0 "right" false;
                 Ax_spine_set_visible 0 "top" false; Ax_tick_params 0 12%Q] ∧
        Forall (fun e => is_panel_finish e = false) t'.
Proof.
  intros vec run. split; [reflexivity|].
  apply (d_helper_returns_only_if Demo.env vec "mu" "C0" (9 # 2)%Q 12%Q 1%Q 4%Q (1 # 20)%Q
           (Some "mean") "v" true 0%Q 0 [] (store_of run) (trace_of run)).
  vm_compute. reflexivity.
Defined.

Lemma empty_restricted_domain_raises_witness :
  let vec := Demo.floats [1; 2; 7 # 2]%Q in
  restricted_domain 1 (7 # 2) 5 (PyFloat 2, PyFloat 2) = [] ∧
  _d_helper Narrow.env vec "mu" "C0" (9 # 2)%Q 12%Q 1%Q 4%Q (1 # 20)%Q (Some "mean")
            "v" true 0%Q 0 []
  = ([], [Call_fast_kde vec (9 # 2)%Q; Call_hpd vec (1 # 20)%Q],
     inl (IndexError "index 0 is out of bounds for axis 0 with size 0")).
Proof.
  intros vec. split; [reflexivity|].
  apply (empty_restricted_domain_raises Narrow.env vec "mu" "C0" (9 # 2)%Q 12%Q 1%Q 4%Q
           (1 # 20)%Q (Some "mean") "v" true 0%Q 0 [] (replicate 5 (1 # 5)%Q) 1%Q (7 # 2)%Q
           (PyFloat 2, PyFloat 2)); reflexivity.
Defined.

Lemma float_bounds_raise_in_histogram_branch_witness :
  let vec := Demo.ints [2; 3; 7; 5]%Z in
  _d_helper Narrow.env vec "k" "C0" (9 # 2)%Q 12%Q 1%Q 4%Q (1 # 20)%Q (Some "mean")
            "v" true 0%Q 0 []
  = ([], [Call_hpd vec (1 # 20)%Q],
     inl (TypeError "'numpy.float64' object cannot be interpreted as an integer")).
Proof.
  intros vec.
  apply (float_bounds_raise_in_histogram_branch Narrow.env vec "k" "C0" (9 # 2)%Q 12%Q 1%Q
           4%Q (1 # 20)%Q (Some "mean") "v" true 0%Q 0 [] (PyFloat 3) (PyFloat 3)).
  - discriminate.
  - reflexivity.
  - left. by exists 3%Q.
Defined.


Lemma nothing_drawn_without_outline_and_shade_witness :
  let vec := Demo.floats [1; 2; 7 # 2]%Q in
  let run := _d_helper Demo.env vec "mu" "C0" (9 # 2)%Q 12%Q 1%Q 4%Q (1 # 20)%Q
                       (Some "mean") "v" false 0%Q 0 [] in
  result_of run = inr tt ∧
  Forall (fun e => is_curve e = false ∧ is_hist e = false) (trace_of run).
Proof.
  intros vec run. split; [reflexivity|].
  apply (nothing_drawn_without_outline_and_shade Demo.env vec "mu" "C0" (9 # 2)%Q 12%Q 1%Q
           4%Q (1 # 20)%Q (Some "mean") "v" 0%Q 0 []).
  reflexivity.
Defined.

Lemma outline_ticks_on_curve_witness :
  let run := _d_helper Narrow.env (Demo.floats [1; 2; 3]%Q) "mu" "C0" (9 # 2)%Q 12%Q
                       1%Q 4%Q (1 # 20)%Q (Some "mean") "v" true 0%Q 0 [] in
  let x := np_linspace 1 3 5 in
  let density := replicate 5 (1 # 5)%Q in
  let cut := np_and (np_ge x 2) (np_le x 2) in
  ∃ i j xmin xmax ymin ymax t',
    i <= j ∧
    x !! i = Some xmin ∧ density !! i = Some ymin ∧
    x !! j = Some xmax ∧ density !! j = Some ymax ∧
    head (array_mask x cut) = Some xmin ∧ head (array_mask density cut) = Some ymin ∧
    last (array_mask x cut) = Some xmax ∧ last (array_mask density cut) = Some ymax ∧
    length (array_mask x cut) = length (array_mask density cut) ∧
    trace_of run
    = [Call_fast_kde (Demo.floats [1; 2; 3]%Q) (9 # 2)%Q;
       Call_hpd (Demo.floats [1; 2; 3]%Q) (1 # 20)%Q;
       Ax_plot 0 (array_mask x cut) (array_mask density cut) "C0" 1%Q;
       Ax_plot 0 [xmin; xmin] [(- ymin / 100)%Q; ymin] "C0" 1%Q;
       Ax_plot 0 [xmax; xmax] [(- ymax / 100)%Q; ymax] "C0" 1%Q] ++ t' ∧
    Forall (fun e => is_line e = false) t'.
Proof.
  intros run.
  apply (outline_ticks_on_curve Narrow.env (Demo.floats [1; 2; 3]%Q) "mu" "C0"
           (9 # 2)%Q 12%Q 1%Q 4%Q (1 # 20)%Q (Some "mean") "v" 0%Q 0 []
           (store_of run) (trace_of run) (replicate 5 (1 # 5)%Q) 1%Q 3%Q
           (PyFloat 2, PyFloat 2)).
  - reflexivity.
  - reflexivity.
  - reflexivity.
  - vm_compute. reflexivity.
Defined.

Lemma rendered_interval_ordered_witness :
  let vec := Demo.floats [1; 2; 7 # 2]%Q in
  let run := _d_helper Demo.env vec "mu" "C0" (9 # 2)%Q 12%Q 1%Q 4%Q (1 # 20)%Q
                       (Some "mean") "v" true 0%Q 0 [] in
  ∃ hpd_ xmin xmax,
    hpd Demo.env vec (1 # 20)%Q = inr hpd_ ∧
    head (restricted_domain 1 (7 # 2) 5 hpd_) = Some xmin ∧
    last (restricted_domain 1 (7 # 2) 5 hpd_) = Some xmax ∧
    (xmin <= xmax)%Q ∧
    (str_truthy "v" = true ->
       Ax_plot_marker 0 (PyFloat xmin) (PyInt 0) "v" "C0" "k" 4%Q ∈ trace_of run ∧
       Ax_plot_marker 0 (PyFloat xmax) (PyInt 0) "v" "C0" "k" 4%Q ∈ trace_of run).
Proof.
  intros vec run.
  apply (rendered_interval_ordered Demo.env vec "mu" "C0" (9 # 2)%Q 12%Q 1%Q 4%Q (1 # 20)%Q
           (Some "mean") "v" true 0%Q 0 [] (store_of run) (trace_of run)
           (replicate 5 (1 # 5)%Q) 1%Q (7 # 2)%Q).
  - reflexivity.
  - reflexivity.
  - discriminate.
  - vm_compute. reflexivity.
Defined.

(** * Further properties of the call *)

Lemma list_getitem_elem_of {A} (l : list A) (i : nat) (x : A) :
  list_getitem l i = inr x -> x ∈ l.
Proof.
  unfold list_getitem. destruct (l !! i) as [y|] eqn:Hi; [|done].
  intros [= <-]. by eapply list_elem_of_lookup_2.
Qed.

Section Call_events.

Variable E : Collaborators.

(** What holds of every call of the rendering of one variable holds of
    every call of the rendering of all datasets. *)
Lemma render_all_steps_gen (P : event -> Prop) colors axis_map bw textsize linewidth
    markersize alpha point_estimate hpd_markers outline shade to_plot :
  (∀ vec vname color ax, color ∈ colors ->
     steps P (_d_helper E vec vname color bw textsize linewidth markersize alpha
                        point_estimate hpd_markers outline shade ax)) ->
  steps P (render_all E colors axis_map bw textsize linewidth markersize alpha
                      point_estimate hpd_markers outline shade to_plot).
Proof.
  intros Hhelper. unfold render_all, render_dataset.
  apply steps_for_each. intros [m_idx plotters].
  apply steps_for_each. intros [[var_name sel] values].
  apply steps_bind_lift. intros color Hcolor%list_getitem_elem_of.
  apply steps_bind_lift. intros ax _. by apply Hhelper.
Qed.

Lemma add_legend_steps_gen (P : event -> Prop) axes labels colors textsize markersize :
  (∀ ax label color, color ∈ colors ->
     P (Ax_plot_legend_entry ax label color markersize)) ->
  (∀ ax, P (Ax_legend ax textsize)) ->
  steps P (add_legend axes labels colors textsize markersize).
Proof.
  intros Hentry Hlegend. unfold add_legend.
  apply steps_bind_lift. intros ax _.
  apply steps_bind.
  - apply steps_for_each. intros [idx label].
    apply steps_bind_lift. intros color Hcolor%list_getitem_elem_of.
    apply steps_emit. by apply Hentry.
  - intros _. apply steps_emit. apply Hlegend.
Qed.

(** What holds of the calls of the stages holds of every call of
    [plot_datasets]. *)
Lemma plot_datasets_steps_gen (P : event -> Prop) datasets data_labels var_names alpha
    point_estimate colors outline hpd_markers shade bw figsize textsize :
  let cols := resolve_colors colors (length datasets) in
  (∀ e, is_plotting e = false -> P e) ->
  (∀ n, P (Plt_subplots n 1 (figsize_of figsize n))) ->
  (∀ vec vname color ts lw ms ax, color ∈ cols ->
     steps P (_d_helper E vec vname color bw ts lw ms alpha point_estimate hpd_markers
                        outline shade ax)) ->
  (1 < length datasets ->
   (∀ ax label color ms, color ∈ cols -> P (Ax_plot_legend_entry ax label color ms)) ∧
   (∀ ax ts, P (Ax_legend ax ts))) ->
  P Fig_tight_layout ->
  steps P (plot_datasets E datasets data_labels var_names alpha point_estimate colors
                         outline hpd_markers shade bw figsize textsize).
Proof.
  intros cols Hquiet Hfig Hhelper Hlegend Hlayout.
  unfold plot_datasets. cbv zeta. fold cols.
  apply steps_bind; [apply steps_lift|]. intros labels.
  apply steps_bind.
  { apply steps_comprehension. intros data.
    eapply steps_mono; [exact Hquiet | apply var_iter_list_steps]. }
  intros to_plot.
  destruct (_scale_text E _ textsize) as [[ts lw] ms].
  apply steps_bind.
  { unfold plt_subplots. apply steps_bind; [|intros _; steps_tac].
    apply steps_emit. apply (Hfig (size (collect_labels E to_plot))). }
  intros axes.
  apply steps_bind.
  { apply render_all_steps_gen. intros vec vname color ax Hcolor. by apply Hhelper. }
  intros _.
  apply steps_bind.
  { destruct (Nat.ltb_spec 1 (length datasets)) as [Hn|_]; [|apply steps_ret].
    destruct (Hlegend Hn) as [Hentry Hleg]. simpl.
    apply add_legend_steps_gen; [|done].
    intros ax label color Hcolor. by apply Hentry. }
  intros _. apply steps_bind; [by apply steps_emit | intros _; apply steps_ret].
Qed.

(** The same for every call of [densityplot], for the number of objects
    the caller passes. *)
Lemma densityplot_events (P : event -> Prop) data data_labels var_names alpha point_estimate
    colors outline hpd_markers shade bw figsize textsize skip_first h h' t r :
  let cols := resolve_colors colors (length (objs_of data)) in
  (∀ e, is_plotting e = false -> P e) ->
  (∀ n, P (Plt_subplots n 1 (figsize_of figsize n))) ->
  (∀ vec vname color ts lw ms ax, color ∈ cols ->
     steps P (_d_helper E vec vname color bw ts lw ms alpha point_estimate hpd_markers
                        outline shade ax)) ->
  (1 < length (objs_of data) ->
   (∀ ax label color ms, color ∈ cols -> P (Ax_plot_legend_entry ax label color ms)) ∧
   (∀ ax ts, P (Ax_legend ax ts))) ->
  P Fig_tight_layout ->
  densityplot E data data_labels var_names alpha point_estimate colors outline hpd_markers
              shade bw figsize textsize skip_first h = (h', t, r) ->
  Forall P t.
Proof.
  intros cols Hquiet Hfig Hhelper Hlegend Hlayout Hrun. unfold densityplot in Hrun.
  apply bind_run in Hrun as [(e & Hprep & _) | (h1 & t1 & datasets & t2 & Hprep & Hrun & ->)].
  { apply prepare_datasets_steps in Hprep as [_ Ht].
    eapply Forall_impl; [exact Ht | exact Hquiet]. }
  pose proof (prepare_datasets_length _ _ _ _ _ _ Hprep) as Hlen.
  apply prepare_datasets_steps in Hprep as [_ Ht1].
  apply Forall_app. split; [eapply Forall_impl; [exact Ht1 | exact Hquiet]|].
  apply bind_run in Hrun as [(e & Hcheck & _) | (h2 & t3 & [] & t4 & Hcheck & Hrun & ->)].
  { apply check_point_estimate_run in Hcheck as (_ & -> & _). constructor. }
  apply check_point_estimate_run in Hcheck as (-> & -> & _). simpl.
  revert Hrun.
  assert (steps P (plot_datasets E datasets data_labels var_names alpha point_estimate colors
                                 outline hpd_markers shade bw figsize textsize)) as Hsteps.
  { apply plot_datasets_steps_gen; rewrite ?Hlen; done. }
  intros Hrun. by apply Hsteps in Hrun as [_ ?].
Qed.

Lemma d_helper_colors vec vname color bw textsize linewidth markersize alpha point_estimate
    hpd_markers outline shade ax :
  steps (fun e => match event_color e with Some c => c = color | None => True end)
        (_d_helper E vec vname color bw textsize linewidth markersize alpha point_estimate
                   hpd_markers outline shade ax).
Proof.
  unfold _d_helper, kde_branch, hist_branch, finish_panel, call_fast_kde, call_hpd.
  steps_tac.
Qed.

Lemma d_helper_no_legend_no_layout vec vname color bw textsize linewidth markersize alpha
    point_estimate hpd_markers outline shade ax :
  steps (fun e => is_legend_call e = false ∧ creates_figure e = false
                  ∧ e ≠ Fig_tight_layout)
        (_d_helper E vec vname color bw textsize linewidth markersize alpha point_estimate
                   hpd_markers outline shade ax).
Proof.
  unfold _d_helper, kde_branch, hist_branch, finish_panel, call_fast_kde, call_hpd.
  steps_tac.
Qed.

Lemma d_helper_edge_colors vec vname color bw textsize linewidth markersize alpha
    point_estimate hpd_markers outline shade ax :
  steps (fun e => match event_edge_color e with Some c => c = "k" | None => True end)
        (_d_helper E vec vname color bw textsize linewidth markersize alpha point_estimate
                   hpd_markers outline shade ax).
Proof.
  unfold _d_helper, kde_branch, hist_branch, finish_panel, call_fast_kde, call_hpd.
  steps_tac.
Qed.

(** X8: Every colour a call passes to matplotlib as [color] (or [c]) is an
    entry of the resolved list of colours: with a colour given as a string
    other than 'cycle' it is this colour.  The one other colour a call
    passes is the colour of the edge of the markers, which is 'k' whatever
    the colours of the datasets are. *)
Theorem colours_come_from_the_list
    data data_labels var_names alpha point_estimate colors outline hpd_markers shade bw
    figsize textsize skip_first h h' t r :
  densityplot E data data_labels var_names alpha point_estimate colors outline hpd_markers
              shade bw figsize textsize skip_first h = (h', t, r) ->
  (∀ e c, e ∈ t -> event_color e = Some c ->
     c ∈ resolve_colors colors (length (objs_of data))) ∧
  (∀ s e c, colors = ColorStr s -> s ≠ "cycle" -> e ∈ t -> event_color e = Some c -> c = s) ∧
  (∀ e c, e ∈ t -> event_edge_color e = Some c -> c = "k") ∧
  (∀ ax x y marker color edge markersize,
     Ax_plot_marker ax x y marker color edge markersize ∈ t ->
     color ∈ resolve_colors colors (length (objs_of data)) ∧ edge = "k").
Proof.
  intros Hrun.
  assert (∀ e c, e ∈ t -> event_color e = Some c ->
            c ∈ resolve_colors colors (length (objs_of data))) as Hall.
  { intros e c He Hc.
    eapply (densityplot_events
              (fun e => match event_color e with
                        | Some c => c ∈ resolve_colors colors (length (objs_of data))
                        | None => True
                        end)) in Hrun.
    - rewrite Forall_forall in Hrun. specialize (Hrun e He). by rewrite Hc in Hrun.
    - by intros [].
    - done.
    - intros vec vname color ts lw ms ax Hcolor.
      eapply steps_mono; [|apply d_helper_colors].
      intros e'. simpl. destruct (event_color e'); [by intros -> | done].
    - intros _. split; [|done]. by intros ax label color ms Hcolor.
    - done. }
  assert (∀ e c, e ∈ t -> event_edge_color e = Some c -> c = "k") as Hedge.
  { intros e c He Hc.
    eapply (densityplot_events
              (fun e => match event_edge_color e with
                        | Some c => c = "k"
                        | None => True
                        end)) in Hrun.
    - rewrite Forall_forall in Hrun. specialize (Hrun e He). by rewrite Hc in Hrun.
    - by intros [].
    - done.
    - intros vec vname color ts lw ms ax _. apply d_helper_edge_colors.
    - done.
    - done. }
  split; [done|]. split; [|split; [done|]].
  - intros s e c -> Hs He Hc. specialize (Hall e c He Hc).
    unfold resolve_colors in Hall.
    destruct (String.eqb_spec s "cycle") as [?|_]; [done|].
    by apply list_elem_of_fmap in Hall as (? & -> & _).
  - intros ax x y marker color edge markersize Hin. split.
    + by apply (Hall _ color Hin).
    + by apply (Hedge _ edge Hin).
Qed.

(** X9: A call on one dataset makes no legend: no legend entry is plotted,
    [ax.legend] is not called. *)
Theorem no_legend_for_one_dataset
    data data_labels var_names alpha point_estimate colors outline hpd_markers shade bw
    figsize textsize skip_first h h' t r :
  length (objs_of data) <= 1 ->
  densityplot E data data_labels var_names alpha point_estimate colors outline hpd_markers
              shade bw figsize textsize skip_first h = (h', t, r) ->
  Forall (fun e => is_legend_call e = false) t.
Proof.
  intros Hone Hrun.
  eapply (densityplot_events (fun e => is_legend_call e = false)) in Hrun; [done|..].
  - by intros [].
  - done.
  - intros vec vname color ts lw ms ax _.
    eapply steps_mono; [|apply d_helper_no_legend_no_layout]. by intros e' (? & _).
  - lia.
  - done.
Qed.

(** X10: A call makes at most one figure, of one column; its size is the
    [figsize] of the caller or, by default, 6 by twice the number of
    panels. *)
Theorem one_figure_of_default_size
    data data_labels var_names alpha point_estimate colors outline hpd_markers shade bw
    figsize textsize skip_first h h' t r :
  densityplot E data data_labels var_names alpha point_estimate colors outline hpd_markers
              shade bw figsize textsize skip_first h = (h', t, r) ->
  (∀ nrows ncols fs, Plt_subplots nrows ncols fs ∈ t ->
     ncols = 1 ∧
     fs = match figsize with
          | Some size => size
          | None => (6, inject_Z (Z.of_nat (nrows * 2)))%Q
          end) ∧
  length (filter (fun e => creates_figure e = true) t) <= 1.
Proof.
  intros Hrun. split.
  - intros nrows ncols fs Hin.
    eapply (densityplot_events
              (fun e => ∀ nrows ncols fs, e = Plt_subplots nrows ncols fs ->
                          ncols = 1 ∧ fs = figsize_of figsize nrows)) in Hrun.
    + rewrite Forall_forall in Hrun. by apply (Hrun _ Hin).
    + by intros [].
    + by intros n ? ? ? [= <- <- <-].
    + intros vec vname color ts lw ms ax _.
      eapply steps_mono; [|apply d_helper_no_legend_no_layout].
      intros e' (_ & Hfig & _) ? ? ? ->. done.
    + done.
    + done.
  - unfold densityplot in Hrun.
    apply bind_run in Hrun
      as [(e & Hprep & _) | (h1 & t1 & datasets & t2 & Hprep & Hrun & ->)].
    { apply prepare_datasets_steps in Hprep as [_ Ht].
      rewrite filter_creates_figure_nil; [simpl; lia|].
      eapply Forall_impl; [exact Ht|]. by intros e' (? & _)%is_plotting_draws_nothing. }
    apply prepare_datasets_steps in Hprep as [_ Ht1].
    rewrite filter_app, (filter_creates_figure_nil t1).
    2:{ eapply Forall_impl; [exact Ht1|]. by intros e' (? & _)%is_plotting_draws_nothing. }
    apply bind_run in Hrun as [(e & Hcheck & _) | (h2 & t3 & [] & t4 & Hcheck & Hrun & ->)].
    { apply check_point_estimate_run in Hcheck as (_ & -> & _). simpl. lia. }
    apply check_point_estimate_run in Hcheck as (-> & -> & _). simpl.
    rewrite plot_datasets_unfold in Hrun. cbv zeta in Hrun.
    destruct (resolve_data_labels _ _) as [e|labels]; [injection Hrun as <- <- <-; simpl; lia|].
    destruct (comprehension _ datasets h1) as [[h2 t5] [e|to_plot]] eqn:Hiter.
    { injection Hrun as <- <- <-.
      pose proof (steps_comprehension _ _ datasets (var_iter_list_steps E var_names)
                    _ _ _ _ Hiter) as [_ Ht5].
      rewrite filter_creates_figure_nil; [simpl; lia|].
      eapply Forall_impl; [exact Ht5|]. by intros e' (? & _)%is_plotting_draws_nothing. }
    pose proof (steps_comprehension _ _ datasets (var_iter_list_steps E var_names)
                  _ _ _ _ Hiter) as [_ Ht5].
    assert (filter (fun e => creates_figure e = true) t5 = []) as Hnil5.
    { apply filter_creates_figure_nil.
      eapply Forall_impl; [exact Ht5|]. by intros e' (? & _)%is_plotting_draws_nothing. }
    destruct (size (collect_labels E to_plot) =? 0).
    { injection Hrun as <- <- <-. rewrite filter_app, Hnil5. simpl. lia. }
    destruct (render_all _ _ _ _ _ _ _ _ _ _ _ _ _ _) as [[h3 t6] r6] eqn:Hrender.
    pose proof (render_all_draws E _ _ _ _ _ _ _ _ _ _ _ _ _ _ _ _ Hrender) as [_ Ht6].
    assert (filter (fun e => creates_figure e = true) t6 = []) as Hnil6.
    { apply filter_creates_figure_nil.
      eapply Forall_impl; [exact Ht6|]. by intros e' (? & _). }
    destruct r6 as [e|[]].
    { injection Hrun as <- <- <-.
      rewrite filter_app, filter_cons, Hnil5, Hnil6. simpl. lia. }
    destruct (when _ _ h3) as [[h4 t7] r7] eqn:Hlegend.
    pose proof (add_legend_steps _ _ _ _ _ _ _ _ _ _ Hlegend) as [_ Ht7].
    assert (filter (fun e => creates_figure e = true) t7 = []) as Hnil7.
    { apply filter_creates_figure_nil.
      eapply Forall_impl; [exact Ht7|]. by intros e' (? & _). }
    destruct r7 as [e|[]]; injection Hrun as <- <- <-;
      rewrite filter_app, filter_cons, ?filter_app, Hnil5, Hnil6, Hnil7; simpl; lia.
Qed.

End Call_events.

Section Call_outcome.

Variable E : Collaborators.

(** X12: [tight_layout] is the last call of a call that returns, and is made
    once; a call that raises has not made it.  The value returned is the
    list of the axes, numbered from 0. *)
Theorem layout_ends_the_call
    data data_labels var_names alpha point_estimate colors outline hpd_markers shade bw
    figsize textsize skip_first h h' t r :
  densityplot E data data_labels var_names alpha point_estimate colors outline hpd_markers
              shade bw figsize textsize skip_first h = (h', t, r) ->
  match r with
  | inl _ => Fig_tight_layout ∉ t
  | inr axes =>
      ∃ t', t = t' ++ [Fig_tight_layout] ∧ (Fig_tight_layout ∉ t') ∧
            axes = seq 0 (length axes)
  end.
Proof.
  intros Hrun.
  assert (∀ l : list event, Forall (fun e => e ≠ Fig_tight_layout) l -> Fig_tight_layout ∉ l)
    as Hnotin.
  { intros l Hl Hin. rewrite Forall_forall in Hl. by apply (Hl _ Hin). }
  assert (∀ l : list event, Forall (fun e => is_plotting e = false) l ->
            Forall (fun e => e ≠ Fig_tight_layout) l) as Hquiet.
  { intros l Hl. eapply Forall_impl; [exact Hl|]. by intros e He ->. }
  unfold densityplot in Hrun.
  apply bind_run in Hrun as [(e & Hprep & ->) | (h1 & t1 & datasets & t2 & Hprep & Hrun & ->)].
  { apply prepare_datasets_steps in Hprep as [_ Ht]. by apply Hnotin, Hquiet. }
  apply prepare_datasets_steps in Hprep as [_ Ht1%Hquiet].
  apply bind_run in Hrun as [(e & Hcheck & ->) | (h2 & t3 & [] & t4 & Hcheck & Hrun & ->)].
  { apply check_point_estimate_run in Hcheck as (_ & -> & _).
    rewrite app_nil_r. by apply Hnotin. }
  apply check_point_estimate_run in Hcheck as (-> & -> & _). simpl.
  rewrite plot_datasets_unfold in Hrun. cbv zeta in Hrun.
  destruct (resolve_data_labels _ _) as [e|labels].
  { injection Hrun as <- <- <-. rewrite app_nil_r. by apply Hnotin. }
  destruct (comprehension _ datasets h1) as [[h2 t5] r5] eqn:Hiter.
  pose proof (steps_comprehension _ _ datasets (var_iter_list_steps E var_names)
                _ _ _ _ Hiter) as [_ Ht5%Hquiet].
  destruct r5 as [e|to_plot].
  { injection Hrun as <- <- <-. apply Hnotin. by apply Forall_app. }
  destruct (size (collect_labels E to_plot) =? 0).
  { injection Hrun as <- <- <-. apply Hnotin.
    apply Forall_app. split; [done|]. apply Forall_app. split; [done|].
    by repeat constructor. }
  destruct (render_all _ _ _ _ _ _ _ _ _ _ _ _ _ _) as [[h3 t6] r6] eqn:Hrender.
  edestruct (render_all_steps_gen E (fun e => e ≠ Fig_tight_layout)) as [_ Ht6];
    [|exact Hrender|].
  { intros vec vname color ax _.
    eapply steps_mono; [|apply d_helper_no_legend_no_layout]. by intros e (_ & _ & ?). }
  destruct r6 as [e|[]].
  { injection Hrun as <- <- <-. apply Hnotin.
    apply Forall_app. split; [done|]. apply Forall_app. split; [done|].
    by constructor. }
  destruct (when _ _ h3) as [[h4 t7] r7] eqn:Hlegend.
  assert (Forall (fun e => e ≠ Fig_tight_layout) t7) as Ht7.
  { revert Hlegend. destruct (1 <? length datasets).
    - intros Hlegend. simpl in Hlegend.
      by edestruct (add_legend_steps_gen (fun e => e ≠ Fig_tight_layout)) as [_ ?];
        [| |exact Hlegend|].
    - intros [= <- <- <-]. constructor. }
  destruct r7 as [e|[]]; injection Hrun as <- <- <-.
  - apply Hnotin.
    apply Forall_app. split; [done|]. apply Forall_app. split; [done|].
    constructor; [done|]. by apply Forall_app.
  - exists (t1 ++ t5 ++ Plt_subplots (size (collect_labels E to_plot)) 1
                          match figsize with
                          | Some fs => fs
                          | None => (6, inject_Z (Z.of_nat (size (collect_labels E to_plot) * 2)))%Q
                          end :: t6 ++ t7).
    split; [|split].
    + rewrite <- !app_assoc. simpl. by rewrite <- !app_assoc.
    + apply Hnotin.
      apply Forall_app. split; [done|]. apply Forall_app. split; [done|].
      constructor; [done|]. by apply Forall_app.
    + by rewrite length_seq.
Qed.

End Call_outcome.


Section Call_returns.

Variable E : Collaborators.

(** A rendering that returns has rendered every variable. *)
Lemma render_all_can_render colors axis_map bw textsize linewidth markersize alpha
    point_estimate hpd_markers outline shade to_plot h h' t :
  render_all E colors axis_map bw textsize linewidth markersize alpha point_estimate
             hpd_markers outline shade to_plot h = (h', t, inr tt) ->
  ∀ p : plotter, p ∈ concat to_plot -> can_render E bw alpha (ndarray_flatten p.2).
Proof.
  intros Hrender p (plotters & Hp & Hpl)%elem_of_concat.
  apply list_elem_of_lookup in Hpl as [m_idx Hpl].
  apply elem_of_enumerate in Hpl.
  unfold render_all in Hrender.
  destruct (for_each_ok _ _ _ _ _ Hrender _ Hpl) as (ha & hb & ta & Hds & _).
  simpl in Hds. unfold render_dataset in Hds.
  destruct (for_each_ok _ _ _ _ _ Hds _ Hp) as (hc & hd & tb & Hvar & _).
  destruct p as [[var_name sel] values]. simpl in *.
  apply lift_bind_run in Hvar as [(e & _ & _ & _ & [=]) | (color & _ & Hvar)].
  apply lift_bind_run in Hvar as [(e & _ & _ & _ & [=]) | (ax & _ & Hvar)].
  by apply d_helper_ok_inv in Hvar as [_ ?].
Qed.

(** X14: A call returns only if the preparation of the datasets and the
    iteration over the variables have succeeded, [point_estimate] is
    valid, the labels fit the datasets, there is a variable to draw
    (matplotlib refuses a figure without rows), every dataset with a
    variable has a colour, with more than one dataset every label has a
    colour, and the collaborators have returned what the rendering of
    every variable needs.  It then returns the axes of the panels, one
    per distinct label and at least one. *)
Theorem densityplot_returns_only_if
    data data_labels var_names alpha point_estimate colors outline hpd_markers shade bw
    figsize textsize skip_first h h' t axes :
  densityplot E data data_labels var_names alpha point_estimate colors outline hpd_markers
              shade bw figsize textsize skip_first h = (h', t, inr axes) ->
  let prep := prepare_datasets data skip_first h in
  ∃ datasets labels to_plot,
    result_of prep = inr datasets ∧
    valid_point_estimate point_estimate ∧
    resolve_data_labels data_labels (length datasets) = inr labels ∧
    result_of (comprehension (var_iter_list E var_names) datasets (store_of prep))
    = inr to_plot ∧
    instance_labels E to_plot ≠ [] ∧
    (∀ m_idx plotters, to_plot !! m_idx = Some plotters -> plotters ≠ [] ->
       m_idx < length (resolve_colors colors (length datasets))) ∧
    (1 < length datasets ->
       length labels <= length (resolve_colors colors (length datasets))) ∧
    (∀ p : plotter, p ∈ concat to_plot -> can_render E bw alpha (ndarray_flatten p.2)) ∧
    axes = seq 0 (length (remove_dups (instance_labels E to_plot))) ∧
    axes ≠ [].
Proof.
  intros Hrun prep. unfold densityplot in Hrun.
  apply bind_run in Hrun as [(e & _ & [=]) | (h1 & t1 & datasets & t2 & Hprep & Hrun & ->)].
  apply bind_run in Hrun as [(e & _ & [=]) | (h1' & t0 & [] & t3 & Hcheck & Hplot & ->)].
  apply check_point_estimate_run in Hcheck as (-> & -> & [[_ Hvalid] | (? & _ & [=])]).
  rewrite plot_datasets_unfold in Hplot. cbv zeta in Hplot.
  destruct (resolve_data_labels data_labels (length datasets)) as [e|labels] eqn:Hlabels;
    [done|].
  destruct (comprehension _ datasets h1) as [[h2 t4] [e|to_plot]] eqn:Hiter; [done|].
  set (all_labels := collect_labels E to_plot) in *.
  set (cols := resolve_colors colors (length datasets)) in *.
  destruct (Nat.eqb_spec (size all_labels) 0) as [?|Hrows]; [done|].
  destruct (render_all _ _ _ _ _ _ _ _ _ _ _ _ _ _) as [[h3 t5] [e|[]]] eqn:Hrender; [done|].
  destruct (when _ _ h3) as [[h4 t6] [e|[]]] eqn:Hlegend; [done|].
  injection Hplot as <- <- <-.
  exists datasets, labels, to_plot. unfold prep. rewrite Hprep. unfold result_of, store_of.
  simpl. rewrite Hiter. simpl.
  split; [done|]. split; [done|]. split; [done|]. split; [done|].
  split; [apply size_collect_labels_pos; fold all_labels; lia|].
  split; [by eapply render_all_ok|].
  split.
  { intros Hn. destruct (Nat.ltb_spec 1 (length datasets)) as [_|?]; [|lia].
    simpl in Hlegend.
    rewrite (add_legend_run _ _ _ _ _ 0) in Hlegend.
    2:{ destruct (size all_labels * 1) eqn:Hs; [lia | done]. }
    destruct (bool_decide (length labels ≤ length cols)) eqn:Hle; [|done].
    by apply bool_decide_eq_true in Hle. }
  split; [by eapply render_all_can_render|].
  rewrite Nat.mul_1_r. unfold all_labels in *. rewrite size_collect_labels in *.
  split; [done|].
  destruct (length (remove_dups (instance_labels E to_plot))); [lia | done].
Qed.

Lemma render_all_titles colors axis_map bw textsize linewidth markersize alpha
    point_estimate hpd_markers outline shade to_plot h h' t :
  render_all E colors axis_map bw textsize linewidth markersize alpha point_estimate
             hpd_markers outline shade to_plot h = (h', t, inr tt) ->
  ∀ label, label ∈ instance_labels E to_plot ->
    ∃ ax, axis_map !! label = Some ax ∧ Ax_set_title ax label ∈ t.
Proof.
  intros Hrender label (p & -> & Hp)%list_elem_of_fmap_1.
  apply elem_of_concat in Hp as (plotters & Hp & Hpl).
  apply list_elem_of_lookup in Hpl as [m_idx Hpl].
  apply elem_of_enumerate in Hpl.
  unfold render_all in Hrender.
  destruct (for_each_ok _ _ _ _ _ Hrender _ Hpl) as (ha & hb & ta & Hds & Hsub).
  simpl in Hds. unfold render_dataset in Hds.
  destruct (for_each_ok _ _ _ _ _ Hds _ Hp) as (hc & hd & tb & Hvar & Hsub').
  destruct p as [[var_name sel] values]. simpl in *.
  apply lift_bind_run in Hvar as [(e & _ & _ & _ & [=]) | (color & _ & Hvar)].
  apply lift_bind_run in Hvar as [(e & _ & _ & _ & [=]) | (ax & Hax & Hvar)].
  apply d_helper_title in Hvar.
  exists ax. split.
  - unfold dict_getitem in Hax.
    destruct (axis_map !! make_label E var_name sel) as [ax'|]; [|done].
    by injection Hax as ->.
  - by apply Hsub, Hsub'.
Qed.

(** X15: In a call that returns, panels and display labels correspond one to
    one: no panel gets the titles of two labels, and every panel of the
    figure gets a title. *)
Theorem panels_and_labels_correspond
    data data_labels var_names alpha point_estimate colors outline hpd_markers shade bw
    figsize textsize skip_first h h' t axes :
  densityplot E data data_labels var_names alpha point_estimate colors outline hpd_markers
              shade bw figsize textsize skip_first h = (h', t, inr axes) ->
  (∀ ax label label',
     Ax_set_title ax label ∈ t -> Ax_set_title ax label' ∈ t -> label = label') ∧
  (∀ ax, ax ∈ axes -> ∃ label, Ax_set_title ax label ∈ t).
Proof.
  unfold densityplot. intros Hrun.
  apply bind_run in Hrun as [(e & _ & [=]) | (h1 & t1 & datasets & t2 & Hprep & Hrun & ->)].
  apply bind_run in Hrun as [(e & _ & [=]) | (h1' & t0 & [] & t3 & Hcheck & Hplot & ->)].
  apply check_point_estimate_run in Hcheck as (-> & -> & _).
  rewrite plot_datasets_unfold in Hplot. cbv zeta in Hplot.
  destruct (resolve_data_labels data_labels (length datasets)) as [e|labels]; [done|].
  destruct (comprehension _ datasets h1) as [[h2 t4] [e|to_plot]] eqn:Hiter; [done|].
  set (all_labels := collect_labels E to_plot) in *.
  set (fs := match figsize with Some fs => fs | None => _ end) in *.
  set (axis_map := make_axis_map all_labels (seq 0 (size all_labels * 1))) in *.
  destruct (size all_labels =? 0); [done|].
  destruct (render_all _ _ _ _ _ _ _ _ _ _ _ _ _ _) as [[h3 t5] [e|[]]] eqn:Hrender; [done|].
  destruct (when _ _ h3) as [[h4 t6] [e|[]]] eqn:Hlegend; [done|].
  injection Hplot as <- <- <-.
  pose proof (prepare_datasets_steps _ _ _ _ _ _ Hprep) as [_ Ht1].
  pose proof (steps_comprehension _ _ datasets (var_iter_list_steps E var_names)
                _ _ _ _ Hiter) as [_ Ht4].
  pose proof (render_all_draws E _ _ _ _ _ _ _ _ _ _ _ _ _ _ _ _ Hrender) as [_ Ht5].
  pose proof (add_legend_steps _ _ _ _ _ _ _ _ _ _ Hlegend) as [_ Ht6].
  split.
  - assert (∀ ax label,
              Ax_set_title ax label
                ∈ t1 ++ [] ++ t4 ++ Plt_subplots (size all_labels) 1 fs :: t5 ++ t6
                    ++ [Fig_tight_layout] ->
              axis_map !! label = Some ax) as Htitles.
    { intros ax label Hin.
      rewrite Forall_forall in Ht1, Ht4, Ht5, Ht6.
      rewrite !elem_of_app, elem_of_cons, !elem_of_app in Hin.
      destruct Hin as [Hin | [Hin | [Hin | [Hin | [Hin | [Hin | Hin]]]]]].
      - by apply Ht1 in Hin.
      - by apply elem_of_nil in Hin.
      - by apply Ht4 in Hin.
      - done.
      - by destruct (Ht5 _ Hin) as (_ & _ & ?).
      - by destruct (Ht6 _ Hin) as (_ & ?).
      - by apply list_elem_of_singleton in Hin. }
    intros ax label label' Hl%Htitles Hl'%Htitles. by eapply axis_map_inj.
  - intros ax Hax%elem_of_seq.
    destruct (lookup_lt_is_Some_2 (elements all_labels) ax) as [label Hlabel].
    { unfold size, set_size in Hax. simpl in Hax. lia. }
    assert (label ∈ instance_labels E to_plot) as Hin.
    { apply elem_of_collect_labels, elem_of_elements. by eapply list_elem_of_lookup_2. }
    destruct (render_all_titles _ _ _ _ _ _ _ _ _ _ _ _ _ _ _ Hrender label Hin)
      as (ax' & Hax' & Htitle).
    apply axis_map_lookup in Hax'.
    assert (ax' = ax) as ->.
    { eapply (NoDup_lookup (elements all_labels)); [apply NoDup_elements | exact Hax' | exact Hlabel]. }
    exists label. elem_of_tac.
Qed.

End Call_returns.

(** * The burn-in filter on datasets without missing values *)

Lemma ds_where_all_true (d : Dataset) (cond : list bool) :
  length cond = length (slices d) -> Forall (fun b => b = true) cond ->
  ds_where d cond = d.
Proof.
  destruct d as [ss]. unfold ds_where. simpl. intros Hlen Hall. f_equal.
  revert ss Hlen. induction Hall as [|b cond -> _ IH]; intros [|s ss] Hlen; try done.
  simpl. f_equal. apply IH. simpl in Hlen. lia.
Qed.

Lemma ds_dropna_without_nan (d : Dataset) :
  Forall (fun s => slice_has_nan s = false) (slices d) -> ds_dropna_draw d = d.
Proof.
  destruct d as [ss]. unfold ds_dropna_draw. simpl. intros Hall. f_equal.
  induction Hall as [|s ss Hs _ IH]; [done|].
  rewrite filter_cons, IH. by destruct (decide _).
Qed.

(** X16: With [skip_first] not above any draw and no missing value (the
    default [skip_first=0] on draws numbered from 0) the filter drops
    nothing: its result is a new object that holds the same dataset, and
    the dataset of the caller is as before. *)
Theorem burn_in_keeps_a_clean_dataset (skip_first : Z) (l : loc) (d : Dataset) h :
  h !! l = Some (XrDataset d) ->
  Forall (fun s => (skip_first <= draw_coord s)%Z ∧ slice_has_nan s = false) (slices d) ->
  ∃ h' t out,
    burn_in_one skip_first l h = (h', t, inr out) ∧
    out ≠ l ∧
    h' !! out = Some (XrDataset d) ∧
    h' !! l = Some (XrDataset d).
Proof.
  intros Hl Hall.
  pose proof (burn_in_one_run skip_first l d h Hl) as Hrun. cbv zeta in Hrun.
  assert (ds_where d (map (fun c => (skip_first <=? c)%Z) (ds_draw d)) = d) as Hwhere.
  { apply ds_where_all_true.
    - unfold ds_draw. by rewrite !length_map.
    - unfold ds_draw. rewrite !Forall_fmap. eapply Forall_impl; [exact Hall|].
      intros s [Hs _]. simpl. by apply Z.leb_le. }
  rewrite Hwhere in Hrun.
  rewrite ds_dropna_without_nan in Hrun.
  2:{ eapply Forall_impl; [exact Hall|]. by intros s [_ ?]. }
  eexists _, _, _. split; [exact Hrun|].
  apply lookup_lt_Some in Hl as Hlt.
  split; [lia|]. split.
  - rewrite lookup_app_r by lia. by replace (S (length h) - length h) with 1 by lia.
  - by apply lookup_app_l_Some.
Qed.

(** X17: With [skip_first] above every draw, the filter leaves a dataset
    without draws; it does not raise. *)
Theorem burn_in_past_the_last_draw (skip_first : Z) (l : loc) (d : Dataset) h :
  h !! l = Some (XrDataset d) ->
  Forall (fun s => (draw_coord s < skip_first)%Z ∧ slice_has_value s = true) (slices d) ->
  ∃ h' t out,
    burn_in_one skip_first l h = (h', t, inr out) ∧
    h' !! out = Some (XrDataset {| slices := [] |}) ∧
    h' !! l = Some (XrDataset d).
Proof.
  intros Hl Hall.
  pose proof (burn_in_one_run skip_first l d h Hl) as Hrun. cbv zeta in Hrun.
  eexists _, _, _. split; [exact Hrun|]. split.
  - rewrite lookup_app_r by lia. replace (S (length h) - length h) with 1 by lia.
    simpl. do 2 f_equal.
    destruct (ds_dropna_draw _) as [ss] eqn:Hss. f_equal.
    change ss with (slices {| slices := ss |}). rewrite <- Hss.
    rewrite where_dropna_with_values.
    2:{ eapply Forall_impl; [exact Hall|]. by intros s [_ ?]. }
    clear Hss. induction Hall as [|s ss' [Hs _] _ IH]; [done|].
    rewrite filter_cons, IH. destruct (decide _) as [[? _]|_]; [lia | done].
  - by apply lookup_app_l_Some.
Qed.

(** The further properties of a call on concrete datasets. *)

Lemma colours_come_from_the_list_witness :
  let h := [XrDataset (Demo.dataset1 "mu" [Num 1; Num 2; Num 3])] in
  let run := densityplot Demo.env (Single 0) None None (1 # 20)%Q (Some "mean")
               (ColorStr "red") true "v" (1 # 2)%Q (9 # 2)%Q None None 0%Z h in
  result_of run = inr [0] ∧
  (∀ e c, e ∈ trace_of run -> event_color e = Some c -> c = "red") ∧
  (∀ e c, e ∈ trace_of run -> event_edge_color e = Some c -> c = "k").
Proof.
  intros h run. split; [vm_compute; reflexivity|].
  destruct (colours_come_from_the_list Demo.env (Single 0) None None (1 # 20)%Q (Some "mean")
              (ColorStr "red") true "v" (1 # 2)%Q (9 # 2)%Q None None 0%Z h
              (store_of run) (trace_of run) (result_of run)) as (_ & Hstr & Hedge & _).
  { vm_compute. reflexivity. }
  split; [|exact Hedge].
  intros e c. apply (Hstr "red"); [reflexivity | discriminate].
Defined.

Lemma no_legend_for_one_dataset_witness :
  let h := [XrDataset (Demo.dataset1 "mu" [Num 1; Num 2; Num 3])] in
  let run := densityplot Demo.env (Single 0) (Some ["prior"]) None (1 # 20)%Q (Some "mean")
               (ColorStr "cycle") true "v" 0%Q (9 # 2)%Q None None 0%Z h in
  result_of run = inr [0] ∧
  Forall (fun e => is_legend_call e = false) (trace_of run).
Proof.
  intros h run. split; [vm_compute; reflexivity|].
  apply (no_legend_for_one_dataset Demo.env (Single 0) (Some ["prior"]) None (1 # 20)%Q
           (Some "mean") (ColorStr "cycle") true "v" 0%Q (9 # 2)%Q None None 0%Z h
           (store_of run) (trace_of run) (result_of run)).
  - simpl. lia.
  - vm_compute. reflexivity.
Defined.

Lemma one_figure_of_default_size_witness :
  let h := [XrDataset (Demo.dataset1 "mu" [Num 1; Num 2; Num 3]);
            XrDataset (Demo.dataset1 "tau" [Num 2; Num 4; Num 5])] in
  let run := densityplot Demo.env (Sequence [0; 1]) None None (1 # 20)%Q (Some "mean")
               (ColorStr "cycle") true "" 0%Q (9 # 2)%Q None None 0%Z h in
  result_of run = inr [0; 1] ∧
  (∀ nrows ncols fs, Plt_subplots nrows ncols fs ∈ trace_of run ->
     ncols = 1 ∧ fs = (6, inject_Z (Z.of_nat (nrows * 2)))%Q) ∧
  length (filter (fun e => creates_figure e = true) (trace_of run)) <= 1.
Proof.
  intros h run. split; [vm_compute; reflexivity|].
  apply (one_figure_of_default_size Demo.env (Sequence [0; 1]) None None (1 # 20)%Q
           (Some "mean") (ColorStr "cycle") true "" 0%Q (9 # 2)%Q None None 0%Z h
           (store_of run) (trace_of run) (result_of run)).
  vm_compute. reflexivity.
Defined.

Lemma layout_ends_the_call_witness :
  let h := [XrDataset (Demo.dataset1 "mu" [Num 1; Num 2; Num 3]);
            XrDataset (Demo.dataset1 "tau" [Num 2; Num 4; Num 5])] in
  let run := densityplot Demo.env (Sequence [0; 1]) None None (1 # 20)%Q (Some "mean")
               (ColorStr "cycle") true "" 0%Q (9 # 2)%Q None None 0%Z h in
  ∃ t', trace_of run = t' ++ [Fig_tight_layout] ∧ (Fig_tight_layout ∉ t') ∧
        [0; 1] = seq 0 (length [0; 1]).
Proof.
  intros h run.
  apply (layout_ends_the_call Demo.env (Sequence [0; 1]) None None (1 # 20)%Q
           (Some "mean") (ColorStr "cycle") true "" 0%Q (9 # 2)%Q None None 0%Z h
           (store_of run) (trace_of run) (inr [0; 1])).
  vm_compute. reflexivity.
Defined.

Lemma densityplot_returns_only_if_witness :
  let h := [XrDataset (Demo.dataset1 "mu" [Num 1; Num 2; Num (7 # 2)])] in
  let prep := prepare_datasets (Single 0) 0 h in
  ∃ datasets labels to_plot,
    result_of prep = inr datasets ∧
    valid_point_estimate (Some "median") ∧
    resolve_data_labels None (length datasets) = inr labels ∧
    result_of (comprehension (var_iter_list Demo.env None) datasets (store_of prep))
    = inr to_plot ∧
    instance_labels Demo.env to_plot ≠ [] ∧
    (∀ m_idx plotters, to_plot !! m_idx = Some plotters -> plotters ≠ [] ->
       m_idx < length (resolve_colors (ColorStr "cycle") (length datasets))) ∧
    (1 < length datasets ->
       length labels <= length (resolve_colors (ColorStr "cycle") (length datasets))) ∧
    (∀ p : plotter, p ∈ concat to_plot ->
       can_render Demo.env (9 # 2)%Q (1 # 20)%Q (ndarray_flatten p.2)) ∧
    [0] = seq 0 (length (remove_dups (instance_labels Demo.env to_plot))) ∧
    [0] ≠ [].
Proof.
  intros h.
  pose (run := densityplot Demo.env (Single 0) None None (1 # 20)%Q (Some "median")
                 (ColorStr "cycle") true "v" (1 # 2)%Q (9 # 2)%Q None None 0%Z h).
  apply (densityplot_returns_only_if Demo.env (Single 0) None None (1 # 20)%Q
           (Some "median") (ColorStr "cycle") true "v" (1 # 2)%Q (9 # 2)%Q None None 0%Z h
           (store_of run) (trace_of run) [0]).
  vm_compute. reflexivity.
Defined.

Lemma panels_and_labels_correspond_witness :
  let h := [XrDataset (Demo.dataset1 "mu" [Num 1; Num 2; Num 3]);
            XrDataset (Demo.dataset1 "tau" [Num 2; Num 4; Num 5])] in
  let run := densityplot Demo.env (Sequence [0; 1]) None None (1 # 20)%Q (Some "mean")
               (ColorStr "cycle") true "" 0%Q (9 # 2)%Q None None 0%Z h in
  (∀ ax label label',
     Ax_set_title ax label ∈ trace_of run -> Ax_set_title ax label' ∈ trace_of run ->
     label = label') ∧
  (∀ ax, ax ∈ [0; 1] -> ∃ label, Ax_set_title ax label ∈ trace_of run).
Proof.
  intros h run.
  apply (panels_and_labels_correspond Demo.env (Sequence [0; 1]) None None (1 # 20)%Q
           (Some "mean") (ColorStr "cycle") true "" 0%Q (9 # 2)%Q None None 0%Z h
           (store_of run) (trace_of run) [0; 1]).
  vm_compute. reflexivity.
Defined.

Lemma burn_in_keeps_a_clean_dataset_witness :
  let d := Demo.dataset1 "mu" [Num 1; Num 2; Num 3] in
  ∃ h' t out,
    burn_in_one 0 0 [XrDataset d] = (h', t, inr out) ∧
    out ≠ 0 ∧
    h' !! out = Some (XrDataset d) ∧
    h' !! 0 = Some (XrDataset d).
Proof.
  intros d.
  apply (burn_in_keeps_a_clean_dataset 0 0 d [XrDataset d]).
  - reflexivity.
  - repeat constructor; simpl; lia.
Defined.

Lemma burn_in_past_the_last_draw_witness :
  let d := Demo.dataset1 "mu" [Num 1; Num 2; Num 3] in
  ∃ h' t out,
    burn_in_one 5 0 [XrDataset d] = (h', t, inr out) ∧
    h' !! out = Some (XrDataset {| slices := [] |}) ∧
    h' !! 0 = Some (XrDataset d).
Proof.
  intros d.
  apply (burn_in_past_the_last_draw 5 0 d [XrDataset d]).
  - reflexivity.
  - repeat constructor; simpl; lia.
Defined.
